(** * RATapi.project: the self-validating project graph

    A shallow embedding of [RATapi/project.py]: the [Project] pydantic model,
    its ten "after" model validators, [model_post_init], and the wrapper that
    [model_post_init] installs around every mutating [ClassList] routine.

    Python objects are mutated in place, and a validator that raises leaves
    behind whatever it had already changed.  The embedding therefore threads
    the project explicitly: a computation takes the project and returns the
    project it leaves behind together with either a value or the exception
    raised. *)

From Stdlib Require Import PrimFloat Ascii String.
From stdpp Require Import base list strings option.

Set Warnings "-inexact-float".

(** ** Python strings

    [str.lower] and [str.title] on the ASCII letters; every other character is
    uncased, which is what Python does for digits, blanks and punctuation. *)

Definition is_upper (c : ascii) : bool :=
  Nat.leb 65 (nat_of_ascii c) && Nat.leb (nat_of_ascii c) 90.

Definition is_lower (c : ascii) : bool :=
  Nat.leb 97 (nat_of_ascii c) && Nat.leb (nat_of_ascii c) 122.

Definition to_lower (c : ascii) : ascii :=
  if is_upper c then ascii_of_nat (nat_of_ascii c + 32) else c.

Definition to_upper (c : ascii) : ascii :=
  if is_lower c then ascii_of_nat (nat_of_ascii c - 32) else c.

Fixpoint lower (s : string) : string :=
  match s with
  | EmptyString => EmptyString
  | String c s' => String (to_lower c) (lower s')
  end.

(** [str.title] walks the string with the flag [previous_is_cased]: a cased
    character after an uncased one is upper-cased, any other cased character
    is lower-cased. *)
Fixpoint title_from (previous_is_cased : bool) (s : string) : string :=
  match s with
  | EmptyString => EmptyString
  | String c s' =>
      if is_lower c then
        String (if previous_is_cased then c else to_upper c) (title_from true s')
      else if is_upper c then
        String (if previous_is_cased then to_lower c else c) (title_from true s')
      else String c (title_from false s')
  end.

Definition title (s : string) : string := title_from false s.

(** A string between double quotes, for the messages. *)
Definition quoted (s : string) : string :=
  String (ascii_of_nat 34) s +:+ String (ascii_of_nat 34) EmptyString.

(** [sep.join(l)] *)
Fixpoint join (sep : string) (l : list string) : string :=
  match l with
  | [] => ""
  | [s] => s
  | s :: l' => s +:+ sep +:+ join sep l'
  end.

(** ** Enumerations (RATapi.utils.enums) *)

Module Calculations.
Inductive t := NonPolarised | Domains.
#[global] Instance eq_dec : EqDecision t.
Proof. solve_decision. Defined.
End Calculations.

Module LayerModels.
Inductive t := CustomLayers | CustomXY | StandardLayers.
#[global] Instance eq_dec : EqDecision t.
Proof. solve_decision. Defined.
End LayerModels.

Module Geometries.
Inductive t := AirSubstrate | SubstrateLiquid.
End Geometries.

Module Priors.
Inductive t := Uniform | Gaussian.
End Priors.

Module TypeOptions.
Inductive t := Constant | Data | Function.
#[global] Instance eq_dec : EqDecision t.
Proof. solve_decision. Defined.
(** The string value of the enumeration, as an f-string prints it. *)
Definition value (x : t) : string :=
  match x with
  | Constant => "constant"
  | Data => "data"
  | Function => "function"
  end.
End TypeOptions.

Module BackgroundActions.
Inductive t := Add | Subtract.
End BackgroundActions.

(** ** Exceptions and results *)

Inductive Exception :=
| ValueError (msg : string)
| TypeError (msg : string)
| ValidationError (title : string) (errors : list string)
| AttributeError (msg : string)
| KeyError (key : string)
| IndexError (msg : string).

Inductive result (A : Type) :=
| Ok (a : A)
| Raise (e : Exception).
Arguments Ok {A} a.
Arguments Raise {A} e.

#[global] Instance result_ret : MRet result := fun A a => Ok a.
#[global] Instance result_bind : MBind result :=
  fun A B f r => match r with Ok a => f a | Raise e => Raise e end.
#[global] Instance result_fmap : FMap result :=
  fun A B f r => match r with Ok a => Ok (f a) | Raise e => Raise e end.

(** [mapM]: build a list, stopping at the first exception. *)
Fixpoint map_result {A B : Type} (f : A → result B) (l : list A) : result (list B) :=
  match l with
  | [] => Ok []
  | a :: l' =>
      match f a with
      | Ok b =>
          match map_result f l' with
          | Ok bs => Ok (b :: bs)
          | Raise e => Raise e
          end
      | Raise e => Raise e
      end
  end.

(** ** Field values and keyword dictionaries *)

Inductive Value :=
| VStr (s : string)
| VFloat (x : float)
| VBool (b : bool)
| VNames (l : list string)
| VPrior (p : Priors.t)
| VType (t : TypeOptions.t)
| VAction (a : BackgroundActions.t)
| VArray (rows : list (list float))
| VRange (r : list float).

(** A Python [dict] with string keys, in insertion order. *)
Definition dict : Type := list (string * Value).

Fixpoint dict_get (d : dict) (key : string) : option Value :=
  match d with
  | [] => None
  | (k, v) :: d' => if String.eqb k key then Some v else dict_get d' key
  end.

(** [d[key] = v] *)
Fixpoint dict_set (d : dict) (key : string) (v : Value) : dict :=
  match d with
  | [] => [(key, v)]
  | (k, w) :: d' =>
      if String.eqb k key then (k, v) :: d' else (k, w) :: dict_set d' key v
  end.

(** [del d[key]] *)
Fixpoint dict_del (d : dict) (key : string) : result dict :=
  match d with
  | [] => Raise (KeyError key)
  | (k, w) :: d' =>
      if String.eqb k key then Ok d'
      else match dict_del d' key with
           | Ok d'' => Ok ((k, w) :: d'')
           | Raise e => Raise e
           end
  end.

Definition keys (d : dict) : list string := map fst d.

(** ** The entity variants (RATapi.models)

    Modelled from the spec: the module [RATapi.models] is not among the
    sources at hand.  The spec describes an entity as "a single named record
    with typed fields, some of which are reference fields", built from keyword
    arguments, with "documented defaults" for the fields a call leaves out.
    The field lists below are the fields that [project.py] and the tests name:
    the keyword arguments of the constructor calls, the tables
    [values_defined_in] and [model_names_used_in], and the keys that
    [set_calculation] and [set_absorption] delete before converting.  Those
    deletions show that a constructor refuses a keyword it does not know;
    numeric range constraints and default-name counters are left out. *)

Definition field_required (cls field : string) : Exception :=
  ValidationError cls [field +:+ ": Field required"].

Definition field_type_error (cls field : string) : Exception :=
  ValidationError cls [field +:+ ": Input has the wrong type"].

Definition extra_forbidden (cls field : string) : Exception :=
  ValidationError cls [field +:+ ": Extra inputs are not permitted"].

(** Every keyword must be a field name or an alias of the class. *)
Fixpoint forbid_extra (cls : string) (allowed : list string) (kwargs : list string) : result unit :=
  match kwargs with
  | [] => Ok ()
  | k :: kwargs' =>
      if bool_decide (k ∈ allowed) then forbid_extra cls allowed kwargs'
      else Raise (extra_forbidden cls k)
  end.

(** A keyword is looked up under its alias first, then under its name. *)
Definition kw_lookup (kwargs : dict) (field : string) (alias : option string) : option Value :=
  match alias with
  | Some a =>
      match dict_get kwargs a with
      | Some v => Some v
      | None => dict_get kwargs field
      end
  | None => dict_get kwargs field
  end.

Definition kw_str (cls : string) (kwargs : dict) (field : string)
    (alias : option string) (default : option string) : result string :=
  match kw_lookup kwargs field alias with
  | Some (VStr s) => Ok s
  | Some _ => Raise (field_type_error cls field)
  | None =>
      match default with
      | Some s => Ok s
      | None => Raise (field_required cls field)
      end
  end.

Definition kw_float (cls : string) (kwargs : dict) (field : string) (default : float) : result float :=
  match dict_get kwargs field with
  | Some (VFloat x) => Ok x
  | Some _ => Raise (field_type_error cls field)
  | None => Ok default
  end.

Definition kw_bool (cls : string) (kwargs : dict) (field : string) (default : bool) : result bool :=
  match dict_get kwargs field with
  | Some (VBool b) => Ok b
  | Some _ => Raise (field_type_error cls field)
  | None => Ok default
  end.

Definition kw_names (cls : string) (kwargs : dict) (field : string) : result (list string) :=
  match dict_get kwargs field with
  | Some (VNames l) => Ok l
  | Some _ => Raise (field_type_error cls field)
  | None => Ok []
  end.

Definition kw_prior (cls : string) (kwargs : dict) (field : string) : result Priors.t :=
  match dict_get kwargs field with
  | Some (VPrior p) => Ok p
  | Some _ => Raise (field_type_error cls field)
  | None => Ok Priors.Uniform
  end.

Definition kw_type (cls : string) (kwargs : dict) (field : string) : result TypeOptions.t :=
  match dict_get kwargs field with
  | Some (VType t) => Ok t
  | Some _ => Raise (field_type_error cls field)
  | None => Ok TypeOptions.Constant
  end.

Definition kw_action (cls : string) (kwargs : dict) (field : string) : result BackgroundActions.t :=
  match dict_get kwargs field with
  | Some (VAction a) => Ok a
  | Some _ => Raise (field_type_error cls field)
  | None => Ok BackgroundActions.Add
  end.

Definition kw_array (cls : string) (kwargs : dict) (field : string) : result (list (list float)) :=
  match dict_get kwargs field with
  | Some (VArray a) => Ok a
  | Some _ => Raise (field_type_error cls field)
  | None => Ok []
  end.

Definition kw_range (cls : string) (kwargs : dict) (field : string) : result (list float) :=
  match dict_get kwargs field with
  | Some (VRange r) => Ok r
  | Some _ => Raise (field_type_error cls field)
  | None => Ok []
  end.

(** [Parameter] and its subclass [ProtectedParameter] have the same fields. *)
Module Parameter_.
Record t := mk {
  name : string;
  min : float;
  value : float;
  max : float;
  fit : bool;
  prior_type : Priors.t;
  mu : float;
  sigma : float;
}.

Definition fields : list string :=
  ["name"; "min"; "value"; "max"; "fit"; "prior_type"; "mu"; "sigma"].

Definition model_dump (p : t) : dict :=
  [("name", VStr (name p)); ("min", VFloat (min p)); ("value", VFloat (value p));
   ("max", VFloat (max p)); ("fit", VBool (fit p)); ("prior_type", VPrior (prior_type p));
   ("mu", VFloat (mu p)); ("sigma", VFloat (sigma p))].

Definition init (cls : string) (kwargs : dict) : result t :=
  _ ← forbid_extra cls fields (keys kwargs);
  name ← kw_str cls kwargs "name" None None;
  min ← kw_float cls kwargs "min" 0%float;
  value ← kw_float cls kwargs "value" 0%float;
  max ← kw_float cls kwargs "max" 0%float;
  fit ← kw_bool cls kwargs "fit" false;
  prior_type ← kw_prior cls kwargs "prior_type";
  mu ← kw_float cls kwargs "mu" 0%float;
  sigma ← kw_float cls kwargs "sigma" infinity;
  Ok (mk name min value max fit prior_type mu sigma).
End Parameter_.

(** [Background]; [Resolution] has the same fields. *)
Module Background.
Record t := mk {
  name : string;
  type : TypeOptions.t;
  value_1 : string;
  value_2 : string;
  value_3 : string;
  value_4 : string;
  value_5 : string;
}.

Definition fields : list string :=
  ["name"; "type"; "value_1"; "value_2"; "value_3"; "value_4"; "value_5"].

Definition model_dump (b : t) : dict :=
  [("name", VStr (name b)); ("type", VType (type b));
   ("value_1", VStr (value_1 b)); ("value_2", VStr (value_2 b));
   ("value_3", VStr (value_3 b)); ("value_4", VStr (value_4 b));
   ("value_5", VStr (value_5 b))].

Definition init (cls : string) (kwargs : dict) : result t :=
  _ ← forbid_extra cls fields (keys kwargs);
  name ← kw_str cls kwargs "name" None None;
  type ← kw_type cls kwargs "type";
  value_1 ← kw_str cls kwargs "value_1" None (Some "");
  value_2 ← kw_str cls kwargs "value_2" None (Some "");
  value_3 ← kw_str cls kwargs "value_3" None (Some "");
  value_4 ← kw_str cls kwargs "value_4" None (Some "");
  value_5 ← kw_str cls kwargs "value_5" None (Some "");
  Ok (mk name type value_1 value_2 value_3 value_4 value_5).
End Background.

Module Resolution := Background.

Module CustomFile.
Record t := mk {
  name : string;
  filename : string;
  function_name : string;
  language : string;
}.

Definition fields : list string := ["name"; "filename"; "function_name"; "language"].

Definition model_dump (c : t) : dict :=
  [("name", VStr (name c)); ("filename", VStr (filename c));
   ("function_name", VStr (function_name c)); ("language", VStr (language c))].

Definition init (cls : string) (kwargs : dict) : result t :=
  _ ← forbid_extra cls fields (keys kwargs);
  name ← kw_str cls kwargs "name" None None;
  filename ← kw_str cls kwargs "filename" None (Some "");
  function_name ← kw_str cls kwargs "function_name" None (Some "");
  language ← kw_str cls kwargs "language" None (Some "python");
  Ok (mk name filename function_name language).
End CustomFile.

Module Data.
Record t := mk {
  name : string;
  data : list (list float);
  simulation_range : list float;
}.

Definition fields : list string := ["name"; "data"; "simulation_range"].

Definition model_dump (d : t) : dict :=
  [("name", VStr (name d)); ("data", VArray (data d));
   ("simulation_range", VRange (simulation_range d))].

Definition init (cls : string) (kwargs : dict) : result t :=
  _ ← forbid_extra cls fields (keys kwargs);
  name ← kw_str cls kwargs "name" None None;
  data ← kw_array cls kwargs "data";
  simulation_range ← kw_range cls kwargs "simulation_range";
  Ok (mk name data simulation_range).
End Data.

(** [Layer] stores its scattering length density under [SLD] and accepts it
    under the keyword [SLD_real] as well; [AbsorptionLayer] stores it under
    [SLD_real] and accepts [SLD].  This is what lets [set_absorption] pass one
    variant's [model_dump] to the other variant's constructor. *)
Module Layer.
Record t := mk {
  name : string;
  thickness : string;
  SLD : string;
  roughness : string;
  hydration : string;
}.

Definition fields : list string :=
  ["name"; "thickness"; "SLD"; "SLD_real"; "roughness"; "hydration"].

Definition model_dump (l : t) : dict :=
  [("name", VStr (name l)); ("thickness", VStr (thickness l)); ("SLD", VStr (SLD l));
   ("roughness", VStr (roughness l)); ("hydration", VStr (hydration l))].

Definition init (cls : string) (kwargs : dict) : result t :=
  _ ← forbid_extra cls fields (keys kwargs);
  name ← kw_str cls kwargs "name" None None;
  thickness ← kw_str cls kwargs "thickness" None None;
  SLD ← kw_str cls kwargs "SLD" (Some "SLD_real") None;
  roughness ← kw_str cls kwargs "roughness" None None;
  hydration ← kw_str cls kwargs "hydration" None (Some "");
  Ok (mk name thickness SLD roughness hydration).
End Layer.

(** Modelled from the spec: "an added imaginary-SLD reference defaults to
    empty" is the default of [SLD_imaginary], declared in RATapi.models. *)
Module AbsorptionLayer.
Record t := mk {
  name : string;
  thickness : string;
  SLD_real : string;
  SLD_imaginary : string;
  roughness : string;
  hydration : string;
}.

Definition fields : list string :=
  ["name"; "thickness"; "SLD_real"; "SLD"; "SLD_imaginary"; "roughness"; "hydration"].

Definition model_dump (l : t) : dict :=
  [("name", VStr (name l)); ("thickness", VStr (thickness l));
   ("SLD_real", VStr (SLD_real l)); ("SLD_imaginary", VStr (SLD_imaginary l));
   ("roughness", VStr (roughness l)); ("hydration", VStr (hydration l))].

Definition init (cls : string) (kwargs : dict) : result t :=
  _ ← forbid_extra cls fields (keys kwargs);
  name ← kw_str cls kwargs "name" None None;
  thickness ← kw_str cls kwargs "thickness" None None;
  SLD_real ← kw_str cls kwargs "SLD_real" (Some "SLD") None;
  SLD_imaginary ← kw_str cls kwargs "SLD_imaginary" None (Some "");
  roughness ← kw_str cls kwargs "roughness" None None;
  hydration ← kw_str cls kwargs "hydration" None (Some "");
  Ok (mk name thickness SLD_real SLD_imaginary roughness hydration).
End AbsorptionLayer.

Module DomainContrast.
Record t := mk {
  name : string;
  model : list string;
}.

Definition fields : list string := ["name"; "model"].

Definition model_dump (c : t) : dict :=
  [("name", VStr (name c)); ("model", VNames (model c))].

Definition init (cls : string) (kwargs : dict) : result t :=
  _ ← forbid_extra cls fields (keys kwargs);
  name ← kw_str cls kwargs "name" None None;
  model ← kw_names cls kwargs "model";
  Ok (mk name model).
End DomainContrast.

Module Contrast.
Record t := mk {
  name : string;
  data : string;
  background : string;
  background_action : BackgroundActions.t;
  bulk_in : string;
  bulk_out : string;
  scalefactor : string;
  resolution : string;
  resample : bool;
  model : list string;
}.

Definition fields : list string :=
  ["name"; "data"; "background"; "background_action"; "bulk_in"; "bulk_out";
   "scalefactor"; "resolution"; "resample"; "model"].

Definition model_dump (c : t) : dict :=
  [("name", VStr (name c)); ("data", VStr (data c)); ("background", VStr (background c));
   ("background_action", VAction (background_action c));
   ("bulk_in", VStr (bulk_in c)); ("bulk_out", VStr (bulk_out c));
   ("scalefactor", VStr (scalefactor c)); ("resolution", VStr (resolution c));
   ("resample", VBool (resample c)); ("model", VNames (model c))].

Definition init (cls : string) (kwargs : dict) : result t :=
  _ ← forbid_extra cls fields (keys kwargs);
  name ← kw_str cls kwargs "name" None None;
  data ← kw_str cls kwargs "data" None (Some "");
  background ← kw_str cls kwargs "background" None (Some "");
  background_action ← kw_action cls kwargs "background_action";
  bulk_in ← kw_str cls kwargs "bulk_in" None (Some "");
  bulk_out ← kw_str cls kwargs "bulk_out" None (Some "");
  scalefactor ← kw_str cls kwargs "scalefactor" None (Some "");
  resolution ← kw_str cls kwargs "resolution" None (Some "");
  resample ← kw_bool cls kwargs "resample" false;
  model ← kw_names cls kwargs "model";
  Ok (mk name data background background_action bulk_in bulk_out scalefactor
        resolution resample model).
End Contrast.

(** Modelled from the spec: switching to a domains calculation gives each
    contrast "a [domain_ratio] reference field defaulted to that entity's
    name", the entity being the default domain ratio "Domain Ratio 1"; the
    default is declared in RATapi.models. *)
Module ContrastWithRatio.
Record t := mk {
  name : string;
  data : string;
  background : string;
  background_action : BackgroundActions.t;
  bulk_in : string;
  bulk_out : string;
  scalefactor : string;
  resolution : string;
  resample : bool;
  domain_ratio : string;
  model : list string;
}.

Definition fields : list string :=
  ["name"; "data"; "background"; "background_action"; "bulk_in"; "bulk_out";
   "scalefactor"; "resolution"; "resample"; "domain_ratio"; "model"].

Definition domain_ratio_default : string := "Domain Ratio 1".

Definition model_dump (c : t) : dict :=
  [("name", VStr (name c)); ("data", VStr (data c)); ("background", VStr (background c));
   ("background_action", VAction (background_action c));
   ("bulk_in", VStr (bulk_in c)); ("bulk_out", VStr (bulk_out c));
   ("scalefactor", VStr (scalefactor c)); ("resolution", VStr (resolution c));
   ("resample", VBool (resample c)); ("domain_ratio", VStr (domain_ratio c));
   ("model", VNames (model c))].

Definition init (cls : string) (kwargs : dict) : result t :=
  _ ← forbid_extra cls fields (keys kwargs);
  name ← kw_str cls kwargs "name" None None;
  data ← kw_str cls kwargs "data" None (Some "");
  background ← kw_str cls kwargs "background" None (Some "");
  background_action ← kw_action cls kwargs "background_action";
  bulk_in ← kw_str cls kwargs "bulk_in" None (Some "");
  bulk_out ← kw_str cls kwargs "bulk_out" None (Some "");
  scalefactor ← kw_str cls kwargs "scalefactor" None (Some "");
  resolution ← kw_str cls kwargs "resolution" None (Some "");
  resample ← kw_bool cls kwargs "resample" false;
  domain_ratio ← kw_str cls kwargs "domain_ratio" None (Some domain_ratio_default);
  model ← kw_names cls kwargs "model";
  Ok (mk name data background background_action bulk_in bulk_out scalefactor
        resolution resample domain_ratio model).
End ContrastWithRatio.

(** The classes of RATapi.models, and an entity as the tagged union of the
    variant records. *)
Inductive class :=
| cParameter | cProtectedParameter | cBackground | cResolution | cCustomFile | cData
| cLayer | cAbsorptionLayer | cDomainContrast | cContrast | cContrastWithRatio.

#[global] Instance class_eq_dec : EqDecision class.
Proof. solve_decision. Defined.

(** [cls.__name__] *)
Definition __name__ (c : class) : string :=
  match c with
  | cParameter => "Parameter"
  | cProtectedParameter => "ProtectedParameter"
  | cBackground => "Background"
  | cResolution => "Resolution"
  | cCustomFile => "CustomFile"
  | cData => "Data"
  | cLayer => "Layer"
  | cAbsorptionLayer => "AbsorptionLayer"
  | cDomainContrast => "DomainContrast"
  | cContrast => "Contrast"
  | cContrastWithRatio => "ContrastWithRatio"
  end.

Inductive Model :=
| MParameter (r : Parameter_.t)
| MProtectedParameter (r : Parameter_.t)
| MBackground (r : Background.t)
| MResolution (r : Resolution.t)
| MCustomFile (r : CustomFile.t)
| MData (r : Data.t)
| MLayer (r : Layer.t)
| MAbsorptionLayer (r : AbsorptionLayer.t)
| MDomainContrast (r : DomainContrast.t)
| MContrast (r : Contrast.t)
| MContrastWithRatio (r : ContrastWithRatio.t).

(** [type(m)] *)
Definition type_of (m : Model) : class :=
  match m with
  | MParameter _ => cParameter
  | MProtectedParameter _ => cProtectedParameter
  | MBackground _ => cBackground
  | MResolution _ => cResolution
  | MCustomFile _ => cCustomFile
  | MData _ => cData
  | MLayer _ => cLayer
  | MAbsorptionLayer _ => cAbsorptionLayer
  | MDomainContrast _ => cDomainContrast
  | MContrast _ => cContrast
  | MContrastWithRatio _ => cContrastWithRatio
  end.

(** [isinstance(m, c)]: the only subclass is [ProtectedParameter], of
    [Parameter]. *)
Definition isinstance (m : Model) (c : class) : bool :=
  bool_decide (type_of m = c)
  || (bool_decide (type_of m = cProtectedParameter) && bool_decide (c = cParameter)).

(** [m.name] *)
Definition name_of (m : Model) : string :=
  match m with
  | MParameter r | MProtectedParameter r => Parameter_.name r
  | MBackground r | MResolution r => Background.name r
  | MCustomFile r => CustomFile.name r
  | MData r => Data.name r
  | MLayer r => Layer.name r
  | MAbsorptionLayer r => AbsorptionLayer.name r
  | MDomainContrast r => DomainContrast.name r
  | MContrast r => Contrast.name r
  | MContrastWithRatio r => ContrastWithRatio.name r
  end.

(** [m.model_dump()], which is also [vars(m)]: the fields in declaration
    order. *)
Definition model_dump (m : Model) : dict :=
  match m with
  | MParameter r | MProtectedParameter r => Parameter_.model_dump r
  | MBackground r | MResolution r => Background.model_dump r
  | MCustomFile r => CustomFile.model_dump r
  | MData r => Data.model_dump r
  | MLayer r => Layer.model_dump r
  | MAbsorptionLayer r => AbsorptionLayer.model_dump r
  | MDomainContrast r => DomainContrast.model_dump r
  | MContrast r => Contrast.model_dump r
  | MContrastWithRatio r => ContrastWithRatio.model_dump r
  end.

(** The constructor call of class [c] with the keyword arguments [kwargs]. *)
Definition construct (c : class) (kwargs : dict) : result Model :=
  match c with
  | cParameter => MParameter <$> Parameter_.init (__name__ c) kwargs
  | cProtectedParameter => MProtectedParameter <$> Parameter_.init (__name__ c) kwargs
  | cBackground => MBackground <$> Background.init (__name__ c) kwargs
  | cResolution => MResolution <$> Resolution.init (__name__ c) kwargs
  | cCustomFile => MCustomFile <$> CustomFile.init (__name__ c) kwargs
  | cData => MData <$> Data.init (__name__ c) kwargs
  | cLayer => MLayer <$> Layer.init (__name__ c) kwargs
  | cAbsorptionLayer => MAbsorptionLayer <$> AbsorptionLayer.init (__name__ c) kwargs
  | cDomainContrast => MDomainContrast <$> DomainContrast.init (__name__ c) kwargs
  | cContrast => MContrast <$> Contrast.init (__name__ c) kwargs
  | cContrastWithRatio => MContrastWithRatio <$> ContrastWithRatio.init (__name__ c) kwargs
  end.

(** [getattr(m, field, default)] and [setattr(m, field, v)] on an entity.
    Assignment is validated: the entity is rebuilt from its fields with the
    new value, and a name that is not a field is refused. *)
Definition getattr_default (m : Model) (field : string) (default : Value) : Value :=
  match dict_get (model_dump m) field with
  | Some v => v
  | None => default
  end.

Definition setattr (m : Model) (field : string) (v : Value) : result Model :=
  match dict_get (model_dump m) field with
  | Some _ => construct (type_of m) (dict_set (model_dump m) field v)
  | None => Raise (ValueError (__name__ (type_of m) +:+ " object has no field " +:+ field))
  end.

(** [m.model], the reference list of a contrast or a domain contrast. *)
Definition model_field (m : Model) : result (list string) :=
  match m with
  | MDomainContrast r => Ok (DomainContrast.model r)
  | MContrast r => Ok (Contrast.model r)
  | MContrastWithRatio r => Ok (ContrastWithRatio.model r)
  | _ => Raise (AttributeError (__name__ (type_of m) +:+ " object has no attribute model"))
  end.

(** [m.type], of a background or a resolution. *)
Definition type_field (m : Model) : result TypeOptions.t :=
  match m with
  | MBackground r | MResolution r => Ok (Background.type r)
  | _ => Raise (AttributeError (__name__ (type_of m) +:+ " object has no attribute type"))
  end.

#[global] Instance Value_eq_dec_str (v : Value) (s : string) : Decision (v = VStr s).
Proof.
  destruct v as [s'| | | | | | | |]; try (right; discriminate).
  destruct (decide (s' = s)) as [->|]; [left; reflexivity | right; congruence].
Defined.

(** ** ClassList (RATapi.classlist)

    Modelled from the spec: the module [RATapi.classlist] is not among the
    sources at hand.  The spec gives the collection as "an ordered,
    name-addressable container of entities of one variant family" that
    "enforces name uniqueness within itself", with comparison of names
    "case-normalized"; a raw operation "only enforces local shape", failing
    at once on a value that does not match the collection's variant;
    [get_names] "returns the current ordered name list" and [get_all_matches]
    "every (index, field) pair across the collection where some field's value
    currently equals name".  [project.py] asks [hasattr] for [_class_handle],
    so a list that never held an entity has none. *)
Module ClassList.
Record t := mk {
  data : list Model;
  _class_handle : option class;
}.

Definition set_data (cl : t) (l : list Model) : t := mk l (_class_handle cl).
Definition set_handle (cl : t) (c : class) : t := mk (data cl) (Some c).

Definition get_names (cl : t) : list string := map name_of (data cl).

(** The fields of one entity whose value is the string [value]. *)
Definition matching_fields (element : Model) (value : string) : list string :=
  map fst (List.filter (λ kv, bool_decide (kv.2 = VStr value)) (model_dump element)).

Fixpoint matches_from (index : nat) (l : list Model) (value : string) : list (nat * string) :=
  match l with
  | [] => []
  | element :: l' =>
      map (pair index) (matching_fields element value) ++ matches_from (S index) l' value
  end.

Definition get_all_matches (cl : t) (value : string) : list (nat * string) :=
  matches_from 0 (data cl) value.

Definition same_name (value : string) (m : Model) : bool :=
  String.eqb (lower (name_of m)) (lower value).

(** [cl[value]] for a name. *)
Definition __getitem__ (cl : t) (value : string) : result Model :=
  match List.find (same_name value) (data cl) with
  | Some m => Ok m
  | None => Raise (ValueError (value +:+ " is not in list"))
  end.

Fixpoint remove_first (l : list Model) (value : string) : option (list Model) :=
  match l with
  | [] => None
  | m :: l' =>
      if same_name value m then Some l'
      else cons m <$> remove_first l' value
  end.

(** [cl.remove(value)] for a name: the first entity of that name goes. *)
Definition remove (value : string) (cl : t) : t * result unit :=
  match remove_first (data cl) value with
  | Some l => (set_data cl l, Ok ())
  | None => (cl, Raise (ValueError "list.remove(x): x not in list"))
  end.

(** [cl.insert(index, obj)]: the entity must be of the list's class and
    its name must be new. *)
Definition insert (index : nat) (obj : Model) (cl : t) : t * result unit :=
  let handle := default (type_of obj) (_class_handle cl) in
  if negb (isinstance obj handle) then
    (cl, Raise (ValueError ("Input list contains elements of type other than "
                            +:+ __name__ handle)))
  else if existsb (same_name (name_of obj)) (data cl) then
    (cl, Raise (ValueError ("Input list contains objects with the same value of the name attribute: "
                            +:+ lower (name_of obj))))
  else (mk (take index (data cl) ++ obj :: drop index (data cl)) (Some handle), Ok ()).

(** [cl.append(obj)] *)
Definition append (obj : Model) (cl : t) : t * result unit :=
  insert (length (data cl)) obj cl.

(** [cl.clear()] *)
Definition clear (cl : t) : t * result unit := (set_data cl [], Ok ()).

(** Assigning the keyword arguments to the fields of one entity, in order;
    an exception leaves the fields already assigned changed. *)
Fixpoint setattrs (m : Model) (kwargs : dict) : Model * result unit :=
  match kwargs with
  | [] => (m, Ok ())
  | (k, v) :: kwargs' =>
      match setattr m k v with
      | Ok m' => setattrs m' kwargs'
      | Raise e => (m, Raise e)
      end
  end.

(** [cl.set_fields(index, kwargs)]: a new name must not be the name of
    another entity of the list. *)
Definition set_fields (index : nat) (kwargs : dict) (cl : t) : t * result unit :=
  match data cl !! index with
  | None => (cl, Raise (IndexError "list index out of range"))
  | Some element =>
      let others := take index (data cl) ++ drop (S index) (data cl) in
      let clash :=
        match dict_get kwargs "name" with
        | Some (VStr new_name) => existsb (same_name new_name) others
        | _ => false
        end in
      if clash then
        (cl, Raise (ValueError "Input arguments contain the name of another object of the list"))
      else
        let '(element', r) := setattrs element kwargs in
        (set_data cl (<[index := element']> (data cl)), r)
  end.
End ClassList.


(** ** The project *)

(** A dictionary from attribute names to name lists: [_all_names] and
    [_protected_parameters]. *)
Definition names_dict : Type := list (string * list string).

Fixpoint names_get (d : names_dict) (key : string) : result (list string) :=
  match d with
  | [] => Raise (KeyError key)
  | (k, v) :: d' => if String.eqb k key then Ok v else names_get d' key
  end.

Record Project := mkProject {
  name : string;
  calculation : Calculations.t;
  model : LayerModels.t;
  geometry : Geometries.t;
  absorption : bool;
  parameters : ClassList.t;
  bulk_in : ClassList.t;
  bulk_out : ClassList.t;
  scalefactors : ClassList.t;
  domain_ratios : ClassList.t;
  background_parameters : ClassList.t;
  backgrounds : ClassList.t;
  resolution_parameters : ClassList.t;
  resolutions : ClassList.t;
  custom_files : ClassList.t;
  data : ClassList.t;
  layers : ClassList.t;
  domain_contrasts : ClassList.t;
  contrasts : ClassList.t;
  _all_names : names_dict;
  _contrast_model_field : string;
  _protected_parameters : names_dict;
}.

(** [getattr(self, attribute)] for the fields that hold a ClassList. *)
Definition getattr (self : Project) (attribute : string) : result ClassList.t :=
  if String.eqb attribute "parameters" then Ok (parameters self)
  else if String.eqb attribute "bulk_in" then Ok (bulk_in self)
  else if String.eqb attribute "bulk_out" then Ok (bulk_out self)
  else if String.eqb attribute "scalefactors" then Ok (scalefactors self)
  else if String.eqb attribute "domain_ratios" then Ok (domain_ratios self)
  else if String.eqb attribute "background_parameters" then Ok (background_parameters self)
  else if String.eqb attribute "backgrounds" then Ok (backgrounds self)
  else if String.eqb attribute "resolution_parameters" then Ok (resolution_parameters self)
  else if String.eqb attribute "resolutions" then Ok (resolutions self)
  else if String.eqb attribute "custom_files" then Ok (custom_files self)
  else if String.eqb attribute "data" then Ok (data self)
  else if String.eqb attribute "layers" then Ok (layers self)
  else if String.eqb attribute "domain_contrasts" then Ok (domain_contrasts self)
  else if String.eqb attribute "contrasts" then Ok (contrasts self)
  else Raise (AttributeError ("Project object has no attribute " +:+ attribute)).

(** Replace the ClassList held by [attribute]. *)
Definition set_classlist (self : Project) (attribute : string) (cl : ClassList.t) : result Project :=
  if String.eqb attribute "parameters" then
    Ok (mkProject (name self) (calculation self) (model self) (geometry self) (absorption self) cl (bulk_in self) (bulk_out self) (scalefactors self) (domain_ratios self) (background_parameters self) (backgrounds self) (resolution_parameters self) (resolutions self) (custom_files self) (data self) (layers self) (domain_contrasts self) (contrasts self) (_all_names self) (_contrast_model_field self) (_protected_parameters self))
  else if String.eqb attribute "bulk_in" then
    Ok (mkProject (name self) (calculation self) (model self) (geometry self) (absorption self) (parameters self) cl (bulk_out self) (scalefactors self) (domain_ratios self) (background_parameters self) (backgrounds self) (resolution_parameters self) (resolutions self) (custom_files self) (data self) (layers self) (domain_contrasts self) (contrasts self) (_all_names self) (_contrast_model_field self) (_protected_parameters self))
  else if String.eqb attribute "bulk_out" then
    Ok (mkProject (name self) (calculation self) (model self) (geometry self) (absorption self) (parameters self) (bulk_in self) cl (scalefactors self) (domain_ratios self) (background_parameters self) (backgrounds self) (resolution_parameters self) (resolutions self) (custom_files self) (data self) (layers self) (domain_contrasts self) (contrasts self) (_all_names self) (_contrast_model_field self) (_protected_parameters self))
  else if String.eqb attribute "scalefactors" then
    Ok (mkProject (name self) (calculation self) (model self) (geometry self) (absorption self) (parameters self) (bulk_in self) (bulk_out self) cl (domain_ratios self) (background_parameters self) (backgrounds self) (resolution_parameters self) (resolutions self) (custom_files self) (data self) (layers self) (domain_contrasts self) (contrasts self) (_all_names self) (_contrast_model_field self) (_protected_parameters self))
  else if String.eqb attribute "domain_ratios" then
    Ok (mkProject (name self) (calculation self) (model self) (geometry self) (absorption self) (parameters self) (bulk_in self) (bulk_out self) (scalefactors self) cl (background_parameters self) (backgrounds self) (resolution_parameters self) (resolutions self) (custom_files self) (data self) (layers self) (domain_contrasts self) (contrasts self) (_all_names self) (_contrast_model_field self) (_protected_parameters self))
  else if String.eqb attribute "background_parameters" then
    Ok (mkProject (name self) (calculation self) (model self) (geometry self) (absorption self) (parameters self) (bulk_in self) (bulk_out self) (scalefactors self) (domain_ratios self) cl (backgrounds self) (resolution_parameters self) (resolutions self) (custom_files self) (data self) (layers self) (domain_contrasts self) (contrasts self) (_all_names self) (_contrast_model_field self) (_protected_parameters self))
  else if String.eqb attribute "backgrounds" then
    Ok (mkProject (name self) (calculation self) (model self) (geometry self) (absorption self) (parameters self) (bulk_in self) (bulk_out self) (scalefactors self) (domain_ratios self) (background_parameters self) cl (resolution_parameters self) (resolutions self) (custom_files self) (data self) (layers self) (domain_contrasts self) (contrasts self) (_all_names self) (_contrast_model_field self) (_protected_parameters self))
  else if String.eqb attribute "resolution_parameters" then
    Ok (mkProject (name self) (calculation self) (model self) (geometry self) (absorption self) (parameters self) (bulk_in self) (bulk_out self) (scalefactors self) (domain_ratios self) (background_parameters self) (backgrounds self) cl (resolutions self) (custom_files self) (data self) (layers self) (domain_contrasts self) (contrasts self) (_all_names self) (_contrast_model_field self) (_protected_parameters self))
  else if String.eqb attribute "resolutions" then
    Ok (mkProject (name self) (calculation self) (model self) (geometry self) (absorption self) (parameters self) (bulk_in self) (bulk_out self) (scalefactors self) (domain_ratios self) (background_parameters self) (backgrounds self) (resolution_parameters self) cl (custom_files self) (data self) (layers self) (domain_contrasts self) (contrasts self) (_all_names self) (_contrast_model_field self) (_protected_parameters self))
  else if String.eqb attribute "custom_files" then
    Ok (mkProject (name self) (calculation self) (model self) (geometry self) (absorption self) (parameters self) (bulk_in self) (bulk_out self) (scalefactors self) (domain_ratios self) (background_parameters self) (backgrounds self) (resolution_parameters self) (resolutions self) cl (data self) (layers self) (domain_contrasts self) (contrasts self) (_all_names self) (_contrast_model_field self) (_protected_parameters self))
  else if String.eqb attribute "data" then
    Ok (mkProject (name self) (calculation self) (model self) (geometry self) (absorption self) (parameters self) (bulk_in self) (bulk_out self) (scalefactors self) (domain_ratios self) (background_parameters self) (backgrounds self) (resolution_parameters self) (resolutions self) (custom_files self) cl (layers self) (domain_contrasts self) (contrasts self) (_all_names self) (_contrast_model_field self) (_protected_parameters self))
  else if String.eqb attribute "layers" then
    Ok (mkProject (name self) (calculation self) (model self) (geometry self) (absorption self) (parameters self) (bulk_in self) (bulk_out self) (scalefactors self) (domain_ratios self) (background_parameters self) (backgrounds self) (resolution_parameters self) (resolutions self) (custom_files self) (data self) cl (domain_contrasts self) (contrasts self) (_all_names self) (_contrast_model_field self) (_protected_parameters self))
  else if String.eqb attribute "domain_contrasts" then
    Ok (mkProject (name self) (calculation self) (model self) (geometry self) (absorption self) (parameters self) (bulk_in self) (bulk_out self) (scalefactors self) (domain_ratios self) (background_parameters self) (backgrounds self) (resolution_parameters self) (resolutions self) (custom_files self) (data self) (layers self) cl (contrasts self) (_all_names self) (_contrast_model_field self) (_protected_parameters self))
  else if String.eqb attribute "contrasts" then
    Ok (mkProject (name self) (calculation self) (model self) (geometry self) (absorption self) (parameters self) (bulk_in self) (bulk_out self) (scalefactors self) (domain_ratios self) (background_parameters self) (backgrounds self) (resolution_parameters self) (resolutions self) (custom_files self) (data self) (layers self) (domain_contrasts self) cl (_all_names self) (_contrast_model_field self) (_protected_parameters self))
  else Raise (AttributeError ("Project object has no attribute " +:+ attribute)).

(** Assignments to the private attributes and to the mode flags. *)
Definition with_all_names (self : Project) (v : names_dict) : Project :=
  mkProject (name self) (calculation self) (model self) (geometry self) (absorption self) (parameters self) (bulk_in self) (bulk_out self) (scalefactors self) (domain_ratios self) (background_parameters self) (backgrounds self) (resolution_parameters self) (resolutions self) (custom_files self) (data self) (layers self) (domain_contrasts self) (contrasts self) v (_contrast_model_field self) (_protected_parameters self).
Definition with_contrast_model_field (self : Project) (v : string) : Project :=
  mkProject (name self) (calculation self) (model self) (geometry self) (absorption self) (parameters self) (bulk_in self) (bulk_out self) (scalefactors self) (domain_ratios self) (background_parameters self) (backgrounds self) (resolution_parameters self) (resolutions self) (custom_files self) (data self) (layers self) (domain_contrasts self) (contrasts self) (_all_names self) v (_protected_parameters self).
Definition with_protected_parameters (self : Project) (v : names_dict) : Project :=
  mkProject (name self) (calculation self) (model self) (geometry self) (absorption self) (parameters self) (bulk_in self) (bulk_out self) (scalefactors self) (domain_ratios self) (background_parameters self) (backgrounds self) (resolution_parameters self) (resolutions self) (custom_files self) (data self) (layers self) (domain_contrasts self) (contrasts self) (_all_names self) (_contrast_model_field self) v.
Definition with_calculation (self : Project) (v : Calculations.t) : Project :=
  mkProject (name self) v (model self) (geometry self) (absorption self) (parameters self) (bulk_in self) (bulk_out self) (scalefactors self) (domain_ratios self) (background_parameters self) (backgrounds self) (resolution_parameters self) (resolutions self) (custom_files self) (data self) (layers self) (domain_contrasts self) (contrasts self) (_all_names self) (_contrast_model_field self) (_protected_parameters self).
Definition with_model (self : Project) (v : LayerModels.t) : Project :=
  mkProject (name self) (calculation self) v (geometry self) (absorption self) (parameters self) (bulk_in self) (bulk_out self) (scalefactors self) (domain_ratios self) (background_parameters self) (backgrounds self) (resolution_parameters self) (resolutions self) (custom_files self) (data self) (layers self) (domain_contrasts self) (contrasts self) (_all_names self) (_contrast_model_field self) (_protected_parameters self).
Definition with_absorption (self : Project) (v : bool) : Project :=
  mkProject (name self) (calculation self) (model self) (geometry self) v (parameters self) (bulk_in self) (bulk_out self) (scalefactors self) (domain_ratios self) (background_parameters self) (backgrounds self) (resolution_parameters self) (resolutions self) (custom_files self) (data self) (layers self) (domain_contrasts self) (contrasts self) (_all_names self) (_contrast_model_field self) (_protected_parameters self).

(** ** The tables of the module *)

(** Map project fields to pydantic models. *)
Definition model_in_classlist : list (string * class) :=
  [("parameters", cParameter); ("bulk_in", cParameter); ("bulk_out", cParameter);
   ("scalefactors", cParameter); ("domain_ratios", cParameter);
   ("background_parameters", cParameter); ("resolution_parameters", cParameter);
   ("backgrounds", cBackground); ("resolutions", cResolution);
   ("custom_files", cCustomFile); ("data", cData); ("layers", cLayer);
   ("domain_contrasts", cDomainContrast); ("contrasts", cContrast)].

Definition values_defined_in : list (string * string) :=
  [("backgrounds.constant.value_1", "background_parameters");
   ("backgrounds.constant.value_2", "background_parameters");
   ("backgrounds.constant.value_3", "background_parameters");
   ("backgrounds.constant.value_4", "background_parameters");
   ("backgrounds.constant.value_5", "background_parameters");
   ("backgrounds.data.value_1", "data");
   ("backgrounds.data.value_2", "data");
   ("backgrounds.data.value_3", "data");
   ("backgrounds.data.value_4", "data");
   ("backgrounds.data.value_5", "data");
   ("resolutions.constant.value_1", "resolution_parameters");
   ("resolutions.constant.value_2", "resolution_parameters");
   ("resolutions.constant.value_3", "resolution_parameters");
   ("resolutions.constant.value_4", "resolution_parameters");
   ("resolutions.constant.value_5", "resolution_parameters");
   ("resolutions.data.value_1", "data");
   ("resolutions.data.value_2", "data");
   ("resolutions.data.value_3", "data");
   ("resolutions.data.value_4", "data");
   ("resolutions.data.value_5", "data");
   ("layers.thickness", "parameters");
   ("layers.SLD", "parameters");
   ("layers.SLD_real", "parameters");
   ("layers.SLD_imaginary", "parameters");
   ("layers.roughness", "parameters");
   ("contrasts.data", "data");
   ("contrasts.background", "backgrounds");
   ("contrasts.bulk_in", "bulk_in");
   ("contrasts.bulk_out", "bulk_out");
   ("contrasts.scalefactor", "scalefactors");
   ("contrasts.resolution", "resolutions");
   ("contrasts.domain_ratio", "domain_ratios")].

Fixpoint lookup_str (d : list (string * string)) (key : string) : result string :=
  match d with
  | [] => Raise (KeyError key)
  | (k, v) :: d' => if String.eqb k key then Ok v else lookup_str d' key
  end.

Record AllFields := mkAllFields {
  attribute : string;
  fields : list string;
}.

Definition value_fields : list string :=
  ["value_1"; "value_2"; "value_3"; "value_4"; "value_5"].

Definition model_names_used_in : list (string * AllFields) :=
  [("background_parameters", mkAllFields "backgrounds" value_fields);
   ("resolution_parameters", mkAllFields "resolutions" value_fields);
   ("parameters",
    mkAllFields "layers" ["thickness"; "SLD"; "SLD_real"; "SLD_imaginary"; "roughness"; "hydration"]);
   ("data", mkAllFields "contrasts" ["data"]);
   ("backgrounds", mkAllFields "contrasts" ["background"]);
   ("bulk_in", mkAllFields "contrasts" ["bulk_in"]);
   ("bulk_out", mkAllFields "contrasts" ["bulk_out"]);
   ("scalefactors", mkAllFields "contrasts" ["scalefactor"]);
   ("domain_ratios", mkAllFields "contrasts" ["domain_ratio"]);
   ("resolutions", mkAllFields "contrasts" ["resolution"])].

(** Note that the order of these parameters is hard-coded into RAT. *)
Definition parameter_class_lists : list string :=
  ["parameters"; "background_parameters"; "scalefactors"; "bulk_in"; "bulk_out";
   "resolution_parameters"; "domain_ratios"].

Definition class_lists : list string :=
  parameter_class_lists
  ++ ["backgrounds"; "resolutions"; "custom_files"; "data"; "layers"; "domain_contrasts";
      "contrasts"].

(** ** Computations on the project

    [M A] is a piece of Python that runs on [self]: it leaves a project behind
    and either returns an [A] or raises. *)

Definition M (A : Type) : Type := Project → Project * result A.

#[global] Instance M_ret : MRet M := fun A a self => (self, Ok a).
#[global] Instance M_bind : MBind M :=
  fun A B f m self =>
    match m self with
    | (self', Ok a) => f a self'
    | (self', Raise e) => (self', Raise e)
    end.

Definition raise {A : Type} (e : Exception) : M A := fun self => (self, Raise e).
Definition lift {A : Type} (r : result A) : M A := fun self => (self, r).
Definition get_self : M Project := fun self => (self, Ok self).
Definition put_self (self' : Project) : M unit := fun _ => (self', Ok ()).

(** [for a in l: body(a)] *)
Fixpoint for_each {A : Type} (l : list A) (body : A → M unit) : M unit :=
  match l with
  | [] => mret ()
  | a :: l' => body a;; for_each l' body
  end.

(** The first exception of a read-only loop. *)
Fixpoint check_each {A : Type} (f : A → result unit) (l : list A) : result unit :=
  match l with
  | [] => Ok ()
  | a :: l' =>
      match f a with
      | Ok _ => check_each f l'
      | Raise e => Raise e
      end
  end.

(** A loop that assigns to each element in turn; an exception leaves the
    elements already visited changed. *)
Fixpoint update_each (f : Model → result Model) (l : list Model) : list Model * result unit :=
  match l with
  | [] => ([], Ok ())
  | m :: l' =>
      match f m with
      | Ok m' => let '(l'', r) := update_each f l' in (m' :: l'', r)
      | Raise e => (m :: l', Raise e)
      end
  end.

(** [getattr(self, attribute)] *)
Definition attr (attribute : string) : M ClassList.t :=
  self ← get_self;
  lift (getattr self attribute).

(** [getattr(self, attribute).data = l] *)
Definition assign_data (attribute : string) (l : list Model) : M unit :=
  self ← get_self;
  cl ← lift (getattr self attribute);
  self' ← lift (set_classlist self attribute (ClassList.set_data cl l));
  put_self self'.

(** [getattr(self, attribute)._class_handle = c] *)
Definition assign_handle (attribute : string) (c : class) : M unit :=
  self ← get_self;
  cl ← lift (getattr self attribute);
  self' ← lift (set_classlist self attribute (ClassList.set_handle cl c));
  put_self self'.

(** [getattr(self, attribute)._class_handle.__name__] *)
Definition handle_name (attribute : string) : M string :=
  cl ← attr attribute;
  match ClassList._class_handle cl with
  | Some c => mret (__name__ c)
  | None => raise (AttributeError "ClassList object has no attribute _class_handle")
  end.

(** Record the names of all models defined in the project. *)
Definition get_all_names (self : Project) : result names_dict :=
  map_result (λ class_list,
    cl ← getattr self class_list;
    Ok (class_list, ClassList.get_names cl)) class_lists.

Definition protected_names (cl : ClassList.t) : list string :=
  map name_of (List.filter (λ param, isinstance param cProtectedParameter) (ClassList.data cl)).

(** Record the protected parameters defined in the project. *)
Definition get_all_protected_parameters (self : Project) : result names_dict :=
  map_result (λ class_list,
    cl ← getattr self class_list;
    Ok (class_list, protected_names cl)) parameter_class_lists.

(** Get the field used to define the contents of the "model" field in
    contrasts. *)
Definition get_contrast_model_field (self : Project) : string :=
  if decide (model self = LayerModels.StandardLayers) then
    if decide (calculation self = Calculations.Domains) then "domain_contrasts"
    else "layers"
  else "custom_files".

(** ** The "after" model validators, in the order of their definition *)

(** If we are not running a domains calculation, ensure the domain_ratios
    component of the model is empty. *)
Definition set_domain_ratios : M unit :=
  self ← get_self;
  if decide (calculation self ≠ Calculations.Domains) then assign_data "domain_ratios" []
  else mret ().

(** If we are not running a domains calculation with standard layers, ensure
    the domain_contrasts component of the model is empty. *)
Definition set_domain_contrasts : M unit :=
  self ← get_self;
  if negb (bool_decide (calculation self = Calculations.Domains)
           && bool_decide (model self = LayerModels.StandardLayers))
  then assign_data "domain_contrasts" []
  else mret ().

(** If we are not using a standard layers model, ensure the layers component
    of the model is empty. *)
Definition set_layers : M unit :=
  self ← get_self;
  if decide (model self ≠ LayerModels.StandardLayers) then assign_data "layers" []
  else mret ().

Definition default_domain_ratio : Model :=
  MParameter
    (Parameter_.mk "Domain Ratio 1" 0.4%float 0.5%float 0.6%float false Priors.Uniform
       0%float infinity).

(** Apply the calc setting to the project. *)
Definition set_calculation : M unit :=
  self ← get_self;
  handle ← handle_name "contrasts";
  if bool_decide (calculation self = Calculations.Domains) && String.eqb handle "Contrast" then
    contrasts ← attr "contrasts";
    contrast_list ← lift (map_result
      (λ contrast, construct cContrastWithRatio (model_dump contrast))
      (ClassList.data contrasts));
    assign_data "contrasts" contrast_list;;
    assign_data "domain_ratios" [default_domain_ratio];;
    assign_handle "contrasts" cContrastWithRatio
  else if bool_decide (calculation self ≠ Calculations.Domains)
          && String.eqb handle "ContrastWithRatio" then
    contrasts ← attr "contrasts";
    contrast_list ← lift (map_result
      (λ contrast,
         contrast_params ← dict_del (model_dump contrast) "domain_ratio";
         construct cContrast contrast_params)
      (ClassList.data contrasts));
    assign_data "contrasts" contrast_list;;
    assign_handle "contrasts" cContrast
  else mret ().

(** The contents of the "model" field of "contrasts" depend on the values of
    the "calculation" and "model_type" defined in the project. If they have
    changed, clear the contrast models. *)
Definition set_contrast_model_field : M unit :=
  self ← get_self;
  let model_field := get_contrast_model_field self in
  if negb (String.eqb model_field (_contrast_model_field self)) then
    contrasts ← attr "contrasts";
    let '(l, r) := update_each (λ contrast, setattr contrast "model" (VNames []))
                     (ClassList.data contrasts) in
    assign_data "contrasts" l;;
    lift r;;
    self' ← get_self;
    put_self (with_contrast_model_field self' model_field)
  else mret ().

(** Given certain values of the "calculation" and "model" defined in the
    project, the "model" field of "contrasts" may be constrained in its
    length. *)
Definition check_contrast_model_length : M unit :=
  self ← get_self;
  if bool_decide (model self = LayerModels.StandardLayers)
     && bool_decide (calculation self = Calculations.Domains) then
    contrasts ← attr "contrasts";
    lift (check_each
      (λ contrast,
         contrast_model ← model_field contrast;
         match contrast_model with
         | [] => Ok ()
         | _ =>
             if negb (Nat.eqb (length contrast_model) 2) then
               Raise (ValueError
                 ("For a standard layers domains calculation the " +:+ quoted "model"
                  +:+ " field of " +:+ quoted "contrasts"
                  +:+ " must contain exactly two values."))
             else Ok ()
         end)
      (ClassList.data contrasts))
  else if decide (model self ≠ LayerModels.StandardLayers) then
    contrasts ← attr "contrasts";
    lift (check_each
      (λ contrast,
         contrast_model ← model_field contrast;
         if Nat.ltb 1 (length contrast_model) then
           Raise (ValueError
             ("For a custom model calculation the " +:+ quoted "model" +:+ " field of "
              +:+ quoted "contrasts" +:+ " cannot contain more than one value."))
         else Ok ())
      (ClassList.data contrasts))
  else mret ().

(** Apply the absorption setting to the project. *)
Definition set_absorption : M unit :=
  self ← get_self;
  handle ← handle_name "layers";
  if absorption self && String.eqb handle "Layer" then
    layers ← attr "layers";
    layer_list ← lift (map_result
      (λ layer, construct cAbsorptionLayer (model_dump layer))
      (ClassList.data layers));
    assign_data "layers" layer_list;;
    assign_handle "layers" cAbsorptionLayer
  else if negb (absorption self) && String.eqb handle "AbsorptionLayer" then
    layers ← attr "layers";
    layer_list ← lift (map_result
      (λ layer,
         layer_params ← dict_del (model_dump layer) "SLD_imaginary";
         construct cLayer layer_params)
      (ClassList.data layers));
    assign_data "layers" layer_list;;
    assign_handle "layers" cLayer
  else mret ().

(** The inner loop of [update_renamed_models]: every match whose field is
    registered is assigned the new name, through [model_names_list[index]]. *)
Definition rename_matches (attribute : string) (fields : list string) (new_name : string)
    (all_matches : list (nat * string)) : M unit :=
  for_each all_matches (λ '(index, field),
    if bool_decide (field ∈ fields) then
      model_names_list ← attr attribute;
      match ClassList.data model_names_list !! index with
      | Some element =>
          element' ← lift (setattr element field (VStr new_name));
          assign_data attribute (<[index := element']> (ClassList.data model_names_list))
      | None => raise (IndexError "list index out of range")
      end
    else mret ()).

(** [[(old, new) for (old, new) in zip(old_names, new_names) if old != new]] *)
Definition name_diff (old_names new_names : list string) : list (string * string) :=
  filter (λ on, on.1 ≠ on.2) (zip old_names new_names).

(** When models defined in the ClassLists are renamed, we need to update
    that name elsewhere in the project. *)
Definition update_renamed_models : M unit :=
  for_each model_names_used_in (λ '(class_list, uses),
    self ← get_self;
    old_names ← lift (names_get (_all_names self) class_list);
    source ← attr class_list;
    let new_names := ClassList.get_names source in
    if Nat.eqb (length old_names) (length new_names) then
      for_each (name_diff old_names new_names) (λ '(old_name, new_name),
        model_names_list ← attr (attribute uses);
        let all_matches := ClassList.get_all_matches model_names_list old_name in
        rename_matches (attribute uses) (fields uses) new_name all_matches)
    else mret ());;
  self ← get_self;
  all_names ← lift (get_all_names self);
  put_self (with_all_names self all_names).

(** Python truth value, and [str], of a field value.  The reference fields
    hold strings; the other shapes only arise when a list holds entities of a
    foreign class. *)
Definition truthy (v : Value) : bool :=
  match v with
  | VStr s => negb (String.eqb s "")
  | VFloat x => negb (PrimFloat.eqb x 0%float)
  | VBool b => b
  | VNames [] | VArray [] | VRange [] => false
  | _ => true
  end.

Definition str (v : Value) : string :=
  match v with
  | VStr s => s
  | VType t => TypeOptions.value t
  | VBool true => "True"
  | VBool false => "False"
  | _ => "<object>"
  end.

(** [v in allowed_values], a list of names. *)
Definition value_in (v : Value) (allowed_values : list string) : bool :=
  match v with
  | VStr s => bool_decide (s ∈ allowed_values)
  | _ => false
  end.

Definition must_be_defined_in (value : Value) (field attribute target : string) : Exception :=
  ValueError ("The value " +:+ quoted (str value) +:+ " in the " +:+ quoted field
              +:+ " field of " +:+ quoted attribute +:+ " must be defined in "
              +:+ quoted target +:+ ".").

(** Check the values of the given fields in the given model are in the
    supplied list of allowed values. *)
Definition check_allowed_values (attribute : string) (field_list : list string)
    (allowed_values : list string) : M unit :=
  class_list ← attr attribute;
  lift (check_each
    (λ model,
       check_each
         (λ field,
            let value := getattr_default model field (VStr "") in
            if truthy value && negb (value_in value allowed_values) then
              target ← lookup_str values_defined_in (attribute +:+ "." +:+ field);
              Raise (must_be_defined_in value field attribute target)
            else Ok ())
         field_list)
    (ClassList.data class_list)).

(** For backgrounds and resolutions, the list of allowed values depends on
    whether the type of the background/resolution is "constant" or "data". *)
Definition check_allowed_background_resolution_values (attribute : string)
    (field_list : list string) (allowed_constants allowed_data : list string) : M unit :=
  class_list ← attr attribute;
  lift (check_each
    (λ model,
       type ← type_field model;
       allowed_values ←
         match type with
         | TypeOptions.Constant => Ok allowed_constants
         | TypeOptions.Data => Ok allowed_data
         | _ =>
             Raise (ValueError
               (quoted "Function" +:+ " type backgrounds and resolutions are not yet supported."))
         end;
       check_each
         (λ field,
            let value := getattr_default model field (VStr "") in
            if truthy value && negb (value_in value allowed_values) then
              target ← lookup_str values_defined_in
                         (attribute +:+ "." +:+ TypeOptions.value type +:+ "." +:+ field);
              Raise (must_be_defined_in value field attribute target)
            else Ok ())
         field_list)
    (ClassList.data class_list)).

(** The contents of the "model" field of "contrasts" and "domain_contrasts"
    must be defined elsewhere in the project. *)
Definition check_contrast_model_allowed_values (contrast_attribute : string)
    (allowed_values : list string) (allowed_field : string) : M unit :=
  class_list ← attr contrast_attribute;
  lift (check_each
    (λ contrast,
       model_values ← model_field contrast;
       match model_values with
       | [] => Ok ()
       | _ =>
           if negb (forallb (λ value, bool_decide (value ∈ allowed_values)) model_values) then
             Raise (ValueError
               ("The values: " +:+ quoted (join ", " model_values) +:+ " in the "
                +:+ quoted "model" +:+ " field of " +:+ quoted contrast_attribute
                +:+ " must be defined in " +:+ quoted allowed_field +:+ "."))
           else Ok ()
       end)
    (ClassList.data class_list)).

(** Certain model fields should contain values defined elsewhere in the
    project. *)
Definition cross_check_model_values : M unit :=
  self ← get_self;
  check_allowed_background_resolution_values "backgrounds" value_fields
    (ClassList.get_names (background_parameters self)) (ClassList.get_names (data self));;
  check_allowed_background_resolution_values "resolutions" value_fields
    (ClassList.get_names (resolution_parameters self)) (ClassList.get_names (data self));;
  check_allowed_values "layers" ["thickness"; "SLD"; "SLD_real"; "SLD_imaginary"; "roughness"]
    (ClassList.get_names (parameters self));;
  check_allowed_values "contrasts" ["data"] (ClassList.get_names (data self));;
  check_allowed_values "contrasts" ["background"] (ClassList.get_names (backgrounds self));;
  check_allowed_values "contrasts" ["bulk_in"] (ClassList.get_names (bulk_in self));;
  check_allowed_values "contrasts" ["bulk_out"] (ClassList.get_names (bulk_out self));;
  check_allowed_values "contrasts" ["scalefactor"] (ClassList.get_names (scalefactors self));;
  check_allowed_values "contrasts" ["resolution"] (ClassList.get_names (resolutions self));;
  check_allowed_values "contrasts" ["domain_ratio"] (ClassList.get_names (domain_ratios self));;
  model_source ← attr (_contrast_model_field self);
  check_contrast_model_allowed_values "contrasts" (ClassList.get_names model_source)
    (_contrast_model_field self);;
  check_contrast_model_allowed_values "domain_contrasts" (ClassList.get_names (layers self))
    "layers".

(** Protected parameters should not be deleted. If this is attempted, raise
    an error. *)
Definition check_protected_parameters : M unit :=
  for_each parameter_class_lists (λ class_list,
    self ← get_self;
    cl ← attr class_list;
    let protected_parameters := protected_names cl in
    previous ← lift (names_get (_protected_parameters self) class_list);
    (* All previously existing protected parameters should be present in new list *)
    if negb (forallb (λ element, bool_decide (element ∈ protected_parameters)) previous) then
      let removed_params :=
        List.filter (λ param, negb (bool_decide (param ∈ protected_parameters))) previous in
      raise (ValueError ("Can't delete the protected parameters: " +:+ join ", " removed_params))
    else mret ());;
  self ← get_self;
  protected ← lift (get_all_protected_parameters self);
  put_self (with_protected_parameters self protected).

(** ** Validation

    [Project.model_validate(self)] on an instance runs the "after" validators
    in the order of their definition and nothing else.  pydantic reports a
    [ValueError] raised by a validator as a [ValidationError] of the model;
    any other exception passes through. *)
Definition run_validators : M unit :=
  set_domain_ratios;;
  set_domain_contrasts;;
  set_layers;;
  set_calculation;;
  set_contrast_model_field;;
  check_contrast_model_length;;
  set_absorption;;
  update_renamed_models;;
  cross_check_model_values;;
  check_protected_parameters.

Definition model_validate : M unit := λ self,
  match run_validators self with
  | (self', Raise (ValueError msg)) =>
      (self', Raise (ValidationError "Project" ["Value error, " +:+ msg]))
  | (self', Raise (ValidationError _ errors)) =>
      (self', Raise (ValidationError "Project" errors))
  | (self', r) => (self', r)
  end.

(** Modelled from the spec: [custom_pydantic_validation_error] belongs to
    RATapi.utils.custom_errors, which is not among the sources at hand; the
    structured validation error it rebuilds carries "field path, offending
    value, message".  The messages are kept as they are. *)
Definition custom_pydantic_validation_error (errors : list string) : list string := errors.

(** ** The wrapper around the ClassList routines

    [class_list] names the attribute whose ClassList the wrapped routine
    belongs to, and [func] is the routine with its arguments: it may change
    the project and then return or raise.  [copy.deepcopy] of a value is the
    value. *)
Definition _classlist_wrapper {R : Type} (class_list : string) (func : M R) : M R := λ self,
  match getattr self class_list with
  | Raise e => (self, Raise e)
  | Ok cl =>
      let previous_state := ClassList.data cl in
      let '(self', outcome) := (func ≫= λ return_value, model_validate;; mret return_value) self in
      match outcome with
      | Ok return_value => (self', Ok return_value)
      | Raise (ValidationError title errors) =>
          (assign_data class_list previous_state;;
           raise (ValidationError title (custom_pydantic_validation_error errors))) self'
      | Raise (TypeError msg) =>
          (assign_data class_list previous_state;; raise (TypeError msg)) self'
      | Raise (ValueError msg) =>
          (assign_data class_list previous_state;; raise (ValueError msg)) self'
      | Raise e => (self', Raise e)
      end
  end.

(** A raw ClassList routine run on the list held by [attribute]. *)
Definition on_classlist {R : Type} (attribute : string)
    (routine : ClassList.t → ClassList.t * result R) : M R :=
  cl ← attr attribute;
  let '(cl', r) := routine cl in
  self ← get_self;
  self' ← lift (set_classlist self attribute cl');
  put_self self';;
  lift r.

(** The routines of the ClassList held by [attribute], wrapped as
    [model_post_init] leaves them. *)
Definition wrapped_append (attribute : string) (obj : Model) : M unit :=
  _classlist_wrapper attribute (on_classlist attribute (ClassList.append obj)).

Definition wrapped_insert (attribute : string) (index : nat) (obj : Model) : M unit :=
  _classlist_wrapper attribute (on_classlist attribute (ClassList.insert index obj)).

Definition wrapped_remove (attribute : string) (value : string) : M unit :=
  _classlist_wrapper attribute (on_classlist attribute (ClassList.remove value)).

Definition wrapped_clear (attribute : string) : M unit :=
  _classlist_wrapper attribute (on_classlist attribute ClassList.clear).

Definition wrapped_set_fields (attribute : string) (index : nat) (kwargs : dict) : M unit :=
  _classlist_wrapper attribute (on_classlist attribute (ClassList.set_fields index kwargs)).

(** An assignment to a mode flag: the model validates assignments, so the
    "after" validators run on the project with the new flag. *)
Definition assign_calculation (v : Calculations.t) : M unit := λ self,
  model_validate (with_calculation self v).

Definition assign_model (v : LayerModels.t) : M unit := λ self,
  model_validate (with_model self v).

Definition assign_absorption (v : bool) : M unit := λ self,
  model_validate (with_absorption self v).

(** ** Construction *)

Definition substrate_roughness : Model :=
  MProtectedParameter
    (Parameter_.mk "Substrate Roughness" 1%float 3%float 5%float true Priors.Uniform
       0%float infinity).

Definition simulation : Model :=
  MData (Data.mk "Simulation" [] [0.005%float; 0.7%float]).

(** [if not hasattr(field, "_class_handle"): field._class_handle = c] *)
Definition ensure_handle (attribute : string) (c : class) : M unit :=
  field ← attr attribute;
  match ClassList._class_handle field with
  | Some _ => mret ()
  | None => assign_handle attribute c
  end.

(** Initialises the class in the ClassLists for empty data fields, sets
    protected parameters, gets names of all defined parameters and determines
    the contents of the "model" field in contrasts.  The routines it wraps
    last are [_classlist_wrapper] applied to the routines of ClassList. *)
Definition model_post_init : M unit :=
  (* Ensure all ClassLists have the correct _class_handle defined *)
  self ← get_self;
  ensure_handle "layers" (if absorption self then cAbsorptionLayer else cLayer);;
  ensure_handle "contrasts"
    (if decide (calculation self = Calculations.Domains) then cContrastWithRatio else cContrast);;
  for_each model_in_classlist (λ '(field_name, model), ensure_handle field_name model);;
  self ← get_self;
  protected ← lift (get_all_protected_parameters self);
  protected_parameters ← lift (names_get protected "parameters");
  (if negb (bool_decide ("Substrate Roughness" ∈ title <$> ClassList.get_names (parameters self)))
   then on_classlist "parameters" (ClassList.insert 0 substrate_roughness)
   else if negb (bool_decide ("Substrate Roughness" ∈ title <$> protected_parameters)) then
     (* If substrate roughness is included as a standard parameter replace it
        with a protected parameter *)
     found ← lift (ClassList.__getitem__ (parameters self) "Substrate Roughness");
     let substrate_roughness_values := model_dump found in
     on_classlist "parameters" (ClassList.remove "Substrate Roughness");;
     replacement ← lift (construct cProtectedParameter substrate_roughness_values);
     on_classlist "parameters" (ClassList.insert 0 replacement)
   else mret ());;
  self ← get_self;
  (if negb (bool_decide ("Simulation" ∈ title <$> ClassList.get_names (data self)))
   then on_classlist "data" (ClassList.insert 0 simulation)
   else mret ());;
  self ← get_self;
  all_names ← lift (get_all_names self);
  put_self (with_all_names self all_names);;
  self ← get_self;
  put_self (with_contrast_model_field self (get_contrast_model_field self));;
  self ← get_self;
  protected ← lift (get_all_protected_parameters self);
  put_self (with_protected_parameters self protected).

Fixpoint lookup_class (d : list (string * class)) (key : string) : result class :=
  match d with
  | [] => Raise (KeyError key)
  | (k, v) :: d' => if String.eqb k key then Ok v else lookup_class d' key
  end.

(** Each of the data fields should be a ClassList of the appropriate model. *)
Definition check_class (self : Project) (field_name : string) : result unit :=
  model_name ← lookup_class model_in_classlist field_name;
  (* Correct model name if necessary *)
  let model_name :=
    if String.eqb field_name "layers" && absorption self then cAbsorptionLayer
    else model_name in
  let model_name :=
    if String.eqb field_name "contrasts"
       && bool_decide (calculation self = Calculations.Domains)
    then cContrastWithRatio
    else model_name in
  value ← getattr self field_name;
  if negb (forallb (λ element, isinstance element model_name) (ClassList.data value)) then
    Raise (ValueError (quoted field_name +:+ " ClassList contains objects other than "
                       +:+ quoted (__name__ model_name)))
  else Ok ().

(** The fields that [check_class] is registered for. *)
Definition checked_fields : list string :=
  ["parameters"; "bulk_in"; "bulk_out"; "scalefactors"; "background_parameters";
   "backgrounds"; "resolution_parameters"; "resolutions"; "custom_files"; "data"; "layers";
   "domain_contrasts"; "contrasts"].

(** [Project(...)]: the argument holds the values of the fields, given or
    default; its three private attributes are placeholders, assigned by
    [model_post_init] before anything reads them.  The field validators come
    first, each failure collected; then [model_post_init]; then the "after"
    validators. *)
Definition field_errors (self : Project) : list string :=
  flat_map (λ field_name,
    match check_class self field_name with
    | Raise (ValueError msg) => ["Value error, " +:+ msg]
    | _ => []
    end) checked_fields.

Definition __init__ : M unit := λ self,
  match field_errors self with
  | [] => (model_post_init;; model_validate) self
  | errors => (self, Raise (ValidationError "Project" errors))
  end.

(** The class-level defaults of the fields. *)
Definition default_parameter (name : string) (min value max : float) : Model :=
  MParameter (Parameter_.mk name min value max false Priors.Uniform 0%float infinity).

Definition ClassList_of (l : list Model) : ClassList.t :=
  ClassList.mk l (type_of <$> head l).

Definition default_fields : Project := {|
  name := "";
  calculation := Calculations.NonPolarised;
  model := LayerModels.StandardLayers;
  geometry := Geometries.AirSubstrate;
  absorption := false;
  parameters := ClassList_of [];
  bulk_in := ClassList_of [default_parameter "SLD Air" 0%float 0%float 0%float];
  bulk_out := ClassList_of [default_parameter "SLD D2O" 6.2e-6%float 6.35e-6%float 6.35e-6%float];
  scalefactors := ClassList_of [default_parameter "Scalefactor 1" 0.02%float 0.23%float 0.25%float];
  domain_ratios := ClassList_of [default_parameter "Domain Ratio 1" 0.4%float 0.5%float 0.6%float];
  background_parameters :=
    ClassList_of [default_parameter "Background Param 1" 1e-7%float 1e-6%float 1e-5%float];
  backgrounds :=
    ClassList_of [MBackground (Background.mk "Background 1" TypeOptions.Constant
                                 "Background Param 1" "" "" "" "")];
  resolution_parameters :=
    ClassList_of [default_parameter "Resolution Param 1" 0.01%float 0.03%float 0.05%float];
  resolutions :=
    ClassList_of [MResolution (Background.mk "Resolution 1" TypeOptions.Constant
                                 "Resolution Param 1" "" "" "" "")];
  custom_files := ClassList_of [];
  data := ClassList_of [];
  layers := ClassList_of [];
  domain_contrasts := ClassList_of [];
  contrasts := ClassList_of [];
  _all_names := [];
  _contrast_model_field := "";
  _protected_parameters := [];
|}.

(** [Project()] *)
Definition default_project : Project := (__init__ default_fields).1.

(** [self] with the ClassList of [attribute] replaced, for an attribute that
    exists. *)
Definition upd (self : Project) (attribute : string) (cl : ClassList.t) : Project :=
  match set_classlist self attribute cl with
  | Ok self' => self'
  | Raise _ => self
  end.

(** The three mode flags of a project. *)
Definition flags (self : Project) : Calculations.t * LayerModels.t * bool :=
  (calculation self, model self, absorption self).

(** The exceptions that the wrapper catches. *)
Definition caught (e : Exception) : bool :=
  match e with
  | ValidationError _ _ | TypeError _ | ValueError _ => true
  | _ => false
  end.

(** * Specification functions

    Pure descriptions of what the loops and the checks compute, used to state
    the properties below. *)

(** ** The wrapper (C1) *)

(** What the wrapper raises for a caught exception: a validation error is
    rebuilt from its title and its reformatted error list, a type or value
    error is re-raised unchanged. *)
Definition reraised (e : Exception) : Exception :=
  match e with
  | ValidationError title errors =>
      ValidationError title (custom_pydantic_validation_error errors)
  | _ => e
  end.

(** The two conversions of a contrast and the two conversions of a layer. *)
Definition to_ratio (contrast : Model) : result Model :=
  construct cContrastWithRatio (model_dump contrast).

Definition to_contrast (contrast : Model) : result Model :=
  contrast_params ← dict_del (model_dump contrast) "domain_ratio";
  construct cContrast contrast_params.

Definition to_absorption (layer : Model) : result Model :=
  construct cAbsorptionLayer (model_dump layer).

Definition to_layer (layer : Model) : result Model :=
  layer_params ← dict_del (model_dump layer) "SLD_imaginary";
  construct cLayer layer_params.

Definition clear_model (contrast : Model) : result Model :=
  setattr contrast "model" (VNames []).

(** Two values of the same Python type. *)
Definition same_kind (v w : Value) : Prop :=
  match v, w with
  | VStr _, VStr _ | VFloat _, VFloat _ | VBool _, VBool _ | VNames _, VNames _
  | VPrior _, VPrior _ | VType _, VType _ | VAction _, VAction _ | VArray _, VArray _
  | VRange _, VRange _ => True
  | _, _ => False
  end.

(** Two dictionaries with the same keys in the same order and values of the
    same types. *)
Definition same_shape (d d' : dict) : Prop :=
  Forall2 (λ kv kv', kv.1 = kv'.1 ∧ same_kind kv.2 kv'.2) d d'.

(** The entity of the class of [m] with the fields [d]. *)
Definition rebuild (m : Model) (d : dict) : Model :=
  match construct (type_of m) d with
  | Ok m' => m'
  | Raise _ => m
  end.

(** Assigning the same string to several fields in turn. *)
Fixpoint setattr_all (m : Model) (fs : list string) (new : string) : result Model :=
  match fs with
  | [] => Ok m
  | f :: fs' =>
      match setattr m f (VStr new) with
      | Ok m' => setattr_all m' fs' new
      | Raise e => Raise e
      end
  end.

Definition dict_set_all (d : dict) (fs : list string) (v : Value) : dict :=
  fold_left (λ d f, dict_set d f v) fs d.

(** The fields among [fields] that hold [old] now hold [new]. *)
Definition renames (fields : list string) (old : string) (kv : string * Value) : bool :=
  bool_decide (kv.1 ∈ fields) && bool_decide (kv.2 = VStr old).

Definition dict_rename (fields : list string) (old new : string) (d : dict) : dict :=
  map (λ kv, if renames fields old kv then (kv.1, VStr new) else kv) d.

Definition rename_model (fields : list string) (old new : string) (m : Model) : Model :=
  rebuild m (dict_rename fields old new (model_dump m)).

(** The fields that [rename_matches] assigns to on one element: the matches
    of [old], kept when registered. *)
Definition renamed_fields (fields : list string) (old : string) (m : Model) : list string :=
  List.filter (λ f, bool_decide (f ∈ fields)) (ClassList.matching_fields m old).

(** [rename_matches] on the data of the consumer alone. *)
Fixpoint apply_matches (fields : list string) (new : string) (matches : list (nat * string))
    (l : list Model) : result (list Model) :=
  match matches with
  | [] => Ok l
  | (index, field) :: matches' =>
      if bool_decide (field ∈ fields) then
        match l !! index with
        | Some element =>
            match setattr element field (VStr new) with
            | Ok element' => apply_matches fields new matches' (<[index := element']> l)
            | Raise e => Raise e
            end
        | None => Raise (IndexError "list index out of range")
        end
      else apply_matches fields new matches' l
  end.

(** All the renames of one source applied to the consumer's data. *)
Definition rename_list (fields : list string) (diffs : list (string * string))
    (l : list Model) : list Model :=
  fold_left (λ l on, map (rename_model fields on.1 on.2) l) diffs l.

(** The loop over the changed names of one source. *)
Definition propagate (a : string) (fields : list string) (diffs : list (string * string)) :
    M unit :=
  for_each diffs (λ '(old_name, new_name),
    model_names_list ← attr a;
    let all_matches := ClassList.get_all_matches model_names_list old_name in
    rename_matches a fields new_name all_matches).

(** The value of a field after the renames [diffs], applied in order. *)
Definition rename_value (diffs : list (string * string)) (v : Value) : Value :=
  fold_left (λ v on, if bool_decide (v = VStr on.1) then VStr on.2 else v) diffs v.

(** An entity after the renames [diffs] of one source, applied in order. *)
Definition rename_all (fields : list string) (diffs : list (string * string)) (m : Model) :
    Model :=
  fold_left (λ m on, rename_model fields on.1 on.2 m) diffs m.

(** The changed names of one source: cached names against current names. *)
Definition entry_diffs (p : Project) (class_list : string) : result (list (string * string)) :=
  old_names ← names_get (_all_names p) class_list;
  source ← getattr p class_list;
  let new_names := ClassList.get_names source in
  Ok (if Nat.eqb (length old_names) (length new_names) then name_diff old_names new_names
      else []).

(** One iteration of the outer loop of [update_renamed_models]. *)
Definition rename_entry (entry : string * AllFields) : M unit :=
  let '(class_list, uses) := entry in
  self ← get_self;
  old_names ← lift (names_get (_all_names self) class_list);
  source ← attr class_list;
  let new_names := ClassList.get_names source in
  if Nat.eqb (length old_names) (length new_names) then
    propagate (attribute uses) (fields uses) (name_diff old_names new_names)
  else mret ().

(** What the entries [table] of the uses table do to one entity of the
    ClassList [a], the changed names being those of the project [p]. *)
Definition rename_step (p : Project) (a : string) (m : Model) (entry : string * AllFields) :
    Model :=
  if String.eqb (attribute entry.2) a then
    match entry_diffs p entry.1 with
    | Ok diffs => rename_all (fields entry.2) diffs m
    | Raise _ => m
    end
  else m.

Definition renamed_model (table : list (string * AllFields)) (p : Project) (a : string)
    (m : Model) : Model :=
  fold_left (rename_step p a) table m.

Definition entry_ok (entry : string * AllFields) : Prop :=
  entry.1 ∈ class_lists ∧ attribute entry.2 ∈ class_lists ∧ "name" ∉ fields entry.2.

(** The state of the loop of [update_renamed_models] once the entries [done]
    have been visited, starting from [p]. *)
Definition propagated (done : list (string * AllFields)) (p q : Project) : Prop :=
  flags q = flags p
  ∧ _all_names q = _all_names p
  ∧ _contrast_model_field q = _contrast_model_field p
  ∧ _protected_parameters q = _protected_parameters p
  ∧ ∀ a cl, getattr p a = Ok cl →
      getattr q a = Ok (ClassList.mk (map (renamed_model done p a) (ClassList.data cl))
                          (ClassList._class_handle cl)).

(** The names of every ClassList, as [get_all_names] returns them. *)
Definition all_names (p : Project) : names_dict :=
  [("parameters", ClassList.get_names (parameters p));
   ("background_parameters", ClassList.get_names (background_parameters p));
   ("scalefactors", ClassList.get_names (scalefactors p));
   ("bulk_in", ClassList.get_names (bulk_in p));
   ("bulk_out", ClassList.get_names (bulk_out p));
   ("resolution_parameters", ClassList.get_names (resolution_parameters p));
   ("domain_ratios", ClassList.get_names (domain_ratios p));
   ("backgrounds", ClassList.get_names (backgrounds p));
   ("resolutions", ClassList.get_names (resolutions p));
   ("custom_files", ClassList.get_names (custom_files p));
   ("data", ClassList.get_names (data p));
   ("layers", ClassList.get_names (layers p));
   ("domain_contrasts", ClassList.get_names (domain_contrasts p));
   ("contrasts", ClassList.get_names (contrasts p))].

(** The protected names of the parameter ClassLists, as
    [get_all_protected_parameters] returns them. *)
Definition all_protected (p : Project) : names_dict :=
  [("parameters", protected_names (parameters p));
   ("background_parameters", protected_names (background_parameters p));
   ("scalefactors", protected_names (scalefactors p));
   ("bulk_in", protected_names (bulk_in p));
   ("bulk_out", protected_names (bulk_out p));
   ("resolution_parameters", protected_names (resolution_parameters p));
   ("domain_ratios", protected_names (domain_ratios p))].

(** The cache holds names for every source of the uses table. *)
Definition cache_complete (p : Project) : Prop :=
  Forall (λ entry : string * AllFields, ∃ old_names, names_get (_all_names p) entry.1 = Ok old_names)
    model_names_used_in.

(** A field is in order when it is empty or among the allowed names. *)
Definition field_ok (allowed_values : list string) (m : Model) (field : string) : Prop :=
  truthy (getattr_default m field (VStr ""))
  && negb (value_in (getattr_default m field (VStr "")) allowed_values) = false.

Definition fields_ok (field_list allowed_values : list string) (l : list Model) : Prop :=
  Forall (λ m, Forall (field_ok allowed_values m) field_list) l.

Definition typed_fields_ok (field_list allowed_constants allowed_data : list string)
    (l : list Model) : Prop :=
  Forall (λ m,
    (type_field m = Ok TypeOptions.Constant ∧ Forall (field_ok allowed_constants m) field_list)
    ∨ (type_field m = Ok TypeOptions.Data ∧ Forall (field_ok allowed_data m) field_list)) l.

Definition models_ok (allowed_values : list string) (l : list Model) : Prop :=
  Forall (λ m, ∃ model_values,
    model_field m = Ok model_values ∧ Forall (λ value, value ∈ allowed_values) model_values) l.

(** What [cross_check_model_values] has checked when it returns. *)
Definition cross_checked (p : Project) : Prop :=
  typed_fields_ok value_fields (ClassList.get_names (background_parameters p))
    (ClassList.get_names (data p)) (ClassList.data (backgrounds p))
  ∧ typed_fields_ok value_fields (ClassList.get_names (resolution_parameters p))
      (ClassList.get_names (data p)) (ClassList.data (resolutions p))
  ∧ fields_ok ["thickness"; "SLD"; "SLD_real"; "SLD_imaginary"; "roughness"]
      (ClassList.get_names (parameters p)) (ClassList.data (layers p))
  ∧ fields_ok ["data"] (ClassList.get_names (data p)) (ClassList.data (contrasts p))
  ∧ fields_ok ["background"] (ClassList.get_names (backgrounds p)) (ClassList.data (contrasts p))
  ∧ fields_ok ["bulk_in"] (ClassList.get_names (bulk_in p)) (ClassList.data (contrasts p))
  ∧ fields_ok ["bulk_out"] (ClassList.get_names (bulk_out p)) (ClassList.data (contrasts p))
  ∧ fields_ok ["scalefactor"] (ClassList.get_names (scalefactors p))
      (ClassList.data (contrasts p))
  ∧ fields_ok ["resolution"] (ClassList.get_names (resolutions p)) (ClassList.data (contrasts p))
  ∧ fields_ok ["domain_ratio"] (ClassList.get_names (domain_ratios p))
      (ClassList.data (contrasts p))
  ∧ (∃ model_source, getattr p (_contrast_model_field p) = Ok model_source
       ∧ models_ok (ClassList.get_names model_source) (ClassList.data (contrasts p)))
  ∧ models_ok (ClassList.get_names (layers p)) (ClassList.data (domain_contrasts p)).

Definition cannot_delete (removed_params : list string) : Exception :=
  ValueError ("Can't delete the protected parameters: " +:+ join ", " removed_params).

(** The previously protected names that are no longer protected. *)
Definition removed (protected_parameters previous : list string) : list string :=
  List.filter (λ param, negb (bool_decide (param ∈ protected_parameters))) previous.

(** One iteration of the loop of [check_protected_parameters]. *)
Definition guard_entry (p : Project) (class_list : string) : result unit :=
  cl ← getattr p class_list;
  previous ← names_get (_protected_parameters p) class_list;
  if negb (forallb (λ element, bool_decide (element ∈ protected_names cl)) previous) then
    Raise (cannot_delete (removed (protected_names cl) previous))
  else Ok ().

Definition model_lengths_ok (p : Project) : Prop :=
  (model p = LayerModels.StandardLayers → calculation p = Calculations.Domains →
     Forall (λ m, ∃ l, model_field m = Ok l ∧ (l = [] ∨ length l = 2))
       (ClassList.data (contrasts p)))
  ∧ (model p ≠ LayerModels.StandardLayers →
     Forall (λ m, ∃ l, model_field m = Ok l ∧ length l ≤ 1) (ClassList.data (contrasts p))).

(** [frame S p p']: the project [p'] has the mode flags of [p] and the
    ClassLists of [p], except those named in [S]. *)
Definition frame (S : list string) (p p' : Project) : Prop :=
  flags p' = flags p ∧ ∀ a, a ∉ S → getattr p' a = getattr p a.

(** The consumers of the uses table. *)
Definition consumers : list string := ["backgrounds"; "resolutions"; "layers"; "contrasts"].

(** The forced-empty rules of the three collections that the mode flags can
    switch off. *)
Definition forced_empty (p : Project) : Prop :=
  (calculation p ≠ Calculations.Domains → ClassList.data (domain_ratios p) = [])
  ∧ (¬ (calculation p = Calculations.Domains ∧ model p = LayerModels.StandardLayers) →
     ClassList.data (domain_contrasts p) = [])
  ∧ (model p ≠ LayerModels.StandardLayers → ClassList.data (layers p) = []).

(** A step of the pipeline that keeps the forced-empty collections empty. *)
Definition keeps_empty (p p' : Project) : Prop :=
  flags p' = flags p
  ∧ (calculation p ≠ Calculations.Domains →
     ClassList.data (domain_ratios p') = ClassList.data (domain_ratios p))
  ∧ ClassList.data (domain_contrasts p') = ClassList.data (domain_contrasts p)
  ∧ (ClassList.data (layers p) = [] → ClassList.data (layers p') = []).

(** [m.model] read off the class and the fields of [m]. *)
Definition model_field_of (c : class) (d : dict) : result (list string) :=
  match c with
  | cDomainContrast | cContrast | cContrastWithRatio =>
      match dict_get d "model" with
      | Some (VNames l) => Ok l
      | _ => Ok []
      end
  | _ => Raise (AttributeError (__name__ c +:+ " object has no attribute model"))
  end.


(** [m.type] read off the class and the fields of [m]. *)
Definition type_field_of (c : class) (d : dict) : result TypeOptions.t :=
  match c with
  | cBackground | cResolution =>
      match dict_get d "type" with
      | Some (VType t) => Ok t
      | _ => Ok TypeOptions.Constant
      end
  | _ => Raise (AttributeError (__name__ c +:+ " object has no attribute type"))
  end.

Definition example_parameter (name : string) : Model :=
  MParameter (Parameter_.mk name 0%float 0%float 0%float false Priors.Uniform 0%float infinity).

(** A layer whose thickness is the parameter [thickness]. *)
Definition example_layer (name thickness : string) : Model :=
  MLayer (Layer.mk name thickness "Substrate Roughness" "Substrate Roughness" "").

Definition example_contrast (name : string) (model : list string) : Model :=
  MContrast
    (Contrast.mk name "Simulation" "Background 1" BackgroundActions.Add "SLD Air" "SLD D2O"
       "Scalefactor 1" "Resolution 1" false model).

Definition example_contrast_with_ratio (name : string) (model : list string) : Model :=
  MContrastWithRatio
    (ContrastWithRatio.mk name "Simulation" "Background 1" BackgroundActions.Add "SLD Air"
       "SLD D2O" "Scalefactor 1" "Resolution 1" false "Domain Ratio 1" model).

(** The default project with two layers and a contrast that stacks both. *)
Definition two_layer_project : Project * result unit :=
  (wrapped_append "layers" (example_layer "Layer 1" "Substrate Roughness");;
   wrapped_append "layers" (example_layer "Layer 2" "Substrate Roughness");;
   wrapped_append "contrasts" (example_contrast "Contrast 1" ["Layer 1"; "Layer 2"]))
    default_project.

(** A domains project with a contrast that has no model yet. *)
Definition domains_project : Project * result unit :=
  (__init__;;
   wrapped_append "contrasts" (example_contrast_with_ratio "Contrast 1" []))
    (with_calculation default_fields Calculations.Domains).

(** A step of the pipeline that leaves the record of protected names alone
    and adds no protected parameter to a parameter ClassList. *)
Definition protected_kept (p p' : Project) : Prop :=
  _protected_parameters p' = _protected_parameters p
  ∧ ∀ class_list cl, class_list ∈ parameter_class_lists → getattr p class_list = Ok cl →
      ∃ cl', getattr p' class_list = Ok cl' ∧ protected_names cl' ⊆ protected_names cl.

(** The passes that run before the guard. *)
Definition earlier_passes : M unit :=
  set_domain_ratios;;
  set_domain_contrasts;;
  set_layers;;
  set_calculation;;
  set_contrast_model_field;;
  check_contrast_model_length;;
  set_absorption;;
  update_renamed_models;;
  cross_check_model_values.

(** The record of protected names has an entry for every parameter
    ClassList. *)
Definition protected_complete (p : Project) : Prop :=
  ∀ class_list, class_list ∈ parameter_class_lists →
    ∃ previous, names_get (_protected_parameters p) class_list = Ok previous.

(** The default project with a parameter "T1" and a layer of that
    thickness. *)
Definition referenced_parameter_project : Project * result unit :=
  (wrapped_append "parameters" (example_parameter "T1");;
   wrapped_append "layers" (example_layer "L" "T1"))
    default_project.




(** What one entry of the uses table does to the value [v] of the field [f]
    of an entity of the ClassList [a]. *)
Definition rename_field (p : Project) (a f : string) (v : Value) (entry : string * AllFields) :
    Value :=
  if String.eqb (attribute entry.2) a && bool_decide (f ∈ fields entry.2) then
    match entry_diffs p entry.1 with
    | Ok diffs => rename_value diffs v
    | Raise _ => v
    end
  else v.

(** The entries of the table that reach the field [f] of the ClassList [a]. *)
Definition touches (a f : string) (entry : string * AllFields) : bool :=
  String.eqb (attribute entry.2) a && bool_decide (f ∈ fields entry.2).

Definition rename_from (p : Project) (v : Value) (src : string) : Value :=
  match entry_diffs p src with
  | Ok diffs => rename_value diffs v
  | Raise _ => v
  end.

(** The project [referenced_parameter_project] after its parameter "T1" has
    been given the name "T1b", before the next validation. *)
Definition renamed_parameter_project : Project :=
  upd referenced_parameter_project.1 "parameters"
    (ClassList.set_data (parameters referenced_parameter_project.1)
       [substrate_roughness; example_parameter "T1b"]).

(** The default project with the parameters "A" and "B" and a layer whose
    thickness is "A". *)
Definition two_parameter_project : Project * result unit :=
  (wrapped_append "parameters" (example_parameter "A");;
   wrapped_append "parameters" (example_parameter "B");;
   wrapped_append "layers" (example_layer "L" "A"))
    default_project.

(** That project after the two parameters have exchanged their names, before
    the next validation. *)
Definition swapped_names_project : Project :=
  upd two_parameter_project.1 "parameters"
    (ClassList.set_data (parameters two_parameter_project.1)
       [substrate_roughness; example_parameter "B"; example_parameter "A"]).

(** The values of [field] in the entities of a ClassList. *)
Definition field_values (cl : ClassList.t) (field : string) : list (option Value) :=
  map (λ m, dict_get (model_dump m) field) (ClassList.data cl).





(** The name cache of [class_list] is that of the current names. *)
Definition cache_current (p : Project) (class_list : string) : Prop :=
  ∃ cl, getattr p class_list = Ok cl
        ∧ names_get (_all_names p) class_list = Ok (ClassList.get_names cl).




(** The three private attributes hold what the project defines now. *)
Definition caches_current (p : Project) : Prop :=
  _all_names p = all_names p
  ∧ _protected_parameters p = all_protected p
  ∧ _contrast_model_field p = get_contrast_model_field p.

(** The class of the contrasts agrees with the calculation, as far as
    [set_calculation] cares: there is nothing for it to convert. *)
Definition calculation_settled (p : Project) : Prop :=
  ∃ h, ClassList._class_handle (contrasts p) = Some h
       ∧ ¬ (calculation p = Calculations.Domains ∧ h = cContrast)
       ∧ ¬ (calculation p ≠ Calculations.Domains ∧ h = cContrastWithRatio).

(** The class of the layers agrees with the absorption flag, as far as
    [set_absorption] cares. *)
Definition absorption_settled (p : Project) : Prop :=
  ∃ h, ClassList._class_handle (layers p) = Some h
       ∧ ¬ (absorption p = true ∧ h = cLayer)
       ∧ ¬ (absorption p = false ∧ h = cAbsorptionLayer).

(** [p'] has the flags of [p] and its ClassList [a] has the class it has in [p]. *)
Definition same_handle (a : string) (p p' : Project) : Prop :=
  flags p' = flags p
  ∧ ClassList._class_handle <$> getattr p' a = ClassList._class_handle <$> getattr p a.

(** What every pass of the validation establishes or checks: a project of
    this kind is one that the validation accepts as it is. *)
Definition validated (p : Project) : Prop :=
  forced_empty p
  ∧ calculation_settled p
  ∧ model_lengths_ok p
  ∧ absorption_settled p
  ∧ cross_checked p
  ∧ caches_current p.

(** [p'] holds, in its ClassList [a], entities of the names that [p] holds
    there, in the same order. *)
Definition same_names (a : string) (p p' : Project) : Prop :=
  ClassList.get_names <$> getattr p' a = ClassList.get_names <$> getattr p a.

(** The body of the [try] of the wrapper: the wrapped routine and then the
    validation of the project. *)
Definition attempt {R : Type} (func : M R) : M R :=
  func ≫= λ return_value, model_validate;; mret return_value.

(** The entity [m] with the hydration [s], when it is a layer. *)
Definition with_hydration (s : string) (m : Model) : Model :=
  match m with
  | MLayer l =>
      MLayer (Layer.mk (Layer.name l) (Layer.thickness l) (Layer.SLD l) (Layer.roughness l) s)
  | MAbsorptionLayer l =>
      MAbsorptionLayer
        (AbsorptionLayer.mk (AbsorptionLayer.name l) (AbsorptionLayer.thickness l)
           (AbsorptionLayer.SLD_real l) (AbsorptionLayer.SLD_imaginary l)
           (AbsorptionLayer.roughness l) s)
  | _ => m
  end.

(** The project [p] with the hydrations [hs] given to its layers, in order. *)
Definition with_hydrations (p : Project) (hs : list string) : Project :=
  upd p "layers"
    (ClassList.set_data (layers p) (zip_with with_hydration hs (ClassList.data (layers p)))).

(** The value [v] with the name [old] replaced by [new]. *)
Definition replace_name (old new : string) (v : Value) : Value :=
  if bool_decide (v = VStr old) then VStr new else v.

(** The parameters of [referenced_parameter_project] after the raw routine
    [set_fields(1, name="T1b")]. *)
Definition renamed_parameters : ClassList.t :=
  (ClassList.set_fields 1 [("name", VStr "T1b")] (parameters referenced_parameter_project.1)).1.

(** The class that [model_post_init] gives to the ClassList [a] when the
    list has none. *)
Definition initial_class (p : Project) (a : string) : option class :=
  if String.eqb a "layers" then Some (if absorption p then cAbsorptionLayer else cLayer)
  else if String.eqb a "contrasts" then
    Some (if decide (calculation p = Calculations.Domains) then cContrastWithRatio else cContrast)
  else match lookup_class model_in_classlist a with
       | Ok c => Some c
       | Raise _ => None
       end.

(** [p'] holds in its ClassList [a] the entities of [p], and the class of
    [p] there or, if there is none, the class [c]. *)
Definition handle_set (a : string) (c : option class) (p p' : Project) : Prop :=
  ∀ cl, getattr p a = Ok cl →
    ∃ cl', getattr p' a = Ok cl'
      ∧ ClassList.data cl' = ClassList.data cl
      ∧ ClassList._class_handle cl'
        = match ClassList._class_handle cl with Some h => Some h | None => c end.

(** * Properties *)

(** ** Attributes of the project *)

Ltac attr_cases a :=
  repeat match goal with
    | |- context [String.eqb a ?s] => destruct (String.eqb_spec a s); [subst a |]
    end.

Lemma getattr_valid (p p' : Project) (a : string) (cl : ClassList.t) :
  getattr p a = Ok cl → ∃ cl', getattr p' a = Ok cl'.
Proof.
  unfold getattr. attr_cases a; intros H; try discriminate; eauto.
Qed.

Lemma set_classlist_upd (p : Project) (a : string) (cl c : ClassList.t) :
  getattr p a = Ok cl → set_classlist p a c = Ok (upd p a c).
Proof.
  unfold upd, getattr, set_classlist. attr_cases a; intros H; try discriminate; reflexivity.
Qed.

Lemma getattr_upd_eq (p : Project) (a : string) (cl c : ClassList.t) :
  getattr p a = Ok cl → getattr (upd p a c) a = Ok c.
Proof.
  unfold upd, getattr, set_classlist. attr_cases a; intros H; try discriminate; reflexivity.
Qed.

Lemma getattr_upd_ne (p : Project) (a b : string) (c : ClassList.t) :
  a ≠ b → getattr (upd p b c) a = getattr p a.
Proof.
  intros Hne. unfold upd, set_classlist.
  attr_cases b; try reflexivity;
    unfold getattr; attr_cases a; try reflexivity; congruence.
Qed.

Lemma upd_flags (p : Project) (a : string) (c : ClassList.t) : flags (upd p a c) = flags p.
Proof. unfold upd, set_classlist. attr_cases a; reflexivity. Qed.

Lemma upd_private (p : Project) (a : string) (c : ClassList.t) :
  _all_names (upd p a c) = _all_names p
  ∧ _contrast_model_field (upd p a c) = _contrast_model_field p
  ∧ _protected_parameters (upd p a c) = _protected_parameters p.
Proof. unfold upd, set_classlist. attr_cases a; auto. Qed.

(** ** Running a computation *)

Lemma bind_run {A B : Type} (m : M A) (f : A → M B) (p : Project) :
  (m ≫= f) p = match m p with
                | (p', Ok a) => f a p'
                | (p', Raise e) => (p', Raise e)
                end.
Proof. reflexivity. Qed.

Lemma bind_Ok {A B : Type} (m : M A) (f : A → M B) (p p' : Project) (b : B) :
  (m ≫= f) p = (p', Ok b) → ∃ p1 a, m p = (p1, Ok a) ∧ f a p1 = (p', Ok b).
Proof.
  rewrite bind_run. destruct (m p) as [p1 [a|e]]; [eauto | discriminate].
Qed.

Lemma assign_data_run (p : Project) (a : string) (cl : ClassList.t) (l : list Model) :
  getattr p a = Ok cl → assign_data a l p = (upd p a (ClassList.set_data cl l), Ok ()).
Proof.
  intros H. unfold assign_data. rewrite bind_run. cbn [get_self].
  rewrite bind_run. unfold lift at 1. rewrite H. rewrite bind_run. unfold lift.
  rewrite (set_classlist_upd _ _ _ _ H). reflexivity.
Qed.

Lemma restore_run (R : Type) (p : Project) (a : string) (cl : ClassList.t) (l : list Model)
    (e : Exception) :
  getattr p a = Ok cl →
  ∃ p', (assign_data a l;; @raise R e) p = (p', Raise e)
        ∧ ClassList.data <$> getattr p' a = Ok l.
Proof.
  intros H. eexists. rewrite bind_run, (assign_data_run _ _ _ _ H). split; [reflexivity |].
  rewrite (getattr_upd_eq _ _ _ _ H). reflexivity.
Qed.

Lemma wrapper_caught {R : Type} (a : string) (p q : Project) (cl : ClassList.t)
    (e : Exception) (p' : Project) (outcome : result R) :
  getattr p a = Ok cl →
  caught e = true →
  match e with
  | ValidationError title errors =>
      (assign_data a (ClassList.data cl);;
       raise (ValidationError title (custom_pydantic_validation_error errors))) q
  | TypeError msg => (assign_data a (ClassList.data cl);; raise (TypeError msg)) q
  | ValueError msg => (assign_data a (ClassList.data cl);; raise (ValueError msg)) q
  | _ => (q, Raise e)
  end = (p', outcome) →
  outcome = Raise (reraised e) ∧ ClassList.data <$> getattr p' a = Ok (ClassList.data cl).
Proof.
  intros H Hc Hrun.
  destruct (getattr_valid p q a cl H) as [clq Hq].
  destruct e; try discriminate Hc; cbn [reraised];
    match type of Hrun with
    | (assign_data _ ?l;; raise ?e') _ = _ =>
        destruct (restore_run R q a clq l e' Hq) as (p'' & Hr & Hd);
        rewrite Hr in Hrun
    end; injection Hrun as <- <-; auto.
Qed.

(** C1.  A wrapped routine on the ClassList held by [class_list], run on the
    project [p]: when the raw routine, or the validation of the whole project
    that follows it, raises a validation, type or value error, the exception
    reaches the caller and the data of the ClassList is, by value, what it
    was before the call; when validation succeeds the project it leaves is
    kept and the value returned by the raw routine is returned. *)
Theorem classlist_wrapper_atomic {R : Type} (class_list : string) (func : M R)
    (p : Project) (cl : ClassList.t) (p' : Project) (outcome : result R) :
  getattr p class_list = Ok cl →
  _classlist_wrapper class_list func p = (p', outcome) →
  (∀ p1 e, func p = (p1, Raise e) → caught e = true →
     outcome = Raise (reraised e)
     ∧ ClassList.data <$> getattr p' class_list = Ok (ClassList.data cl))
  ∧ (∀ p1 v p2 e, func p = (p1, Ok v) → model_validate p1 = (p2, Raise e) → caught e = true →
     outcome = Raise (reraised e)
     ∧ ClassList.data <$> getattr p' class_list = Ok (ClassList.data cl))
  ∧ (∀ p1 v p2, func p = (p1, Ok v) → model_validate p1 = (p2, Ok ()) →
     p' = p2 ∧ outcome = Ok v).
Proof.
  intros H Hw. unfold _classlist_wrapper in Hw. rewrite H in Hw.
  rewrite bind_run in Hw. split; [| split].
  - intros p1 e Hf Hc. rewrite Hf in Hw. cbn iota beta in Hw.
    eapply (wrapper_caught class_list p p1); eauto.
  - intros p1 v p2 e Hf Hv Hc. rewrite Hf, bind_run, Hv in Hw. cbn iota beta in Hw.
    eapply (wrapper_caught class_list p p2); eauto.
  - intros p1 v p2 Hf Hv. rewrite Hf, bind_run, Hv in Hw. cbn in Hw.
    injection Hw as <- <-. auto.
Qed.

Lemma classlist_wrapper_atomic_witness :
  let func := on_classlist "parameters" (ClassList.remove "Substrate Roughness") in
  let r := _classlist_wrapper "parameters" func default_project in
  r.2 = Raise (ValidationError "Project"
                 ["Value error, Can't delete the protected parameters: Substrate Roughness"])
  ∧ ClassList.data <$> getattr r.1 "parameters" = Ok (ClassList.data (parameters default_project)).
Proof.
  intros func r.
  destruct (classlist_wrapper_atomic "parameters" func default_project
              (parameters default_project) r.1 r.2) as (_ & H & _).
  - vm_compute. reflexivity.
  - apply surjective_pairing.
  - apply (H (func default_project).1 () (model_validate (func default_project).1).1
             (ValidationError "Project"
                ["Value error, Can't delete the protected parameters: Substrate Roughness"]));
      vm_compute; reflexivity.
Defined.

(** ** The validators, one by one *)

Ltac munfold :=
  unfold handle_name, attr, assign_data, assign_handle, ensure_handle, on_classlist,
    mbind, M_bind, mret, M_ret, get_self, lift, put_self, raise in *.

Lemma map_result_Forall2 {A B : Type} (f : A → result B) (l : list A) (l' : list B) :
  map_result f l = Ok l' → Forall2 (λ a b, f a = Ok b) l l'.
Proof.
  revert l'. induction l as [|a l IH]; intros l'; cbn.
  - intros [= <-]. constructor.
  - destruct (f a) as [b|e] eqn:Ea; [|discriminate].
    destruct (map_result f l) as [bs|e]; [|discriminate].
    intros [= <-]. constructor; auto.
Qed.

Lemma Forall2_map_result {A B : Type} (f : A → result B) (l : list A) (l' : list B) :
  Forall2 (λ a b, f a = Ok b) l l' → map_result f l = Ok l'.
Proof.
  induction 1 as [|a b l l' Hab _ IH]; cbn; [reflexivity |].
  rewrite Hab, IH. reflexivity.
Qed.

Lemma update_each_Forall2 (f : Model → result Model) (l l' : list Model) :
  update_each f l = (l', Ok ()) → Forall2 (λ a b, f a = Ok b) l l'.
Proof.
  revert l'. induction l as [|a l IH]; intros l'; cbn.
  - intros [= <-]. constructor.
  - destruct (f a) as [b|e] eqn:Ea; [|discriminate].
    destruct (update_each f l) as [l'' r]. intros [= <- ->]. constructor; auto.
Qed.

Lemma check_each_Forall {A : Type} (f : A → result unit) (l : list A) :
  check_each f l = Ok () ↔ Forall (λ a, f a = Ok ()) l.
Proof.
  induction l as [|a l IH]; cbn.
  - split; [constructor | reflexivity].
  - destruct (f a) as [[]|e] eqn:Ea.
    + rewrite IH. split; [intros H; constructor; auto | intros H; inversion H; auto].
    + split; [discriminate | intros H; inversion H; congruence].
Qed.

Lemma set_domain_ratios_run (p : Project) :
  set_domain_ratios p =
    (if decide (calculation p ≠ Calculations.Domains)
     then upd p "domain_ratios" (ClassList.set_data (domain_ratios p) [])
     else p, Ok ()).
Proof. unfold set_domain_ratios. munfold. destruct decide; reflexivity. Qed.

Lemma set_domain_contrasts_run (p : Project) :
  set_domain_contrasts p =
    (if bool_decide (calculation p = Calculations.Domains)
        && bool_decide (model p = LayerModels.StandardLayers)
     then p
     else upd p "domain_contrasts" (ClassList.set_data (domain_contrasts p) []), Ok ()).
Proof. unfold set_domain_contrasts. munfold. destruct (_ && _); reflexivity. Qed.

Lemma set_layers_run (p : Project) :
  set_layers p =
    (if decide (model p ≠ LayerModels.StandardLayers)
     then upd p "layers" (ClassList.set_data (layers p) [])
     else p, Ok ()).
Proof. unfold set_layers. munfold. destruct decide; reflexivity. Qed.

Lemma name_is_Contrast (h : class) : String.eqb (__name__ h) "Contrast" = true ↔ h = cContrast.
Proof. destruct h; split; intros H; try reflexivity; try discriminate H. Qed.

Lemma name_is_ContrastWithRatio (h : class) :
  String.eqb (__name__ h) "ContrastWithRatio" = true ↔ h = cContrastWithRatio.
Proof. destruct h; split; intros H; try reflexivity; try discriminate H. Qed.

Lemma name_is_Layer (h : class) : String.eqb (__name__ h) "Layer" = true ↔ h = cLayer.
Proof. destruct h; split; intros H; try reflexivity; try discriminate H. Qed.

Lemma name_is_AbsorptionLayer (h : class) :
  String.eqb (__name__ h) "AbsorptionLayer" = true ↔ h = cAbsorptionLayer.
Proof. destruct h; split; intros H; try reflexivity; try discriminate H. Qed.

Lemma set_calculation_Ok (p p' : Project) :
  set_calculation p = (p', Ok ()) →
  (calculation p = Calculations.Domains
   ∧ ClassList._class_handle (contrasts p) = Some cContrast
   ∧ ∃ l, map_result to_ratio (ClassList.data (contrasts p)) = Ok l
          ∧ p' = upd (upd p "domain_ratios"
                        (ClassList.set_data (domain_ratios p) [default_domain_ratio]))
                     "contrasts" (ClassList.mk l (Some cContrastWithRatio)))
  ∨ (calculation p ≠ Calculations.Domains
     ∧ ClassList._class_handle (contrasts p) = Some cContrastWithRatio
     ∧ ∃ l, map_result to_contrast (ClassList.data (contrasts p)) = Ok l
            ∧ p' = upd p "contrasts" (ClassList.mk l (Some cContrast)))
  ∨ p' = p.
Proof.
  intros H. unfold set_calculation in H. munfold. cbn in H.
  destruct (ClassList._class_handle (contrasts p)) as [h|]; [|discriminate].
  destruct (bool_decide (calculation p = _) && _) eqn:E1.
  - apply andb_true_iff in E1 as [Ec%bool_decide_eq_true ->%name_is_Contrast].
    change (map_result _ (ClassList.data (contrasts p)))
      with (map_result to_ratio (ClassList.data (contrasts p))) in H.
    destruct (map_result to_ratio _) as [l|e] eqn:El; [|discriminate].
    injection H as <-. left. eauto 6.
  - destruct (bool_decide (calculation p ≠ _) && _) eqn:E2.
    + apply andb_true_iff in E2 as [Ec%bool_decide_eq_true ->%name_is_ContrastWithRatio].
      change (map_result _ (ClassList.data (contrasts p)))
        with (map_result to_contrast (ClassList.data (contrasts p))) in H.
      destruct (map_result to_contrast _) as [l|e] eqn:El; [|discriminate].
      injection H as <-. right. left. eauto 6.
    + injection H as <-. auto.
Qed.

Lemma set_contrast_model_field_Ok (p p' : Project) :
  set_contrast_model_field p = (p', Ok ()) →
  (get_contrast_model_field p = _contrast_model_field p ∧ p' = p)
  ∨ (∃ l, update_each clear_model (ClassList.data (contrasts p)) = (l, Ok ())
          ∧ p' = with_contrast_model_field
                   (upd p "contrasts" (ClassList.set_data (contrasts p) l))
                   (get_contrast_model_field p)).
Proof.
  intros H. unfold set_contrast_model_field in H. munfold. cbn in H.
  destruct (String.eqb_spec (get_contrast_model_field p) (_contrast_model_field p)) as [E|E];
    cbn in H.
  - injection H as <-. auto.
  - change (update_each _ (ClassList.data (contrasts p)))
      with (update_each clear_model (ClassList.data (contrasts p))) in H.
    destruct (update_each clear_model _) as [l [[]|e]] eqn:El; cbn in H; [|discriminate].
    injection H as <-. right. exists l. split; reflexivity.
Qed.

Lemma check_contrast_model_length_state (p p' : Project) (r : result unit) :
  check_contrast_model_length p = (p', r) → p' = p.
Proof.
  intros H. unfold check_contrast_model_length in H. munfold. cbn in H.
  destruct (_ && _); [| destruct decide]; cbn in H; congruence.
Qed.

Lemma set_absorption_Ok (p p' : Project) :
  set_absorption p = (p', Ok ()) →
  (absorption p = true
   ∧ ClassList._class_handle (layers p) = Some cLayer
   ∧ ∃ l, map_result to_absorption (ClassList.data (layers p)) = Ok l
          ∧ p' = upd p "layers" (ClassList.mk l (Some cAbsorptionLayer)))
  ∨ (absorption p = false
     ∧ ClassList._class_handle (layers p) = Some cAbsorptionLayer
     ∧ ∃ l, map_result to_layer (ClassList.data (layers p)) = Ok l
            ∧ p' = upd p "layers" (ClassList.mk l (Some cLayer)))
  ∨ p' = p.
Proof.
  intros H. unfold set_absorption in H. munfold. cbn in H.
  destruct (ClassList._class_handle (layers p)) as [h|]; [|discriminate].
  destruct (absorption p && _) eqn:E1.
  - apply andb_true_iff in E1 as [Ec ->%name_is_Layer].
    change (map_result _ (ClassList.data (layers p)))
      with (map_result to_absorption (ClassList.data (layers p))) in H.
    destruct (map_result to_absorption _) as [l|e] eqn:El; [|discriminate].
    injection H as <-. left. eauto 6.
  - destruct (negb (absorption p) && _) eqn:E2.
    + apply andb_true_iff in E2 as [Ec%negb_true_iff ->%name_is_AbsorptionLayer].
      change (map_result _ (ClassList.data (layers p)))
        with (map_result to_layer (ClassList.data (layers p))) in H.
      destruct (map_result to_layer _) as [l|e] eqn:El; [|discriminate].
      injection H as <-. right. left. eauto 6.
    + injection H as <-. auto.
Qed.

(** ** Entities as class and fields *)

Lemma model_ext (m m' : Model) :
  type_of m = type_of m' → model_dump m = model_dump m' → m = m'.
Proof.
  destruct m as [r|r|r|r|r|r|r|r|r|r|r], m' as [r'|r'|r'|r'|r'|r'|r'|r'|r'|r'|r'];
    try discriminate; intros _; destruct r, r'; cbn; intros [=]; subst; reflexivity.
Qed.

Ltac unfold_dump :=
  cbv [model_dump Parameter_.model_dump Background.model_dump CustomFile.model_dump
       Data.model_dump Layer.model_dump AbsorptionLayer.model_dump
       DomainContrast.model_dump Contrast.model_dump ContrastWithRatio.model_dump] in *.

Ltac shape_inv H :=
  repeat match type of H with
    | Forall2 _ (_ :: _) ?d =>
        let kv := fresh "kv" in let d' := fresh "d" in
        let Hk := fresh "Hk" in let Hv := fresh "Hv" in let Ht := fresh "Ht" in
        apply Forall2_cons_inv_l in H as (kv & d' & [Hk Hv] & Ht & ->);
        destruct kv as [? []]; cbn in Hk, Hv; try contradiction; subst;
        rename Ht into H
    | Forall2 _ [] ?d => apply Forall2_nil_inv_l in H; subst
    end.

Lemma construct_same_shape (m : Model) (d : dict) :
  same_shape (model_dump m) d →
  construct (type_of m) d = Ok (rebuild m d)
  ∧ model_dump (rebuild m d) = d
  ∧ type_of (rebuild m d) = type_of m.
Proof.
  unfold same_shape, rebuild. intros H.
  destruct m as [r|r|r|r|r|r|r|r|r|r|r]; destruct r; unfold_dump; cbn in H; shape_inv H;
    vm_compute; auto.
Qed.

Lemma same_kind_refl (v : Value) : same_kind v v.
Proof. destruct v; exact I. Qed.

Lemma same_shape_dict_set (d : dict) (f : string) (w v : Value) :
  dict_get d f = Some w → same_kind w v → same_shape d (dict_set d f v).
Proof.
  unfold same_shape. induction d as [|[k u] d IH]; cbn; [discriminate |].
  destruct (String.eqb k f).
  - intros [= ->] Hk. constructor; [auto |].
    apply Forall_Forall2_diag, Forall_forall. intros; split; [reflexivity | apply same_kind_refl].
  - intros Hg Hk. constructor; [split; [reflexivity | apply same_kind_refl] | auto].
Qed.

Lemma setattr_VStr (m : Model) (f s new : string) :
  dict_get (model_dump m) f = Some (VStr s) →
  setattr m f (VStr new) = Ok (rebuild m (dict_set (model_dump m) f (VStr new)))
  ∧ model_dump (rebuild m (dict_set (model_dump m) f (VStr new)))
    = dict_set (model_dump m) f (VStr new)
  ∧ type_of (rebuild m (dict_set (model_dump m) f (VStr new))) = type_of m.
Proof.
  intros H. unfold setattr. rewrite H.
  apply construct_same_shape, (same_shape_dict_set _ _ _ _ H). exact I.
Qed.

Lemma dict_get_set (d : dict) (f f' : string) (v : Value) :
  dict_get (dict_set d f v) f' =
    if String.eqb f f' then Some v else dict_get d f'.
Proof.
  induction d as [|[k u] d IH]; cbn.
  - reflexivity.
  - destruct (String.eqb_spec k f) as [->|Hkf]; cbn.
    + destruct (String.eqb f f'); reflexivity.
    + destruct (String.eqb_spec k f') as [->|Hkf'].
      * destruct (String.eqb_spec f f'); [congruence | reflexivity].
      * exact IH.
Qed.

Lemma keys_dict_set (d : dict) (f : string) (w v : Value) :
  dict_get d f = Some w → keys (dict_set d f v) = keys d.
Proof.
  unfold keys. induction d as [|[k u] d IH]; cbn; [discriminate |].
  destruct (String.eqb k f); cbn; [reflexivity |]. intros H. rewrite IH; auto.
Qed.

Lemma setattr_all_spec (m : Model) (fs : list string) (new : string) :
  Forall (λ f, ∃ s, dict_get (model_dump m) f = Some (VStr s)) fs →
  ∃ m', setattr_all m fs new = Ok m'
        ∧ model_dump m' = dict_set_all (model_dump m) fs (VStr new)
        ∧ type_of m' = type_of m.
Proof.
  revert m. induction fs as [|f fs IH]; intros m H; cbn.
  - eauto.
  - inversion H as [|? ? [s Hs] Hfs]; subst.
    destruct (setattr_VStr m f s new Hs) as (-> & Hd & Ht).
    destruct (IH (rebuild m (dict_set (model_dump m) f (VStr new)))) as (m' & Hm' & Hd' & Ht').
    + rewrite Hd. eapply List.Forall_impl; [| exact Hfs]. cbn. intros f' [s' Hs'].
      rewrite dict_get_set. destruct (String.eqb f f'); eauto.
    + exists m'. rewrite Hm', Hd', Hd, Ht', Ht. auto.
Qed.

Lemma same_shape_rename (fields : list string) (old new : string) (d : dict) :
  same_shape d (dict_rename fields old new d).
Proof.
  unfold same_shape, dict_rename. apply Forall2_fmap_r, Forall_Forall2_diag, Forall_forall.
  intros [k v] _. unfold renames. cbn.
  destruct (bool_decide (k ∈ fields)); cbn; [| split; [reflexivity | apply same_kind_refl]].
  destruct (bool_decide_reflect (v = VStr old)) as [->|]; cbn;
    split; try reflexivity; try exact I; apply same_kind_refl.
Qed.

Lemma rename_model_dump (fields : list string) (old new : string) (m : Model) :
  model_dump (rename_model fields old new m) = dict_rename fields old new (model_dump m).
Proof. apply construct_same_shape, same_shape_rename. Qed.

Lemma rename_model_type (fields : list string) (old new : string) (m : Model) :
  type_of (rename_model fields old new m) = type_of m.
Proof. apply construct_same_shape, same_shape_rename. Qed.

Lemma dict_set_all_cons_ne (k : string) (u v : Value) (d : dict) (fs : list string) :
  k ∉ fs → dict_set_all ((k, u) :: d) fs v = (k, u) :: dict_set_all d fs v.
Proof.
  revert d. induction fs as [|f fs IH]; intros d Hk; cbn; [reflexivity |].
  apply not_elem_of_cons in Hk as [Hkf Hk].
  destruct (String.eqb_spec k f); [congruence |]. apply IH, Hk.
Qed.

Lemma renamed_fields_dict (fields : list string) (old : string) (m : Model) :
  renamed_fields fields old m = map fst (List.filter (renames fields old) (model_dump m)).
Proof.
  unfold renamed_fields, ClassList.matching_fields.
  induction (model_dump m) as [|[k v] d IH]; [reflexivity |].
  cbn [List.filter snd fst]. unfold renames at 1. cbn [snd fst].
  destruct (bool_decide (v = VStr old)).
  - rewrite andb_true_r. cbn [map fst List.filter].
    destruct (bool_decide (k ∈ fields)); cbn [map fst]; rewrite IH; reflexivity.
  - rewrite andb_false_r. exact IH.
Qed.

Lemma dict_set_all_cons (d : dict) (f : string) (fs : list string) (v : Value) :
  dict_set_all d (f :: fs) v = dict_set_all (dict_set d f v) fs v.
Proof. reflexivity. Qed.

Lemma dict_set_all_rename (fields : list string) (old new : string) (d : dict) :
  NoDup (keys d) →
  dict_set_all d (map fst (List.filter (renames fields old) d)) (VStr new)
  = dict_rename fields old new d.
Proof.
  unfold keys, dict_rename. induction d as [|[k u] d IH]; [reflexivity |].
  cbn [map fst List.filter]. intros [Hk Hd]%list.NoDup_cons.
  assert (Hsel : k ∉ map fst (List.filter (renames fields old) d)).
  { intros (kv & -> & Hin)%list_elem_of_fmap.
    apply list_elem_of_In, filter_In in Hin as [Hin _]. apply Hk, list_elem_of_fmap.
    exists kv. split; [reflexivity | apply list_elem_of_In, Hin]. }
  destruct (renames fields old (k, u)); cbn [map fst].
  - rewrite dict_set_all_cons. cbn [dict_set]. rewrite String.eqb_refl.
    rewrite dict_set_all_cons_ne by exact Hsel. f_equal. apply IH, Hd.
  - rewrite dict_set_all_cons_ne by exact Hsel. f_equal. apply IH, Hd.
Qed.

Lemma keys_NoDup (m : Model) : NoDup (keys (model_dump m)).
Proof.
  destruct m as [r|r|r|r|r|r|r|r|r|r|r]; destruct r; unfold_dump; cbn;
    compute_done.
Qed.

Lemma dict_get_filter (P : string * Value → bool) (d : dict) (f : string) :
  NoDup (keys d) → f ∈ map fst (List.filter P d) →
  ∃ v, dict_get d f = Some v ∧ P (f, v) = true.
Proof.
  unfold keys. induction d as [|[k u] d IH]; cbn; [intros _ []%elem_of_nil |].
  intros [Hk Hd]%list.NoDup_cons Hin.
  destruct (String.eqb_spec k f) as [->|Hkf].
  - destruct (P (f, u)) eqn:E; [eauto |].
    exfalso. apply Hk. apply list_elem_of_fmap in Hin as (kv & -> & Hin).
    apply list_elem_of_In, filter_In in Hin as [Hin _]. apply list_elem_of_fmap.
    exists kv. split; [reflexivity | apply list_elem_of_In, Hin].
  - apply IH; [exact Hd |]. destruct (P (k, u)); [| exact Hin].
    cbn in Hin. apply elem_of_cons in Hin as [->|]; [congruence | assumption].
Qed.

(** Assigning [new] to the registered matches of [old] on one element gives
    the renamed element. *)
Lemma setattr_all_rename (fields : list string) (old new : string) (m : Model) :
  setattr_all m (renamed_fields fields old m) new = Ok (rename_model fields old new m).
Proof.
  destruct (setattr_all_spec m (renamed_fields fields old m) new) as (m' & -> & Hd & Ht).
  - rewrite renamed_fields_dict. apply list.Forall_forall. intros f Hf.
    destruct (dict_get_filter _ _ _ (keys_NoDup m) Hf) as (v & Hv & HP).
    unfold renames in HP. cbn in HP.
    apply andb_true_iff in HP as [_ ->%bool_decide_eq_true]. eauto.
  - f_equal. apply model_ext.
    + rewrite Ht, rename_model_type. reflexivity.
    + rewrite Hd, rename_model_dump, renamed_fields_dict.
      apply dict_set_all_rename, keys_NoDup.
Qed.

(** ** The rename propagator as a function on lists *)

Lemma apply_matches_element (fields : list string) (new : string) (fs : list string)
    (rest : list (nat * string)) (pre suf : list Model) (e : Model) :
  apply_matches fields new (map (pair (length pre)) fs ++ rest) (pre ++ e :: suf)
  = match setattr_all e (List.filter (λ f, bool_decide (f ∈ fields)) fs) new with
    | Ok e' => apply_matches fields new rest (pre ++ e' :: suf)
    | Raise x => Raise x
    end.
Proof.
  revert e. induction fs as [|f fs IH]; intros e; [reflexivity |].
  cbn [map app apply_matches List.filter].
  destruct (bool_decide (f ∈ fields)); [| apply IH].
  rewrite list_lookup_middle by reflexivity. cbn [setattr_all].
  destruct (setattr e f (VStr new)) as [e'|x]; [| reflexivity].
  replace (<[length pre := e']> (pre ++ e :: suf)) with (pre ++ e' :: suf); [apply IH |].
  rewrite <- (Nat.add_0_r (length pre)) at 1. rewrite insert_app_r. reflexivity.
Qed.

Lemma apply_matches_from (fields : list string) (old new : string) (pre l : list Model) :
  apply_matches fields new (ClassList.matches_from (length pre) l old) (pre ++ l)
  = Ok (pre ++ map (rename_model fields old new) l).
Proof.
  revert pre. induction l as [|e l IH]; intros pre; [reflexivity |].
  cbn [ClassList.matches_from map]. rewrite apply_matches_element.
  fold (renamed_fields fields old e). rewrite setattr_all_rename.
  specialize (IH (pre ++ [rename_model fields old new e])).
  rewrite length_app, Nat.add_1_r, <- !app_assoc in IH. exact IH.
Qed.

Lemma apply_all_matches (fields : list string) (old new : string) (cl : ClassList.t) :
  apply_matches fields new (ClassList.get_all_matches cl old) (ClassList.data cl)
  = Ok (map (rename_model fields old new) (ClassList.data cl)).
Proof. apply (apply_matches_from fields old new []). Qed.

Lemma upd_same (p : Project) (a : string) (cl : ClassList.t) :
  getattr p a = Ok cl → upd p a cl = p.
Proof.
  unfold upd, getattr, set_classlist. destruct p.
  attr_cases a; intros [= <-]; reflexivity.
Qed.

Lemma upd_invalid (p : Project) (a : string) (c : ClassList.t) :
  a ∉ class_lists → upd p a c = p.
Proof.
  intros H. unfold upd, set_classlist.
  attr_cases a; try reflexivity; exfalso; apply H; compute_done.
Qed.

Ltac attr_enum H :=
  repeat (apply elem_of_cons in H as [->|H]); [.. | apply elem_of_nil in H; destruct H].

Lemma upd_upd (p : Project) (a : string) (c c' : ClassList.t) :
  upd (upd p a c) a c' = upd p a c'.
Proof.
  destruct (decide (a ∈ class_lists)) as [H|H].
  - attr_enum H; reflexivity.
  - rewrite !upd_invalid by assumption. reflexivity.
Qed.

Lemma set_data_same (cl : ClassList.t) : ClassList.set_data cl (ClassList.data cl) = cl.
Proof. destruct cl; reflexivity. Qed.

Lemma rename_matches_run (a : string) (fields : list string) (new : string)
    (matches : list (nat * string)) (p : Project) (cl : ClassList.t) (l' : list Model) :
  getattr p a = Ok cl →
  apply_matches fields new matches (ClassList.data cl) = Ok l' →
  rename_matches a fields new matches p = (upd p a (ClassList.set_data cl l'), Ok ()).
Proof.
  revert p cl. induction matches as [|[index field] matches IH]; intros p cl Ha.
  - intros [= <-]. rewrite set_data_same, (upd_same _ _ _ Ha). reflexivity.
  - cbn [apply_matches]. unfold rename_matches. cbn [for_each]. rewrite bind_run.
    fold (rename_matches a fields new matches).
    destruct (bool_decide (field ∈ fields)).
    + unfold attr. rewrite !bind_run. cbn [get_self]. unfold lift at 1. rewrite Ha.
      destruct (ClassList.data cl !! index) as [element|]; [| discriminate].
      rewrite bind_run. unfold lift.
      destruct (setattr element field (VStr new)) as [element'|x]; [| discriminate].
      rewrite (assign_data_run _ _ _ _ Ha). intros Hl.
      rewrite (IH _ (ClassList.set_data cl (<[index:=element']> (ClassList.data cl)))).
      * rewrite upd_upd. reflexivity.
      * apply (getattr_upd_eq _ _ _ _ Ha).
      * exact Hl.
    + intros Hl. cbn [mret M_ret]. apply IH; assumption.
Qed.

Lemma propagate_run (a : string) (fields : list string) (diffs : list (string * string))
    (p : Project) (cl : ClassList.t) :
  getattr p a = Ok cl →
  propagate a fields diffs p
  = (upd p a (ClassList.set_data cl (rename_list fields diffs (ClassList.data cl))), Ok ()).
Proof.
  revert p cl. induction diffs as [|[old new] diffs IH]; intros p cl Ha.
  - cbn. rewrite set_data_same, (upd_same _ _ _ Ha). reflexivity.
  - unfold propagate. cbn [for_each]. fold (propagate a fields diffs).
    rewrite bind_run. unfold attr at 1. rewrite !bind_run. cbn [get_self]. unfold lift.
    rewrite Ha.
    rewrite (rename_matches_run _ _ _ _ _ _ _ Ha (apply_all_matches fields old new cl)).
    rewrite (IH _ (ClassList.set_data cl (map (rename_model fields old new) (ClassList.data cl)))).
    + rewrite upd_upd. reflexivity.
    + apply (getattr_upd_eq _ _ _ _ Ha).
Qed.

(** ** Fields of a renamed entity *)

Lemma dict_get_rename (fields : list string) (old new : string) (d : dict) (f : string) :
  dict_get (dict_rename fields old new d) f
  = (λ v, if bool_decide (f ∈ fields) && bool_decide (v = VStr old) then VStr new else v)
      <$> dict_get d f.
Proof.
  unfold dict_rename. induction d as [|[k v] d IH]; [reflexivity |].
  cbn [map dict_get]. unfold renames at 1. cbn [fst snd].
  destruct (bool_decide (k ∈ fields) && bool_decide (v = VStr old)) eqn:E; cbn [fst snd dict_get];
    destruct (String.eqb_spec k f) as [->|Hkf]; try exact IH; cbn; rewrite ?E; reflexivity.
Qed.

Lemma name_of_dump (m : Model) : dict_get (model_dump m) "name" = Some (VStr (name_of m)).
Proof. destruct m; reflexivity. Qed.

Lemma rename_model_name (fields : list string) (old new : string) (m : Model) :
  "name" ∉ fields → name_of (rename_model fields old new m) = name_of m.
Proof.
  intros H.
  pose proof (name_of_dump (rename_model fields old new m)) as Hn.
  rewrite rename_model_dump, dict_get_rename, name_of_dump in Hn. cbn in Hn.
  rewrite bool_decide_eq_false_2 in Hn by exact H. cbn in Hn. congruence.
Qed.

Lemma rename_list_map (fields : list string) (diffs : list (string * string)) (l : list Model) :
  rename_list fields diffs l = map (rename_all fields diffs) l.
Proof.
  unfold rename_list, rename_all. revert l.
  induction diffs as [|on diffs IH]; intros l; cbn [fold_left].
  - symmetry. apply map_id.
  - rewrite IH, map_map. reflexivity.
Qed.

Lemma rename_all_type (fields : list string) (diffs : list (string * string)) (m : Model) :
  type_of (rename_all fields diffs m) = type_of m.
Proof.
  unfold rename_all. revert m. induction diffs as [|on diffs IH]; intros m; cbn; [reflexivity |].
  rewrite IH. apply rename_model_type.
Qed.

Lemma rename_all_name (fields : list string) (diffs : list (string * string)) (m : Model) :
  "name" ∉ fields → name_of (rename_all fields diffs m) = name_of m.
Proof.
  intros H. unfold rename_all. revert m.
  induction diffs as [|on diffs IH]; intros m; cbn; [reflexivity |].
  rewrite IH. apply rename_model_name, H.
Qed.

Lemma rename_all_get (fields : list string) (diffs : list (string * string)) (m : Model)
    (f : string) :
  dict_get (model_dump (rename_all fields diffs m)) f
  = (if bool_decide (f ∈ fields) then rename_value diffs else id) <$> dict_get (model_dump m) f.
Proof.
  unfold rename_all, rename_value. revert m.
  induction diffs as [|on diffs IH]; intros m; cbn [fold_left].
  - destruct (bool_decide (f ∈ fields)), (dict_get (model_dump m) f); reflexivity.
  - rewrite IH, rename_model_dump, dict_get_rename.
    destruct (dict_get (model_dump m) f) as [v|]; [| reflexivity]. cbn.
    destruct (bool_decide (f ∈ fields)); reflexivity.
Qed.

(** ** The rename propagator over the table *)

Lemma update_renamed_models_unfold :
  update_renamed_models
  = (for_each model_names_used_in rename_entry;;
     self ← get_self;
     all_names ← lift (get_all_names self);
     put_self (with_all_names self all_names)).
Proof. reflexivity. Qed.

Lemma rename_entry_run (class_list : string) (uses : AllFields) (q : Project)
    (cl : ClassList.t) :
  getattr q (attribute uses) = Ok cl →
  rename_entry (class_list, uses) q
  = match entry_diffs q class_list with
    | Ok diffs =>
        (upd q (attribute uses)
           (ClassList.set_data cl (map (rename_all (fields uses) diffs) (ClassList.data cl))),
         Ok ())
    | Raise e => (q, Raise e)
    end.
Proof.
  intros Ha. unfold rename_entry, entry_diffs, attr.
  rewrite !bind_run. cbn [get_self]. rewrite bind_run. unfold lift at 1.
  destruct (names_get (_all_names q) class_list) as [old_names|e]; cbn [mbind result_bind];
    [| reflexivity].
  rewrite !bind_run. cbn [get_self]. unfold lift.
  destruct (getattr q class_list) as [source|e]; [| reflexivity].
  cbn [mbind result_bind].
  destruct (Nat.eqb _ _).
  - rewrite (propagate_run _ _ _ _ _ Ha), rename_list_map. reflexivity.
  - cbn. rewrite map_id, set_data_same, (upd_same _ _ _ Ha). reflexivity.
Qed.

Lemma getattr_class_lists (p : Project) (a : string) :
  a ∈ class_lists → ∃ cl, getattr p a = Ok cl.
Proof. intros H. attr_enum H; eexists; reflexivity. Qed.

Lemma rename_step_name (p : Project) (a : string) (m : Model) (entry : string * AllFields) :
  entry_ok entry → name_of (rename_step p a m entry) = name_of m.
Proof.
  intros (_ & _ & H). unfold rename_step.
  destruct (String.eqb _ a); [| reflexivity].
  destruct (entry_diffs p entry.1); [| reflexivity]. apply rename_all_name, H.
Qed.

Lemma renamed_model_name (table : list (string * AllFields)) (p : Project) (a : string)
    (m : Model) :
  Forall entry_ok table → name_of (renamed_model table p a m) = name_of m.
Proof.
  unfold renamed_model. intros H. revert m.
  induction H as [|entry table He _ IH]; intros m; cbn [fold_left]; [reflexivity |].
  rewrite IH. apply rename_step_name, He.
Qed.

Lemma rename_step_type (p : Project) (a : string) (m : Model) (entry : string * AllFields) :
  type_of (rename_step p a m entry) = type_of m.
Proof.
  unfold rename_step. destruct (String.eqb _ a); [| reflexivity].
  destruct (entry_diffs p entry.1); [| reflexivity]. apply rename_all_type.
Qed.

Lemma renamed_model_type (table : list (string * AllFields)) (p : Project) (a : string)
    (m : Model) :
  type_of (renamed_model table p a m) = type_of m.
Proof.
  unfold renamed_model. revert m.
  induction table as [|entry table IH]; intros m; cbn [fold_left]; [reflexivity |].
  rewrite IH. apply rename_step_type.
Qed.

Lemma propagated_diffs (done : list (string * AllFields)) (p q : Project) (src : string) :
  Forall entry_ok done → propagated done p q → src ∈ class_lists →
  entry_diffs q src = entry_diffs p src.
Proof.
  intros Hok (_ & Hn & _ & _ & Hl) Hsrc. unfold entry_diffs. rewrite Hn.
  destruct (names_get (_all_names p) src) as [old|e]; [| reflexivity]. cbn [mbind result_bind].
  destruct (getattr_class_lists p src Hsrc) as [cl Hcl]. rewrite Hcl, (Hl _ _ Hcl).
  cbn [mbind result_bind]. unfold ClassList.get_names. cbn [ClassList.data].
  rewrite map_map. erewrite map_ext; [reflexivity |].
  intros m. cbn. apply renamed_model_name, Hok.
Qed.

Lemma propagated_step (done : list (string * AllFields)) (p q : Project)
    (entry : string * AllFields) (cl : ClassList.t) (diffs : list (string * string)) :
  propagated done p q → entry_ok entry →
  getattr q (attribute entry.2) = Ok cl →
  entry_diffs p entry.1 = Ok diffs →
  propagated (done ++ [entry]) p
    (upd q (attribute entry.2)
       (ClassList.set_data cl (map (rename_all (fields entry.2) diffs) (ClassList.data cl)))).
Proof.
  intros (Hf & Hn & Hc & Hp & Hl) Hok Hq Hd.
  destruct (upd_private q (attribute entry.2)
    (ClassList.set_data cl (map (rename_all (fields entry.2) diffs) (ClassList.data cl))))
    as (Hn' & Hc' & Hp').
  split; [rewrite upd_flags; exact Hf |].
  split; [congruence |]. split; [congruence |]. split; [congruence |].
  intros a cl0 Ha. specialize (Hl a cl0 Ha).
  assert (Hstep : ∀ m, renamed_model (done ++ [entry]) p a m
                       = rename_step p a (renamed_model done p a m) entry).
  { intros m. unfold renamed_model. rewrite fold_left_app. reflexivity. }
  destruct (String.eqb_spec (attribute entry.2) a) as [<-|Hne].
  - rewrite (getattr_upd_eq _ _ _ _ Hq). rewrite Hl in Hq. injection Hq as <-.
    unfold ClassList.set_data. cbn [ClassList.data ClassList._class_handle]. f_equal. f_equal.
    rewrite map_map. apply map_ext. intros m. rewrite Hstep. unfold rename_step.
    rewrite String.eqb_refl, Hd. reflexivity.
  - rewrite getattr_upd_ne by congruence. rewrite Hl. f_equal. f_equal.
    apply map_ext. intros m. rewrite Hstep. unfold rename_step.
    destruct (String.eqb_spec (attribute entry.2) a); [contradiction | reflexivity].
Qed.

(** The outer loop: it succeeds exactly when the cache has the names of every
    source, and then leaves each ClassList with its entities renamed. *)
Lemma rename_loop (rest done : list (string * AllFields)) (p q q' : Project)
    (r : result unit) :
  Forall entry_ok done → Forall entry_ok rest → propagated done p q →
  for_each rest rename_entry q = (q', r) →
  (r = Ok () → propagated (done ++ rest) p q'
               ∧ Forall (λ entry, ∃ diffs, entry_diffs p entry.1 = Ok diffs) rest)
  ∧ (Forall (λ entry, ∃ diffs, entry_diffs p entry.1 = Ok diffs) rest → r = Ok ()).
Proof.
  revert done q. induction rest as [|entry rest IH]; intros done q Hdone Hrest Hq.
  - cbn. intros [= <- <-]. rewrite app_nil_r. auto.
  - inversion Hrest as [|? ? He Hrest']; subst.
    cbn [for_each]. rewrite bind_run.
    destruct He as (Hsrc & Hattr & Hname).
    destruct (getattr_class_lists q _ Hattr) as [cl Hcl].
    destruct entry as [class_list uses]. cbn [fst snd] in *.
    rewrite (rename_entry_run _ _ _ _ Hcl).
    rewrite (propagated_diffs done p q class_list Hdone Hq Hsrc).
    destruct (entry_diffs p class_list) as [diffs|e] eqn:Ed.
    + intros Hrun.
      assert (He : entry_ok (class_list, uses)) by (repeat split; assumption).
      pose proof (propagated_step done p q (class_list, uses) cl diffs Hq He Hcl Ed) as Hstep.
      assert (Hdone' : Forall entry_ok (done ++ [(class_list, uses)])).
      { apply Forall_app. split; [exact Hdone | constructor; [exact He | constructor]]. }
      destruct (IH (done ++ [(class_list, uses)]) _ Hdone' Hrest' Hstep Hrun) as [IH1 IH2].
      split.
      * intros Hr. destruct (IH1 Hr) as [Hp Hall]. rewrite <- app_assoc in Hp.
        split; [exact Hp |]. constructor; eauto.
      * intros Hall. inversion Hall; subst. auto.
    + intros [= <- <-]. split; [discriminate |].
      intros Hall. inversion Hall as [|? ? [diffs Hd] _]; subst. cbn in Hd. congruence.
Qed.

Lemma get_all_names_run (p : Project) : get_all_names p = Ok (all_names p).
Proof. reflexivity. Qed.

Lemma get_all_protected_parameters_run (p : Project) :
  get_all_protected_parameters p = Ok (all_protected p).
Proof. reflexivity. Qed.

Lemma table_ok : Forall entry_ok model_names_used_in.
Proof. repeat constructor; compute_done. Qed.

Lemma entry_diffs_Ok (p : Project) (src : string) :
  src ∈ class_lists →
  (∃ diffs, entry_diffs p src = Ok diffs) ↔ (∃ old_names, names_get (_all_names p) src = Ok old_names).
Proof.
  intros Hsrc. unfold entry_diffs. destruct (getattr_class_lists p src Hsrc) as [cl ->].
  destruct (names_get (_all_names p) src); cbn; split; intros [x Hx]; eauto; discriminate.
Qed.

Lemma propagated_refl (p : Project) : propagated [] p p.
Proof.
  repeat split. intros a cl ->. destruct cl. cbn. rewrite map_id. reflexivity.
Qed.

(** [update_renamed_models] succeeds exactly when the cache is complete; it
    then leaves the entities of each ClassList renamed and the cache
    refreshed. *)
Lemma update_renamed_models_spec (p p' : Project) (r : result unit) :
  update_renamed_models p = (p', r) →
  (r = Ok () →
     cache_complete p
     ∧ ∃ q, propagated model_names_used_in p q ∧ p' = with_all_names q (all_names q))
  ∧ (cache_complete p → r = Ok ()).
Proof.
  rewrite update_renamed_models_unfold, bind_run.
  destruct (for_each model_names_used_in rename_entry p) as [q rq] eqn:Eloop.
  destruct (rename_loop model_names_used_in [] p p q rq (Forall_nil _) table_ok
              (propagated_refl p) Eloop) as [H1 H2].
  assert (Hcache : Forall (λ entry : string * AllFields, ∃ diffs, entry_diffs p entry.1 = Ok diffs)
                     model_names_used_in ↔ cache_complete p).
  { unfold cache_complete. rewrite !list.Forall_forall. split; intros H entry Hin.
    - apply entry_diffs_Ok; [| auto].
      pose proof table_ok as Hok. rewrite list.Forall_forall in Hok. apply (Hok _ Hin).
    - apply entry_diffs_Ok; [| auto].
      pose proof table_ok as Hok. rewrite list.Forall_forall in Hok. apply (Hok _ Hin). }
  destruct rq as [[]|e].
  - destruct (H1 eq_refl) as [Hp Hall]. cbn. intros [= <- <-]. split; [| reflexivity].
    intros _. split; [apply Hcache, Hall |]. exists q. split; [exact Hp | reflexivity].
  - intros [= <- <-]. split; [discriminate |]. intros Hc%Hcache. specialize (H2 Hc). discriminate.
Qed.

(** ** The read-only checks *)


Lemma check_field_run (allowed_values : list string) (m : Model) (field key : string)
    (attribute : string) :
  (if truthy (getattr_default m field (VStr ""))
      && negb (value_in (getattr_default m field (VStr "")) allowed_values)
   then target ← lookup_str values_defined_in key;
        Raise (must_be_defined_in (getattr_default m field (VStr "")) field attribute target)
   else Ok ()) = Ok ()
  ↔ field_ok allowed_values m field.
Proof.
  unfold field_ok. destruct (_ && _); [| tauto].
  destruct (lookup_str _ _); cbn; split; discriminate.
Qed.

Lemma check_allowed_values_run (a : string) (field_list allowed_values : list string)
    (p : Project) :
  ∃ r, check_allowed_values a field_list allowed_values p = (p, r)
       ∧ (r = Ok () → ∃ cl, getattr p a = Ok cl
                           ∧ fields_ok field_list allowed_values (ClassList.data cl)).
Proof.
  unfold check_allowed_values. munfold. destruct (getattr p a) as [cl|e].
  - eexists. split; [reflexivity |]. intros H. exists cl. split; [reflexivity |].
    apply check_each_Forall in H. unfold fields_ok.
    eapply List.Forall_impl; [| exact H]. cbn. intros m Hm.
    apply check_each_Forall in Hm. eapply List.Forall_impl; [| exact Hm].
    cbn. intros field Hf. eapply check_field_run, Hf.
  - eexists. split; [reflexivity | discriminate].
Qed.

Lemma check_allowed_background_resolution_values_run (a : string)
    (field_list allowed_constants allowed_data : list string) (p : Project) :
  ∃ r, check_allowed_background_resolution_values a field_list allowed_constants allowed_data p
       = (p, r)
       ∧ (r = Ok () → ∃ cl, getattr p a = Ok cl
            ∧ typed_fields_ok field_list allowed_constants allowed_data (ClassList.data cl)).
Proof.
  unfold check_allowed_background_resolution_values. munfold. destruct (getattr p a) as [cl|e].
  - eexists. split; [reflexivity |]. intros H. exists cl. split; [reflexivity |].
    apply check_each_Forall in H. unfold typed_fields_ok.
    eapply List.Forall_impl; [| exact H]. cbn. intros m Hm.
    destruct (type_field m) as [[]|e]; cbn in Hm; try discriminate.
    + left. split; [reflexivity |]. apply check_each_Forall in Hm.
      eapply List.Forall_impl; [| exact Hm]. cbn. intros field Hf. eapply check_field_run, Hf.
    + right. split; [reflexivity |]. apply check_each_Forall in Hm.
      eapply List.Forall_impl; [| exact Hm]. cbn. intros field Hf. eapply check_field_run, Hf.
  - eexists. split; [reflexivity | discriminate].
Qed.

Lemma check_contrast_model_allowed_values_run (a : string) (allowed_values : list string)
    (allowed_field : string) (p : Project) :
  ∃ r, check_contrast_model_allowed_values a allowed_values allowed_field p = (p, r)
       ∧ (r = Ok () → ∃ cl, getattr p a = Ok cl ∧ models_ok allowed_values (ClassList.data cl)).
Proof.
  unfold check_contrast_model_allowed_values. munfold. destruct (getattr p a) as [cl|e].
  - eexists. split; [reflexivity |]. intros H. exists cl. split; [reflexivity |].
    apply check_each_Forall in H. unfold models_ok.
    eapply List.Forall_impl; [| exact H]. cbn. intros m Hm.
    destruct (model_field m) as [model_values|e]; cbn in Hm; [| discriminate].
    exists model_values. split; [reflexivity |].
    destruct model_values as [|v vs]; [constructor |].
    destruct (forallb _ (v :: vs)) eqn:E; cbn in Hm; [| discriminate].
    rewrite List.forallb_forall in E. apply list.Forall_forall. intros x Hx.
    apply list_elem_of_In in Hx. apply E in Hx. apply bool_decide_eq_true in Hx. exact Hx.
  - eexists. split; [reflexivity | discriminate].
Qed.

Ltac step_check lem :=
  rewrite bind_run;
  let r := fresh "r" in let E := fresh "E" in let H := fresh "H" in
  destruct lem as (r & E & H); rewrite E; clear E;
  destruct r as [[]|?];
  [specialize (H eq_refl); destruct H as (? & [= <-] & H)
  | let X := fresh in intros X; injection X as <- <-; split; [reflexivity | discriminate]].

Lemma cross_check_model_values_run (p p' : Project) (r : result unit) :
  cross_check_model_values p = (p', r) → p' = p ∧ (r = Ok () → cross_checked p).
Proof.
  unfold cross_check_model_values. rewrite bind_run. cbn [get_self].
  step_check (check_allowed_background_resolution_values_run "backgrounds" value_fields
    (ClassList.get_names (background_parameters p)) (ClassList.get_names (data p)) p).
  step_check (check_allowed_background_resolution_values_run "resolutions" value_fields
    (ClassList.get_names (resolution_parameters p)) (ClassList.get_names (data p)) p).
  step_check (check_allowed_values_run "layers"
    ["thickness"; "SLD"; "SLD_real"; "SLD_imaginary"; "roughness"]
    (ClassList.get_names (parameters p)) p).
  step_check (check_allowed_values_run "contrasts" ["data"] (ClassList.get_names (data p)) p).
  step_check (check_allowed_values_run "contrasts" ["background"]
    (ClassList.get_names (backgrounds p)) p).
  step_check (check_allowed_values_run "contrasts" ["bulk_in"]
    (ClassList.get_names (bulk_in p)) p).
  step_check (check_allowed_values_run "contrasts" ["bulk_out"]
    (ClassList.get_names (bulk_out p)) p).
  step_check (check_allowed_values_run "contrasts" ["scalefactor"]
    (ClassList.get_names (scalefactors p)) p).
  step_check (check_allowed_values_run "contrasts" ["resolution"]
    (ClassList.get_names (resolutions p)) p).
  step_check (check_allowed_values_run "contrasts" ["domain_ratio"]
    (ClassList.get_names (domain_ratios p)) p).
  rewrite bind_run. unfold attr. rewrite bind_run. cbn [get_self]. unfold lift.
  destruct (getattr p (_contrast_model_field p)) as [model_source|e] eqn:Esrc;
    [| intros [= <- <-]; split; [reflexivity | discriminate]].
  step_check (check_contrast_model_allowed_values_run "contrasts"
    (ClassList.get_names model_source) (_contrast_model_field p) p).
  destruct (check_contrast_model_allowed_values_run "domain_contrasts"
    (ClassList.get_names (layers p)) "layers" p) as (rl & El & Hl).
  rewrite El. intros [= <- <-]. split; [reflexivity |].
  intros Hr. destruct (Hl Hr) as (? & [= <-] & Hdc).
  unfold cross_checked. repeat (split; [assumption |]). split; [eauto | assumption].
Qed.

(** ** The protected-entry guard *)

Lemma for_each_readonly {A : Type} (body : A → M unit) (f : A → result unit) (l : list A)
    (p : Project) :
  (∀ a, body a p = (p, f a)) → for_each l body p = (p, check_each f l).
Proof.
  intros H. induction l as [|a l IH]; [reflexivity |].
  cbn [for_each check_each]. rewrite bind_run, H.
  destruct (f a) as [[]|e]; [exact IH | reflexivity].
Qed.

Lemma check_protected_parameters_run (p : Project) :
  check_protected_parameters p
  = match check_each (guard_entry p) parameter_class_lists with
    | Ok _ => (with_protected_parameters p (all_protected p), Ok ())
    | Raise e => (p, Raise e)
    end.
Proof.
  unfold check_protected_parameters. rewrite bind_run.
  rewrite (for_each_readonly _ (guard_entry p)).
  - destruct (check_each _ _) as [[]|e]; reflexivity.
  - intros a. unfold guard_entry. munfold. destruct (getattr p a) as [cl|e]; [| reflexivity].
    cbn. destruct (names_get _ a) as [previous|e]; [| reflexivity].
    cbn. destruct (negb _); reflexivity.
Qed.

(** ** The length of the model of a contrast *)

Lemma check_contrast_model_length_Ok (p p' : Project) :
  check_contrast_model_length p = (p', Ok ()) → model_lengths_ok p.
Proof.
  unfold check_contrast_model_length, model_lengths_ok. munfold. cbn.
  destruct (bool_decide_reflect (model p = LayerModels.StandardLayers)) as [Hm|Hm]; cbn.
  - destruct (bool_decide_reflect (calculation p = Calculations.Domains)) as [Hc|Hc]; cbn.
    + intros [= <- E]. split; [| contradiction]. intros _ _.
      apply check_each_Forall in E. eapply List.Forall_impl; [| exact E]. cbn. intros m Hmf.
      destruct (model_field m) as [l|e]; [| discriminate]. exists l. split; [reflexivity |].
      cbn in Hmf. destruct l as [|x l]; [auto |]. right.
      destruct (Nat.eqb_spec (length (x :: l)) 2); [assumption | discriminate].
    + destruct decide; [contradiction |]. intros _. split; intros; contradiction.
  - destruct decide; [| contradiction].
    intros [= <- E]. split; [contradiction |]. intros _.
    apply check_each_Forall in E. eapply List.Forall_impl; [| exact E]. cbn. intros m Hmf.
    destruct (model_field m) as [l|e]; [| discriminate]. exists l. split; [reflexivity |].
    destruct l as [|x1 [|x2 l]]; cbn in Hmf |- *; [lia | lia | discriminate].
Qed.

(** ** The pipeline, step by step *)

Lemma run_validators_Ok (p p' : Project) :
  run_validators p = (p', Ok ()) →
  ∃ p1 p2 p3 p4 p5 p6 p7 p8 p9,
    set_domain_ratios p = (p1, Ok ())
    ∧ set_domain_contrasts p1 = (p2, Ok ())
    ∧ set_layers p2 = (p3, Ok ())
    ∧ set_calculation p3 = (p4, Ok ())
    ∧ set_contrast_model_field p4 = (p5, Ok ())
    ∧ check_contrast_model_length p5 = (p6, Ok ())
    ∧ set_absorption p6 = (p7, Ok ())
    ∧ update_renamed_models p7 = (p8, Ok ())
    ∧ cross_check_model_values p8 = (p9, Ok ())
    ∧ check_protected_parameters p9 = (p', Ok ()).
Proof.
  unfold run_validators. intros H.
  do 9 (apply bind_Ok in H as (? & [] & ? & H)).
  do 9 eexists. repeat split; eassumption.
Qed.

Lemma model_validate_Ok (p p' : Project) :
  model_validate p = (p', Ok ()) → run_validators p = (p', Ok ()).
Proof.
  unfold model_validate. destruct (run_validators p) as [q [[]|[]]]; congruence.
Qed.

Lemma frame_refl (S : list string) (p : Project) : frame S p p.
Proof. split; auto. Qed.

Lemma frame_trans (S1 S2 : list string) (p q r : Project) :
  frame S1 p q → frame S2 q r → frame (S1 ++ S2) p r.
Proof.
  intros [Hf1 H1] [Hf2 H2]. split; [congruence |].
  intros a [Ha1 Ha2]%not_elem_of_app. rewrite H2, H1; auto.
Qed.

Lemma frame_weaken (S S' : list string) (p q : Project) :
  S ⊆ S' → frame S p q → frame S' p q.
Proof. intros Hs [Hf H]. split; [exact Hf |]. intros a Ha. apply H. intros Hin. apply Ha, Hs, Hin. Qed.

Lemma frame_upd (p : Project) (a : string) (c : ClassList.t) : frame [a] p (upd p a c).
Proof.
  split; [apply upd_flags |]. intros b Hb%not_elem_of_cons. apply getattr_upd_ne. tauto.
Qed.

Lemma frame_with_all_names (p : Project) (n : names_dict) : frame [] p (with_all_names p n).
Proof. split; reflexivity. Qed.

Lemma frame_with_contrast_model_field (p : Project) (f : string) :
  frame [] p (with_contrast_model_field p f).
Proof. split; reflexivity. Qed.

Lemma frame_with_protected_parameters (p : Project) (n : names_dict) :
  frame [] p (with_protected_parameters p n).
Proof. split; reflexivity. Qed.

Lemma set_domain_ratios_frame (p p' : Project) (r : result unit) :
  set_domain_ratios p = (p', r) → frame ["domain_ratios"] p p'.
Proof.
  rewrite set_domain_ratios_run. intros [= <- _].
  destruct decide; [apply frame_upd | apply frame_refl].
Qed.

Lemma set_domain_contrasts_frame (p p' : Project) (r : result unit) :
  set_domain_contrasts p = (p', r) → frame ["domain_contrasts"] p p'.
Proof.
  rewrite set_domain_contrasts_run. intros [= <- _].
  destruct (_ && _); [apply frame_refl | apply frame_upd].
Qed.

Lemma set_layers_frame (p p' : Project) (r : result unit) :
  set_layers p = (p', r) → frame ["layers"] p p'.
Proof.
  rewrite set_layers_run. intros [= <- _].
  destruct decide; [apply frame_upd | apply frame_refl].
Qed.

Lemma set_calculation_frame (p p' : Project) :
  set_calculation p = (p', Ok ()) → frame ["domain_ratios"; "contrasts"] p p'.
Proof.
  intros [(_ & _ & l & _ & ->)|[(_ & _ & l & _ & ->)| ->]]%set_calculation_Ok.
  - apply (frame_trans ["domain_ratios"] ["contrasts"] _ _ _ (frame_upd _ _ _) (frame_upd _ _ _)).
  - eapply frame_weaken; [| apply frame_upd].
    intros x Hx. apply elem_of_cons in Hx as [->|[]%elem_of_nil]. compute_done.
  - apply frame_refl.
Qed.

Lemma set_contrast_model_field_frame (p p' : Project) :
  set_contrast_model_field p = (p', Ok ()) → frame ["contrasts"] p p'.
Proof.
  intros [[_ ->]|(l & _ & ->)]%set_contrast_model_field_Ok.
  - apply frame_refl.
  - apply (frame_trans ["contrasts"] [] _ _ _ (frame_upd _ _ _)
             (frame_with_contrast_model_field _ _)).
Qed.

Lemma set_absorption_frame (p p' : Project) :
  set_absorption p = (p', Ok ()) → frame ["layers"] p p'.
Proof.
  intros [(_ & _ & l & _ & ->)|[(_ & _ & l & _ & ->)| ->]]%set_absorption_Ok.
  - apply frame_upd.
  - apply frame_upd.
  - apply frame_refl.
Qed.

Lemma renamed_model_skip (table : list (string * AllFields)) (p : Project) (a : string)
    (m : Model) :
  Forall (λ entry : string * AllFields, attribute entry.2 ≠ a) table →
  renamed_model table p a m = m.
Proof.
  unfold renamed_model. induction 1 as [|entry table He _ IH]; [reflexivity |].
  cbn [fold_left]. unfold rename_step at 2.
  destruct (String.eqb_spec (attribute entry.2) a); [contradiction | exact IH].
Qed.

Lemma table_consumers :
  Forall (λ entry : string * AllFields, attribute entry.2 ∈ consumers) model_names_used_in.
Proof. repeat constructor; compute_done. Qed.

Lemma renamed_model_other (p : Project) (a : string) (m : Model) :
  a ∉ consumers → renamed_model model_names_used_in p a m = m.
Proof.
  intros Ha. apply renamed_model_skip.
  eapply List.Forall_impl; [| exact table_consumers]. cbn. intros entry Hin <-. exact (Ha Hin).
Qed.

Lemma propagated_frame (p q : Project) :
  propagated model_names_used_in p q → frame consumers p q.
Proof.
  intros (Hf & _ & _ & _ & Hl). split; [exact Hf |]. intros a Ha.
  destruct (getattr p a) as [cl|e] eqn:E.
  - rewrite (Hl _ _ E). destruct cl as [l h]. cbn. f_equal. f_equal.
    erewrite map_ext; [apply map_id |]. intros m. apply renamed_model_other, Ha.
  - destruct (getattr q a) as [cl|e'] eqn:E'.
    + destruct (getattr_valid q p a cl E') as [cl' Hcl']. congruence.
    + revert E E'. unfold getattr. attr_cases a; congruence.
Qed.

Lemma update_renamed_models_frame (p p' : Project) :
  update_renamed_models p = (p', Ok ()) → frame consumers p p'.
Proof.
  intros H. destruct (update_renamed_models_spec _ _ _ H) as [H1 _].
  destruct (H1 eq_refl) as (_ & q & Hq & ->).
  rewrite <- (app_nil_r consumers).
  apply (frame_trans _ _ _ _ _ (propagated_frame _ _ Hq) (frame_with_all_names _ _)).
Qed.

Lemma check_protected_parameters_frame (p p' : Project) :
  check_protected_parameters p = (p', Ok ()) → frame [] p p'.
Proof.
  rewrite check_protected_parameters_run. destruct (check_each _ _); [| discriminate].
  intros [= <-]. apply frame_with_protected_parameters.
Qed.

(** ** Forced-empty collections (C5) *)

Ltac same_list F a :=
  let H := fresh "Hsame" in
  assert (H := proj2 F a ltac:(compute_done)); cbn in H; injection H as H.

Lemma flags_eq (p p' : Project) :
  flags p' = flags p →
  calculation p' = calculation p ∧ model p' = model p ∧ absorption p' = absorption p.
Proof. unfold flags. intros [= -> -> ->]. auto. Qed.

Lemma keeps_empty_forced (p p' : Project) :
  keeps_empty p p' → forced_empty p → forced_empty p'.
Proof.
  intros (Hf & Hr & Hc & Hl) (H1 & H2 & H3).
  apply flags_eq in Hf as (Ec & Em & _). unfold forced_empty. rewrite Ec, Em.
  split; [| split].
  - intros H. rewrite Hr; auto.
  - intros H. rewrite Hc; auto.
  - intros H. auto.
Qed.

Lemma map_result_nil {A B : Type} (f : A → result B) (l : list B) :
  map_result f [] = Ok l → l = [].
Proof. cbn. congruence. Qed.

Lemma set_calculation_keeps (p p' : Project) :
  set_calculation p = (p', Ok ()) → keeps_empty p p'.
Proof.
  intros H. pose proof (set_calculation_frame _ _ H) as F.
  same_list F "domain_contrasts". same_list F "layers".
  split; [apply F |]. split; [| split; [congruence | congruence]].
  intros Hc.
  apply set_calculation_Ok in H as [(? & _)|[(_ & _ & l & _ & ->)| ->]];
    [contradiction | reflexivity | reflexivity].
Qed.

Lemma set_contrast_model_field_keeps (p p' : Project) :
  set_contrast_model_field p = (p', Ok ()) → keeps_empty p p'.
Proof.
  intros H. pose proof (set_contrast_model_field_frame _ _ H) as F.
  same_list F "domain_ratios". same_list F "domain_contrasts". same_list F "layers".
  split; [apply F |]. repeat split; congruence.
Qed.

Lemma set_absorption_keeps (p p' : Project) :
  set_absorption p = (p', Ok ()) → keeps_empty p p'.
Proof.
  intros H. pose proof (set_absorption_frame _ _ H) as F.
  same_list F "domain_ratios". same_list F "domain_contrasts".
  split; [apply F |]. split; [congruence |]. split; [congruence |].
  intros Hl.
  apply set_absorption_Ok in H as [(_ & _ & l & El & ->)|[(_ & _ & l & El & ->)| ->]];
    [| | exact Hl]; rewrite Hl in El; apply map_result_nil in El; exact El.
Qed.

Lemma update_renamed_models_keeps (p p' : Project) :
  update_renamed_models p = (p', Ok ()) → keeps_empty p p'.
Proof.
  intros H. pose proof (update_renamed_models_frame _ _ H) as F.
  same_list F "domain_ratios". same_list F "domain_contrasts".
  split; [apply F |]. split; [congruence |]. split; [congruence |].
  intros Hl. destruct (update_renamed_models_spec _ _ _ H) as [H1 _].
  destruct (H1 eq_refl) as (_ & q & (_ & _ & _ & _ & Hq) & ->).
  specialize (Hq "layers" (layers p) eq_refl). cbn in Hq. injection Hq as Hq.
  cbn. rewrite Hq, Hl. reflexivity.
Qed.

Lemma check_protected_parameters_keeps (p p' : Project) :
  check_protected_parameters p = (p', Ok ()) → keeps_empty p p'.
Proof.
  intros H. pose proof (check_protected_parameters_frame _ _ H) as F.
  same_list F "domain_ratios". same_list F "domain_contrasts". same_list F "layers".
  split; [apply F |]. repeat split; congruence.
Qed.

Lemma first_passes_forced (p p1 p2 p3 : Project) :
  set_domain_ratios p = (p1, Ok ()) →
  set_domain_contrasts p1 = (p2, Ok ()) →
  set_layers p2 = (p3, Ok ()) →
  forced_empty p3.
Proof.
  intros H1 H2 H3.
  rewrite set_domain_ratios_run in H1. injection H1 as <-.
  rewrite set_domain_contrasts_run in H2. injection H2 as <-.
  rewrite set_layers_run in H3. injection H3 as <-.
  unfold forced_empty. destruct p as [? c m ? ? ? ? ? ? ? ? ? ? ? ? ? ? ? ? ? ? ?].
  destruct c, m; vm_compute; repeat split; intros; try reflexivity; try congruence; tauto.
Qed.

(** C5.  After every successful validation the domain ratios are empty unless
    the calculation is domains, the domain contrasts are empty unless the
    calculation is domains and the layer model is standard layers, and the
    layers are empty unless the layer model is standard layers. *)
Theorem validation_forces_empty (p p' : Project) :
  model_validate p = (p', Ok ()) →
  (calculation p' ≠ Calculations.Domains → ClassList.data (domain_ratios p') = [])
  ∧ (¬ (calculation p' = Calculations.Domains ∧ model p' = LayerModels.StandardLayers) →
     ClassList.data (domain_contrasts p') = [])
  ∧ (model p' ≠ LayerModels.StandardLayers → ClassList.data (layers p') = []).
Proof.
  intros H%model_validate_Ok%run_validators_Ok.
  destruct H as (p1 & p2 & p3 & p4 & p5 & p6 & p7 & p8 & p9
                 & H1 & H2 & H3 & H4 & H5 & H6 & H7 & H8 & H9 & H10).
  apply check_contrast_model_length_state in H6 as ->.
  apply cross_check_model_values_run in H9 as [-> _].
  change (forced_empty p').
  apply (keeps_empty_forced _ _ (check_protected_parameters_keeps _ _ H10)).
  apply (keeps_empty_forced _ _ (update_renamed_models_keeps _ _ H8)).
  apply (keeps_empty_forced _ _ (set_absorption_keeps _ _ H7)).
  apply (keeps_empty_forced _ _ (set_contrast_model_field_keeps _ _ H5)).
  apply (keeps_empty_forced _ _ (set_calculation_keeps _ _ H4)).
  apply (first_passes_forced _ _ _ _ H1 H2 H3).
Qed.

Lemma validation_forces_empty_witness :
  model_validate default_project = ((model_validate default_project).1, Ok ())
  ∧ ClassList.data (domain_ratios (model_validate default_project).1) = []
  ∧ ClassList.data (domain_contrasts (model_validate default_project).1) = [].
Proof.
  assert (H : model_validate default_project = ((model_validate default_project).1, Ok ()))
    by (vm_compute; reflexivity).
  destruct (validation_forces_empty _ _ H) as (H1 & H2 & _).
  split; [exact H |]. split.
  - apply H1. vm_compute. discriminate.
  - apply H2. vm_compute. intros [? _]. discriminate.
Defined.

(** ** The length of the model of a contrast (C6) *)

Lemma model_field_dump (m : Model) : model_field m = model_field_of (type_of m) (model_dump m).
Proof. destruct m; reflexivity. Qed.

Lemma rename_value_other (diffs : list (string * string)) (v : Value) :
  (∀ s, v ≠ VStr s) → rename_value diffs v = v.
Proof.
  intros Hv. unfold rename_value. induction diffs as [|on diffs IH]; [reflexivity |].
  cbn [fold_left]. rewrite bool_decide_eq_false_2 by apply Hv. exact IH.
Qed.

Lemma rename_step_get_other (p : Project) (a : string) (m : Model) (entry : string * AllFields)
    (f : string) :
  (∀ s, dict_get (model_dump m) f ≠ Some (VStr s)) →
  dict_get (model_dump (rename_step p a m entry)) f = dict_get (model_dump m) f.
Proof.
  intros Hv. unfold rename_step. destruct (String.eqb _ a); [| reflexivity].
  destruct (entry_diffs p entry.1) as [diffs|]; [| reflexivity].
  rewrite rename_all_get. destruct (dict_get (model_dump m) f) as [v|]; [| reflexivity].
  cbn. destruct (bool_decide _); [| reflexivity].
  rewrite rename_value_other; [reflexivity |]. intros s ->. exact (Hv s eq_refl).
Qed.

Lemma renamed_model_get_other (table : list (string * AllFields)) (p : Project) (a : string)
    (m : Model) (f : string) :
  (∀ s, dict_get (model_dump m) f ≠ Some (VStr s)) →
  dict_get (model_dump (renamed_model table p a m)) f = dict_get (model_dump m) f.
Proof.
  unfold renamed_model. revert m. induction table as [|entry table IH]; intros m Hv;
    cbn [fold_left]; [reflexivity |].
  rewrite IH; [apply rename_step_get_other, Hv |].
  intros s. rewrite rename_step_get_other by exact Hv. apply Hv.
Qed.

Lemma model_key_not_str (m : Model) (s : string) : dict_get (model_dump m) "model" ≠ Some (VStr s).
Proof. destruct m; discriminate. Qed.

Lemma renamed_model_model_field (table : list (string * AllFields)) (p : Project) (a : string)
    (m : Model) :
  model_field (renamed_model table p a m) = model_field m.
Proof.
  rewrite !model_field_dump, renamed_model_type. unfold model_field_of.
  rewrite renamed_model_get_other; [reflexivity |].
  intros s. apply model_key_not_str.
Qed.

Lemma model_lengths_ok_same (p p' : Project) :
  flags p' = flags p →
  map model_field (ClassList.data (contrasts p')) = map model_field (ClassList.data (contrasts p)) →
  model_lengths_ok p → model_lengths_ok p'.
Proof.
  intros (Ec & Em & _)%flags_eq Hl [H1 H2]. unfold model_lengths_ok. rewrite Ec, Em.
  assert (Ht : ∀ P : result (list string) → Prop,
             Forall (λ m, P (model_field m)) (ClassList.data (contrasts p)) →
             Forall (λ m, P (model_field m)) (ClassList.data (contrasts p'))).
  { intros P HP. apply List.Forall_map. rewrite Hl. apply List.Forall_map. exact HP. }
  split.
  - intros Hm Hc. apply (Ht (λ r, ∃ l, r = Ok l ∧ (l = [] ∨ length l = 2))). auto.
  - intros Hm. apply (Ht (λ r, ∃ l, r = Ok l ∧ length l ≤ 1)). auto.
Qed.

(** C6, as the code has it.  After every successful validation the model of
    every contrast is empty or has exactly two names when the calculation is
    domains and the layer model is standard layers, and has at most one name
    when the layer model is not standard layers; for standard layers without
    domains its length is not constrained. *)
Theorem validated_model_lengths (p p' : Project) :
  model_validate p = (p', Ok ()) →
  (model p' = LayerModels.StandardLayers → calculation p' = Calculations.Domains →
     Forall (λ m, ∃ l, model_field m = Ok l ∧ (l = [] ∨ length l = 2))
       (ClassList.data (contrasts p')))
  ∧ (model p' ≠ LayerModels.StandardLayers →
     Forall (λ m, ∃ l, model_field m = Ok l ∧ length l ≤ 1) (ClassList.data (contrasts p'))).
Proof.
  intros H%model_validate_Ok%run_validators_Ok.
  destruct H as (p1 & p2 & p3 & p4 & p5 & p6 & p7 & p8 & p9
                 & H1 & H2 & H3 & H4 & H5 & H6 & H7 & H8 & H9 & H10).
  pose proof (check_contrast_model_length_Ok _ _ H6) as Hok.
  apply check_contrast_model_length_state in H6 as ->.
  apply cross_check_model_values_run in H9 as [-> _].
  change (model_lengths_ok p').
  pose proof (check_protected_parameters_frame _ _ H10) as F10. same_list F10 "contrasts".
  apply (model_lengths_ok_same p8); [apply F10 | congruence |].
  pose proof (set_absorption_frame _ _ H7) as F7. same_list F7 "contrasts".
  destruct (update_renamed_models_spec _ _ _ H8) as [Hspec _].
  destruct (Hspec eq_refl) as (_ & q & (Hf & _ & _ & _ & Hq) & ->).
  specialize (Hq "contrasts" (contrasts p7) eq_refl). cbn in Hq. injection Hq as Hq.
  apply (model_lengths_ok_same p5); [| | exact Hok].
  - transitivity (flags p7); [exact Hf | apply F7].
  - cbn. rewrite Hq. cbn. rewrite map_map, Hsame0. apply map_ext.
    intros m. apply renamed_model_model_field.
Qed.

(** ** Cross references (C2) *)

Lemma type_field_dump (m : Model) : type_field m = type_field_of (type_of m) (model_dump m).
Proof. destruct m; reflexivity. Qed.

Lemma type_key_not_str (m : Model) (s : string) : dict_get (model_dump m) "type" ≠ Some (VStr s).
Proof. destruct m; discriminate. Qed.

Lemma renamed_model_type_field (table : list (string * AllFields)) (p : Project) (a : string)
    (m : Model) :
  type_field (renamed_model table p a m) = type_field m.
Proof.
  rewrite !type_field_dump, renamed_model_type. unfold type_field_of.
  rewrite renamed_model_get_other; [reflexivity |].
  intros s. apply type_key_not_str.
Qed.

(** The ClassLists left by a successful validation are those that
    [cross_check_model_values] saw. *)
Lemma validated_cross_checked (p p' : Project) :
  model_validate p = (p', Ok ()) →
  cross_checked p'
  ∧ map type_field (ClassList.data (backgrounds p')) = map type_field (ClassList.data (backgrounds p))
  ∧ map type_field (ClassList.data (resolutions p')) = map type_field (ClassList.data (resolutions p)).
Proof.
  intros H%model_validate_Ok%run_validators_Ok.
  destruct H as (p1 & p2 & p3 & p4 & p5 & p6 & p7 & p8 & p9
                 & H1 & H2 & H3 & H4 & H5 & H6 & H7 & H8 & H9 & H10).
  apply check_contrast_model_length_state in H6 as ->.
  apply cross_check_model_values_run in H9 as [-> Hcc]. specialize (Hcc eq_refl).
  rewrite check_protected_parameters_run in H10.
  destruct (check_each _ _); [| discriminate]. injection H10 as <-.
  split; [exact Hcc |].
  pose proof (set_domain_ratios_frame _ _ _ H1) as F1.
  pose proof (set_domain_contrasts_frame _ _ _ H2) as F2.
  pose proof (set_layers_frame _ _ _ H3) as F3.
  pose proof (set_calculation_frame _ _ H4) as F4.
  pose proof (set_contrast_model_field_frame _ _ H5) as F5.
  pose proof (set_absorption_frame _ _ H7) as F7.
  destruct (update_renamed_models_spec _ _ _ H8) as [Hspec _].
  destruct (Hspec eq_refl) as (_ & q & (_ & _ & _ & _ & Hq) & ->).
  split.
  - same_list F1 "backgrounds". same_list F2 "backgrounds". same_list F3 "backgrounds".
    same_list F4 "backgrounds". same_list F5 "backgrounds". same_list F7 "backgrounds".
    specialize (Hq "backgrounds" (backgrounds p7) eq_refl). cbn in Hq. injection Hq as Hq.
    cbn. rewrite Hq. cbn. rewrite map_map.
    replace (backgrounds p) with (backgrounds p7) by congruence.
    apply map_ext. intros m. apply renamed_model_type_field.
  - same_list F1 "resolutions". same_list F2 "resolutions". same_list F3 "resolutions".
    same_list F4 "resolutions". same_list F5 "resolutions". same_list F7 "resolutions".
    specialize (Hq "resolutions" (resolutions p7) eq_refl). cbn in Hq. injection Hq as Hq.
    cbn. rewrite Hq. cbn. rewrite map_map.
    replace (resolutions p) with (resolutions p7) by congruence.
    apply map_ext. intros m. apply renamed_model_type_field.
Qed.



Ltac field_enum H :=
  repeat (apply elem_of_cons in H as [->|H]); [.. | apply elem_of_nil in H; destruct H].


(** ** Example projects *)

(** C6, counterexample.  Two validated projects: with standard layers and a
    calculation that is not domains, a contrast holds a model of two names,
    more than one; with standard layers and a domains calculation, a contrast
    holds an empty model, not two names. *)
Lemma contrast_model_length_counterexample :
  (two_layer_project.2 = Ok ()
   ∧ model_validate two_layer_project.1 = (two_layer_project.1, Ok ())
   ∧ flags two_layer_project.1 = (Calculations.NonPolarised, LayerModels.StandardLayers, false)
   ∧ map model_field (ClassList.data (contrasts two_layer_project.1))
     = [Ok ["Layer 1"; "Layer 2"]])
  ∧ (domains_project.2 = Ok ()
     ∧ model_validate domains_project.1 = (domains_project.1, Ok ())
     ∧ flags domains_project.1 = (Calculations.Domains, LayerModels.StandardLayers, false)
     ∧ map model_field (ClassList.data (contrasts domains_project.1)) = [Ok []]).
Proof. vm_compute. repeat split. Qed.

Lemma validated_model_lengths_witness :
  Forall (λ m, ∃ l, model_field m = Ok l ∧ (l = [] ∨ length l = 2))
    (ClassList.data (contrasts domains_project.1)).
Proof.
  refine (proj1 (validated_model_lengths domains_project.1 domains_project.1 _) _ _);
    vm_compute; reflexivity.
Defined.


(** ** The data entry "Simulation" (C8) *)

(** C8, counterexample.  On the default project the wrapped removal of the
    data entry "Simulation" succeeds and leaves the data empty. *)
Lemma simulation_removal_counterexample :
  ClassList.get_names (data default_project) = ["Simulation"]
  ∧ (wrapped_remove "data" "Simulation" default_project).2 = Ok ()
  ∧ ClassList.data (data (wrapped_remove "data" "Simulation" default_project).1) = [].
Proof. vm_compute. repeat split. Qed.

Lemma upd_data_guard (p : Project) (cl : ClassList.t) (class_list : string) :
  class_list ∈ parameter_class_lists →
  guard_entry (upd p "data" cl) class_list = guard_entry p class_list.
Proof. intros H. field_enum H; reflexivity. Qed.

Lemma check_each_ext {A : Type} (f g : A → result unit) (l : list A) :
  (∀ a, a ∈ l → f a = g a) → check_each f l = check_each g l.
Proof.
  induction l as [|a l IH]; intros H; [reflexivity |]. cbn.
  rewrite (H a) by (apply elem_of_cons; auto).
  destruct (g a); [| reflexivity]. apply IH. intros b Hb. apply H, elem_of_cons. auto.
Qed.

(** C8, as the code has it.  The bootstrap data entry "Simulation" is an
    ordinary data entity, not a protected parameter, and the protected-entry
    guard reads the seven parameter ClassLists only: its verdict on a project
    is the same whatever the data ClassList holds, so a mutation that removes
    "Simulation" is not rejected by the guard. *)
Theorem guard_ignores_data (p : Project) (cl : ClassList.t) :
  isinstance simulation cProtectedParameter = false
  ∧ ("data" ∉ parameter_class_lists)
  ∧ (check_protected_parameters (upd p "data" cl)).2 = (check_protected_parameters p).2.
Proof.
  split; [reflexivity |]. split; [compute_done |].
  rewrite !check_protected_parameters_run.
  rewrite (check_each_ext (guard_entry (upd p "data" cl)) (guard_entry p))
    by (intros a Ha; apply upd_data_guard, Ha).
  destruct (check_each _ _); reflexivity.
Qed.

(** ** Protected parameters (C3) *)

Lemma protected_kept_refl (p : Project) : protected_kept p p.
Proof. split; [reflexivity |]. intros class_list cl _ H. exists cl. split; [exact H | reflexivity]. Qed.

Lemma protected_kept_trans (p q r : Project) :
  protected_kept p q → protected_kept q r → protected_kept p r.
Proof.
  intros [H1 L1] [H2 L2]. split; [congruence |].
  intros class_list cl Hin Hcl. destruct (L1 _ _ Hin Hcl) as (cl1 & Hcl1 & Hs1).
  destruct (L2 _ _ Hin Hcl1) as (cl2 & Hcl2 & Hs2). exists cl2. split; [exact Hcl2 |].
  intros x Hx. apply Hs1, Hs2, Hx.
Qed.

Lemma frame_protected_kept (S : list string) (p p' : Project) :
  frame S p p' →
  _protected_parameters p' = _protected_parameters p →
  (∀ class_list cl, class_list ∈ parameter_class_lists → class_list ∈ S →
     getattr p class_list = Ok cl →
     ∃ cl', getattr p' class_list = Ok cl' ∧ protected_names cl' ⊆ protected_names cl) →
  protected_kept p p'.
Proof.
  intros [_ F] Hp Hs. split; [exact Hp |]. intros class_list cl Hin Hcl.
  destruct (decide (class_list ∈ S)) as [HS|HS]; [eauto |].
  exists cl. split; [rewrite F; assumption | reflexivity].
Qed.

Lemma nil_subseteq (l : list string) : [] ⊆ l.
Proof. intros x []%elem_of_nil. Qed.

Lemma set_domain_ratios_protected (p p' : Project) :
  set_domain_ratios p = (p', Ok ()) → protected_kept p p'.
Proof.
  intros H. apply (frame_protected_kept _ _ _ (set_domain_ratios_frame _ _ _ H)).
  - rewrite set_domain_ratios_run in H. injection H as <-.
    destruct decide; [apply upd_private | reflexivity].
  - intros class_list cl _ Hin Hcl. apply elem_of_cons in Hin as [->|[]%elem_of_nil].
    cbn in Hcl. injection Hcl as <-.
    rewrite set_domain_ratios_run in H. injection H as <-.
    destruct decide; eexists; (split; [reflexivity |]); [apply nil_subseteq | reflexivity].
Qed.

Ltac no_parameter_list :=
  let class_list := fresh "class_list" in let Hin := fresh "Hin" in let HS := fresh "HS" in
  intros class_list ? Hin HS _; exfalso; field_enum Hin;
  apply list_elem_of_In in HS; cbn in HS; intuition discriminate.

Lemma set_domain_contrasts_protected (p p' : Project) :
  set_domain_contrasts p = (p', Ok ()) → protected_kept p p'.
Proof.
  intros H. apply (frame_protected_kept _ _ _ (set_domain_contrasts_frame _ _ _ H)).
  - rewrite set_domain_contrasts_run in H. injection H as <-.
    destruct (_ && _); [reflexivity | apply upd_private].
  - no_parameter_list.
Qed.

Lemma set_layers_protected (p p' : Project) :
  set_layers p = (p', Ok ()) → protected_kept p p'.
Proof.
  intros H. apply (frame_protected_kept _ _ _ (set_layers_frame _ _ _ H)).
  - rewrite set_layers_run in H. injection H as <-.
    destruct decide; [apply upd_private | reflexivity].
  - no_parameter_list.
Qed.

Lemma set_calculation_protected (p p' : Project) :
  set_calculation p = (p', Ok ()) → protected_kept p p'.
Proof.
  intros H. apply (frame_protected_kept _ _ _ (set_calculation_frame _ _ H)).
  - apply set_calculation_Ok in H as [(_ & _ & l & _ & ->)|[(_ & _ & l & _ & ->)| ->]];
      reflexivity.
  - intros class_list cl Hin HS Hcl.
    assert (class_list = "domain_ratios") as ->
      by (field_enum Hin; try reflexivity; exfalso;
          apply list_elem_of_In in HS; cbn in HS; intuition discriminate).
    cbn in Hcl. injection Hcl as <-.
    apply set_calculation_Ok in H as [(_ & _ & l & _ & ->)|[(_ & _ & l & _ & ->)| ->]];
      eexists; (split; [reflexivity |]); [apply nil_subseteq | reflexivity | reflexivity].
Qed.

Lemma set_contrast_model_field_protected (p p' : Project) :
  set_contrast_model_field p = (p', Ok ()) → protected_kept p p'.
Proof.
  intros H. apply (frame_protected_kept _ _ _ (set_contrast_model_field_frame _ _ H)).
  - apply set_contrast_model_field_Ok in H as [[_ ->]|(l & _ & ->)]; reflexivity.
  - no_parameter_list.
Qed.

Lemma set_absorption_protected (p p' : Project) :
  set_absorption p = (p', Ok ()) → protected_kept p p'.
Proof.
  intros H. apply (frame_protected_kept _ _ _ (set_absorption_frame _ _ H)).
  - apply set_absorption_Ok in H as [(_ & _ & l & _ & ->)|[(_ & _ & l & _ & ->)| ->]];
      reflexivity.
  - no_parameter_list.
Qed.

Lemma update_renamed_models_protected (p p' : Project) :
  update_renamed_models p = (p', Ok ()) → protected_kept p p'.
Proof.
  intros H. apply (frame_protected_kept _ _ _ (update_renamed_models_frame _ _ H)).
  - destruct (update_renamed_models_spec _ _ _ H) as [H1 _].
    destruct (H1 eq_refl) as (_ & q & (_ & _ & _ & Hp & _) & ->). exact Hp.
  - no_parameter_list.
Qed.

Lemma earlier_passes_Ok (p p9 : Project) :
  earlier_passes p = (p9, Ok ()) → protected_kept p p9.
Proof.
  unfold earlier_passes. intros H.
  apply bind_Ok in H as (p1 & [] & H1 & H). apply bind_Ok in H as (p2 & [] & H2 & H).
  apply bind_Ok in H as (p3 & [] & H3 & H). apply bind_Ok in H as (p4 & [] & H4 & H).
  apply bind_Ok in H as (p5 & [] & H5 & H). apply bind_Ok in H as (p6 & [] & H6 & H).
  apply bind_Ok in H as (p7 & [] & H7 & H). apply bind_Ok in H as (p8 & [] & H8 & H).
  apply cross_check_model_values_run in H as [-> _].
  apply check_contrast_model_length_state in H6 as ->.
  apply (protected_kept_trans _ _ _ (set_domain_ratios_protected _ _ H1)).
  apply (protected_kept_trans _ _ _ (set_domain_contrasts_protected _ _ H2)).
  apply (protected_kept_trans _ _ _ (set_layers_protected _ _ H3)).
  apply (protected_kept_trans _ _ _ (set_calculation_protected _ _ H4)).
  apply (protected_kept_trans _ _ _ (set_contrast_model_field_protected _ _ H5)).
  apply (protected_kept_trans _ _ _ (set_absorption_protected _ _ H7)).
  apply (update_renamed_models_protected _ _ H8).
Qed.

Lemma seq_assoc (a r j : M unit) (p : Project) : ((a;; r);; j) p = (a;; (r;; j)) p.
Proof. rewrite !bind_run. destruct (a p) as [q [[]|e]]; reflexivity. Qed.

Lemma seq_cong (a f g : M unit) (p : Project) :
  (∀ q, f q = g q) → (a;; f) p = (a;; g) p.
Proof. intros H. rewrite !bind_run. destruct (a p) as [q [[]|e]]; [apply H | reflexivity]. Qed.

Lemma run_validators_earlier (p : Project) :
  run_validators p = (earlier_passes;; check_protected_parameters) p.
Proof.
  unfold run_validators, earlier_passes. revert p.
  do 8 (intros ?; rewrite seq_assoc; apply seq_cong).
  reflexivity.
Qed.

Lemma check_each_first_raise {A : Type} (f : A → result unit) (l : list A) (a : A) (e : Exception) :
  a ∈ l → f a = Raise e →
  ∃ a' e', a' ∈ l ∧ f a' = Raise e' ∧ check_each f l = Raise e'.
Proof.
  induction l as [|b l IH]; [intros []%elem_of_nil |].
  intros Hin Hf. cbn. destruct (f b) as [[]|e'] eqn:Eb.
  - apply elem_of_cons in Hin as [->|Hin]; [congruence |].
    destruct (IH Hin Hf) as (a' & e'' & Ha' & Hf' & Hc). exists a', e''.
    split; [apply elem_of_cons; auto | auto].
  - exists b, e'. split; [apply elem_of_cons; auto | auto].
Qed.

Lemma guard_entry_missing (p : Project) (class_list : string) (cl : ClassList.t)
    (previous : list string) (name : string) :
  getattr p class_list = Ok cl →
  names_get (_protected_parameters p) class_list = Ok previous →
  name ∈ previous → name ∉ protected_names cl →
  guard_entry p class_list = Raise (cannot_delete (removed (protected_names cl) previous))
  ∧ name ∈ removed (protected_names cl) previous.
Proof.
  intros Hcl Hprev Hin Hout. unfold guard_entry. rewrite Hcl, Hprev. cbn [mbind result_bind].
  assert (Hrem : name ∈ removed (protected_names cl) previous).
  { apply list_elem_of_In, filter_In. split; [apply list_elem_of_In, Hin |].
    rewrite bool_decide_eq_false_2 by exact Hout. reflexivity. }
  split; [| exact Hrem].
  destruct (forallb _ previous) eqn:E; [| reflexivity].
  rewrite List.forallb_forall in E. apply list_elem_of_In, E, bool_decide_eq_true in Hin.
  contradiction.
Qed.

Lemma guard_entry_raise (p : Project) (class_list : string) (e : Exception) :
  class_list ∈ parameter_class_lists → protected_complete p →
  guard_entry p class_list = Raise e →
  ∃ cl previous, getattr p class_list = Ok cl
    ∧ names_get (_protected_parameters p) class_list = Ok previous
    ∧ removed (protected_names cl) previous ≠ []
    ∧ e = cannot_delete (removed (protected_names cl) previous).
Proof.
  intros Hin Hc. destruct (Hc _ Hin) as [previous Hprev].
  assert (Hcls : class_list ∈ class_lists) by (field_enum Hin; compute_done).
  destruct (getattr_class_lists p _ Hcls) as [cl Hcl].
  unfold guard_entry. rewrite Hcl, Hprev. cbn [mbind result_bind].
  destruct (forallb _ previous) eqn:E; [discriminate |]. cbn [negb].
  intros [= <-]. exists cl, previous. repeat split; try assumption.
  intros Hnil. apply not_true_iff_false in E. apply E, List.forallb_forall.
  intros x Hx. destruct (bool_decide_reflect (x ∈ protected_names cl)) as [|Hout]; [reflexivity |].
  exfalso. assert (Hrem : In x (removed (protected_names cl) previous)).
  { apply filter_In. split; [exact Hx |]. rewrite bool_decide_eq_false_2 by exact Hout.
    reflexivity. }
  rewrite Hnil in Hrem. destruct Hrem.
Qed.

(** C3, counterexample.  Clearing the parameters of a project whose layer
    refers to the parameter "T1" removes the protected "Substrate Roughness";
    the validation fails, but at the cross-check, and the error names "T1"
    and not the removed protected parameter. *)
Lemma protected_removal_counterexample :
  referenced_parameter_project.2 = Ok ()
  ∧ names_get (_protected_parameters referenced_parameter_project.1) "parameters"
    = Ok ["Substrate Roughness"]
  ∧ protected_names
      (parameters (on_classlist "parameters" ClassList.clear referenced_parameter_project.1).1)
    = []
  ∧ (wrapped_clear "parameters" referenced_parameter_project.1).2
    = Raise (ValidationError "Project"
               ["Value error, The value " +:+ quoted "T1" +:+ " in the " +:+ quoted "thickness"
                +:+ " field of " +:+ quoted "layers" +:+ " must be defined in "
                +:+ quoted "parameters" +:+ "."])
  ∧ (wrapped_clear "parameters" referenced_parameter_project.1).2
    ≠ Raise (ValidationError "Project"
               ["Value error, Can't delete the protected parameters: Substrate Roughness"]).
Proof. vm_compute. repeat split. discriminate. Qed.

Lemma model_validate_raise (p : Project) (e : Exception) :
  (run_validators p).2 = Raise e → ∃ e', (model_validate p).2 = Raise e'.
Proof.
  unfold model_validate. destruct (run_validators p) as [q [[]|[]]]; cbn; intros [=]; eauto.
Qed.

(** C3, as the code has it.  On the default project the wrapped removal of
    "Substrate Roughness" raises a validation error that names it, and leaves
    the parameters as they were, one entity long.  In general, a project in
    which a previously protected name is no longer among the protected
    parameters of a parameter ClassList fails validation; when the record of
    protected names is complete and all the passes before the guard succeed,
    the error lists the removed names of the first such ClassList. *)
Theorem protected_removal :
  (let r := wrapped_remove "parameters" "Substrate Roughness" default_project in
   r.2 = Raise (ValidationError "Project"
                  ["Value error, Can't delete the protected parameters: Substrate Roughness"])
   ∧ parameters r.1 = parameters default_project
   ∧ length (ClassList.data (parameters r.1)) = 1)
  ∧ ∀ (p : Project) (class_list : string) (cl : ClassList.t) (previous : list string)
      (name : string),
      class_list ∈ parameter_class_lists →
      getattr p class_list = Ok cl →
      names_get (_protected_parameters p) class_list = Ok previous →
      name ∈ previous → name ∉ protected_names cl →
      (∃ e, (model_validate p).2 = Raise e)
      ∧ (protected_complete p → ∀ p9, earlier_passes p = (p9, Ok ()) →
         ∃ class_list' cl' previous',
           class_list' ∈ parameter_class_lists
           ∧ getattr p9 class_list' = Ok cl'
           ∧ names_get (_protected_parameters p) class_list' = Ok previous'
           ∧ removed (protected_names cl') previous' ≠ []
           ∧ (model_validate p).2
             = Raise (ValidationError "Project"
                        ["Value error, Can't delete the protected parameters: "
                         +:+ join ", " (removed (protected_names cl') previous')])).
Proof.
  split; [vm_compute; repeat split |].
  intros p class_list cl previous name Hin Hcl Hprev Hname Hout.
  assert (Hguard : ∀ p9, earlier_passes p = (p9, Ok ()) →
            ∃ a e, a ∈ parameter_class_lists ∧ guard_entry p9 a = Raise e
                   ∧ run_validators p = (p9, Raise e)
                   ∧ _protected_parameters p9 = _protected_parameters p).
  { intros p9 H9. destruct (earlier_passes_Ok _ _ H9) as [Hp Hl].
    destruct (Hl _ _ Hin Hcl) as (cl9 & Hcl9 & Hsub).
    destruct (guard_entry_missing p9 class_list cl9 previous name Hcl9) as [Hg _];
      [congruence | exact Hname | intros Hx; apply Hout, Hsub, Hx |].
    destruct (check_each_first_raise (guard_entry p9) _ _ _ Hin Hg) as (a & e & Ha & Hga & Hce).
    exists a, e. repeat split; try assumption.
    rewrite run_validators_earlier, bind_run, H9, check_protected_parameters_run, Hce.
    reflexivity. }
  split.
  - destruct (earlier_passes p) as [p9 [[]|e]] eqn:H9.
    + destruct (Hguard p9 eq_refl) as (a & e & _ & _ & Hrun & _).
      apply (model_validate_raise p e). rewrite Hrun. reflexivity.
    + apply (model_validate_raise p e). rewrite run_validators_earlier, bind_run, H9.
      reflexivity.
  - intros Hc p9 H9. destruct (Hguard p9 H9) as (a & e & Ha & Hga & Hrun & Hp).
    destruct (guard_entry_raise p9 a e Ha) as (cl' & previous' & Hcl' & Hprev' & Hne & ->);
      [intros x Hx; rewrite Hp; apply Hc, Hx | exact Hga |].
    exists a, cl', previous'. rewrite Hp in Hprev'. repeat split; try assumption.
    unfold model_validate. rewrite Hrun. reflexivity.
Qed.

Lemma protected_removal_witness :
  ∃ e, (model_validate
          (on_classlist "parameters" (ClassList.remove "Substrate Roughness")
             default_project).1).2 = Raise e.
Proof.
  refine (proj1 (proj2 protected_removal
    (on_classlist "parameters" (ClassList.remove "Substrate Roughness") default_project).1
    "parameters" (ClassList.mk [] (Some cParameter)) ["Substrate Roughness"]
    "Substrate Roughness" _ _ _ _ _)).
  - compute_done.
  - vm_compute. reflexivity.
  - vm_compute. reflexivity.
  - compute_done.
  - vm_compute. intros []%elem_of_nil.
Defined.

(** ** Title case and lower case *)

Lemma ascii_cases (P : ascii → Prop) :
  (∀ b0 b1 b2 b3 b4 b5 b6 b7, P (Ascii b0 b1 b2 b3 b4 b5 b6 b7)) → ∀ c, P c.
Proof. intros H []. apply H. Qed.

Lemma title_char_lower (b : bool) (c : ascii) :
  to_lower (if is_lower c then (if b then c else to_upper c)
            else if is_upper c then (if b then to_lower c else c)
            else c) = to_lower c.
Proof.
  revert c. apply ascii_cases. intros [] [] [] [] [] [] [] []; destruct b; reflexivity.
Qed.

Lemma lower_title_from (b : bool) (s : string) : lower (title_from b s) = lower s.
Proof.
  revert b. induction s as [|c s IH]; intros b; [reflexivity |].
  cbn [title_from lower]. pose proof (title_char_lower b c) as Hc.
  destruct (is_lower c); [| destruct (is_upper c)]; cbn [lower]; f_equal; auto.
Qed.



Lemma title_lower (s t : string) : title s = t → lower s = lower t.
Proof. intros <-. unfold title. symmetry. apply lower_title_from. Qed.


(** ** Construction (C10) *)





Lemma on_classlist_run {R : Type} (a : string) (routine : ClassList.t → ClassList.t * result R)
    (q : Project) (cl : ClassList.t) :
  getattr q a = Ok cl → on_classlist a routine q = (upd q a (routine cl).1, (routine cl).2).
Proof.
  intros H. unfold on_classlist, attr. rewrite !bind_run. cbn [get_self]. unfold lift. rewrite H.
  destruct (routine cl) as [cl' r]. rewrite !bind_run. cbn [get_self].
  rewrite (set_classlist_upd _ _ _ _ H). cbn. destruct r; reflexivity.
Qed.



Lemma find_same_name (l : list Model) (s : string) :
  s ∈ title <$> map name_of l →
  ∃ m, List.find (ClassList.same_name s) l = Some m.
Proof.
  intros (n & -> & Hn)%list_elem_of_fmap.
  apply list_elem_of_In, in_map_iff in Hn as (m & <- & Hm).
  destruct (List.find _ l) as [m'|] eqn:E; [eauto |].
  exfalso. apply (List.find_none _ _ E) in Hm. unfold ClassList.same_name in Hm.
  rewrite (title_lower (name_of m) _ eq_refl), String.eqb_refl in Hm. discriminate.
Qed.

Lemma model_validate_frame (p p' : Project) :
  model_validate p = (p', Ok ()) →
  frame ["domain_ratios"; "domain_contrasts"; "layers"; "contrasts"; "backgrounds"; "resolutions"]
    p p'.
Proof.
  intros H%model_validate_Ok%run_validators_Ok.
  destruct H as (p1 & p2 & p3 & p4 & p5 & p6 & p7 & p8 & p9 & H1 & H2 & H3 & H4 & H5 & H6 & H7
                 & H8 & H9 & H10).
  apply set_domain_ratios_frame in H1. apply set_domain_contrasts_frame in H2.
  apply set_layers_frame in H3. apply set_calculation_frame in H4.
  apply set_contrast_model_field_frame in H5.
  apply check_contrast_model_length_state in H6. subst p6.
  apply set_absorption_frame in H7. apply update_renamed_models_frame in H8.
  apply cross_check_model_values_run in H9 as [-> _].
  apply check_protected_parameters_frame in H10.
  pose proof (frame_trans _ _ _ _ _ H1 H2) as F2.
  pose proof (frame_trans _ _ _ _ _ F2 H3) as F3.
  pose proof (frame_trans _ _ _ _ _ F3 H4) as F4.
  pose proof (frame_trans _ _ _ _ _ F4 H5) as F5.
  pose proof (frame_trans _ _ _ _ _ F5 H7) as F7.
  pose proof (frame_trans _ _ _ _ _ F7 H8) as F8.
  pose proof (frame_trans _ _ _ _ _ F8 H10) as F10.
  eapply frame_weaken; [| exact F10].
  intros a Ha. cbn in Ha. rewrite !elem_of_cons in Ha. rewrite !elem_of_cons.
  intuition (try (exfalso; eapply not_elem_of_nil; eassumption)).
Qed.



Lemma init_Ok (fields p : Project) :
  __init__ fields = (p, Ok ()) →
  ∃ q, model_post_init fields = (q, Ok ()) ∧ model_validate q = (p, Ok ()).
Proof.
  unfold __init__. destruct (field_errors fields); [| discriminate].
  intros (q & [] & H1 & H2)%bind_Ok. eauto.
Qed.





(** ** Propagation of renames (C4) *)

Lemma rename_step_get (p : Project) (a : string) (m : Model) (entry : string * AllFields)
    (f : string) :
  dict_get (model_dump (rename_step p a m entry)) f
  = (λ v, rename_field p a f v entry) <$> dict_get (model_dump m) f.
Proof.
  unfold rename_step, rename_field.
  destruct (String.eqb _ a); cbn [andb]; [| destruct (dict_get _ f); reflexivity].
  destruct (entry_diffs p entry.1) as [diffs|e].
  - rewrite rename_all_get. destruct (bool_decide _); destruct (dict_get _ f); reflexivity.
  - destruct (bool_decide _); destruct (dict_get _ f); reflexivity.
Qed.

Lemma renamed_model_get (table : list (string * AllFields)) (p : Project) (a : string)
    (m : Model) (f : string) :
  dict_get (model_dump (renamed_model table p a m)) f
  = (λ v, fold_left (rename_field p a f) table v) <$> dict_get (model_dump m) f.
Proof.
  unfold renamed_model. revert m. induction table as [|entry table IH]; intros m; cbn [fold_left].
  - destruct (dict_get _ f); reflexivity.
  - rewrite IH, rename_step_get. destruct (dict_get (model_dump m) f); reflexivity.
Qed.

Lemma fold_touches (table : list (string * AllFields)) (p : Project) (a f : string) (v : Value) :
  fold_left (rename_field p a f) table v
  = fold_left (rename_from p) (map fst (List.filter (touches a f) table)) v.
Proof.
  revert v. induction table as [|entry table IH]; intros v; [reflexivity |].
  cbn [fold_left List.filter]. rewrite IH. unfold rename_field, touches.
  destruct (_ && _); reflexivity.
Qed.

(** Each registered field of each consumer is registered once in the table. *)
Lemma table_once :
  forallb (λ entry : string * AllFields,
    forallb (λ f, bool_decide (map fst (List.filter (touches (attribute entry.2) f)
                                          model_names_used_in) = [entry.1]))
      (fields entry.2)) model_names_used_in = true.
Proof. vm_compute. reflexivity. Qed.

Lemma table_field (p : Project) (src : string) (uses : AllFields) (f : string) (v : Value) :
  (src, uses) ∈ model_names_used_in → f ∈ fields uses →
  fold_left (rename_field p (attribute uses) f) model_names_used_in v = rename_from p v src.
Proof.
  intros He%list_elem_of_In Hf%list_elem_of_In. rewrite fold_touches.
  pose proof (proj1 (List.forallb_forall _ _) table_once _ He) as H. cbn [fst snd] in H.
  apply (proj1 (List.forallb_forall _ _) H), bool_decide_eq_true in Hf. rewrite Hf. reflexivity.
Qed.

Lemma rename_value_notin (diffs : list (string * string)) (s : string) :
  s ∉ diffs.*1 → rename_value diffs (VStr s) = VStr s.
Proof.
  unfold rename_value. induction diffs as [|[o n] diffs IH]; [reflexivity |].
  cbn [fmap list_fmap fold_left fst snd]. intros [Hne Hs]%not_elem_of_cons.
  rewrite bool_decide_eq_false_2 by congruence. apply IH, Hs.
Qed.

Lemma rename_value_app (pre post : list (string * string)) (v : Value) :
  rename_value (pre ++ post) v = rename_value post (rename_value pre v).
Proof. apply fold_left_app. Qed.

(** A name that the differences rename once ends as its new name. *)
Lemma rename_value_once (pre post : list (string * string)) (old new : string) :
  old ∉ pre.*1 → new ∉ post.*1 →
  rename_value (pre ++ (old, new) :: post) (VStr old) = VStr new.
Proof.
  intros Hpre Hpost. rewrite rename_value_app, (rename_value_notin _ _ Hpre).
  unfold rename_value at 1. cbn [fold_left fst snd].
  rewrite bool_decide_eq_true_2 by reflexivity. apply rename_value_notin, Hpost.
Qed.

Lemma rename_from_run (p : Project) (src : string) (old_names : list string)
    (source : ClassList.t) (v : Value) :
  names_get (_all_names p) src = Ok old_names → getattr p src = Ok source →
  rename_from p v src
  = if Nat.eqb (length old_names) (length (ClassList.get_names source))
    then rename_value (name_diff old_names (ClassList.get_names source)) v
    else v.
Proof.
  intros Hold Hsrc. unfold rename_from, entry_diffs. rewrite Hold, Hsrc. cbn.
  destruct (Nat.eqb _ _); reflexivity.
Qed.

(** C4, as the code has it: the propagation of renames.  With a name cache
    that covers the sources of the uses table, [update_renamed_models] succeeds, and for
    every source and the consumer ClassList registered for it: when the
    cached and the current name list of the source have the same length,
    every registered field of every consumer holds its former value with the
    positional differences applied one after the other, in the order of the
    positions; so a field that held an old name holds the new name of that
    position whenever no earlier difference has that old name and no later
    difference renames the new name again.  When the lengths differ, the
    registered fields keep their values. *)
Theorem renames_propagated (p : Project) :
  cache_complete p →
  ∃ p', update_renamed_models p = (p', Ok ())
    ∧ ∀ class_list uses, (class_list, uses) ∈ model_names_used_in →
        ∃ old_names source consumers consumers',
          names_get (_all_names p) class_list = Ok old_names
          ∧ getattr p class_list = Ok source
          ∧ getattr p (attribute uses) = Ok consumers
          ∧ getattr p' (attribute uses) = Ok consumers'
          ∧ let new_names := ClassList.get_names source in
            let diffs := name_diff old_names new_names in
            (length old_names = length new_names →
               Forall2 (λ m m', ∀ field, field ∈ fields uses →
                          dict_get (model_dump m') field
                          = rename_value diffs <$> dict_get (model_dump m) field)
                 (ClassList.data consumers) (ClassList.data consumers')
               ∧ ∀ pre old new post,
                   diffs = pre ++ (old, new) :: post → old ∉ pre.*1 → new ∉ post.*1 →
                   Forall2 (λ m m', ∀ field, field ∈ fields uses →
                              dict_get (model_dump m) field = Some (VStr old) →
                              dict_get (model_dump m') field = Some (VStr new))
                     (ClassList.data consumers) (ClassList.data consumers'))
            ∧ (length old_names ≠ length new_names →
               Forall2 (λ m m', ∀ field, field ∈ fields uses →
                          dict_get (model_dump m') field = dict_get (model_dump m) field)
                 (ClassList.data consumers) (ClassList.data consumers')).
Proof.
  intros Hcache. destruct (update_renamed_models p) as [p' r] eqn:Erun.
  destruct (update_renamed_models_spec _ _ _ Erun) as [H1 H2].
  rewrite (H2 Hcache) in *. destruct (H1 eq_refl) as (_ & q & Hq & ->). clear H1 H2 Erun.
  eexists. split; [reflexivity |]. intros class_list uses Hentry.
  pose proof (proj1 (list.Forall_forall _ _) table_ok _ Hentry) as (Hsrc & Hattr & _).
  pose proof (proj1 (list.Forall_forall _ _) Hcache _ Hentry) as [old_names Hold].
  cbn [fst snd] in Hsrc, Hattr, Hold.
  destruct (getattr_class_lists p _ Hsrc) as [source Hsource].
  destruct (getattr_class_lists p _ Hattr) as [consumers Hconsumers].
  destruct Hq as (_ & _ & _ & _ & Hq). specialize (Hq _ _ Hconsumers).
  exists old_names, source, consumers. eexists.
  split; [exact Hold |]. split; [exact Hsource |]. split; [exact Hconsumers |].
  split; [| cbv zeta; split; [intros Hlen; split |]].
  - destruct (frame_with_all_names q (all_names q)) as [_ Hframe].
    rewrite Hframe by apply not_elem_of_nil. exact Hq.
  - cbn [ClassList.data]. apply Forall2_fmap_r, Forall_Forall2_diag, list.Forall_forall.
    intros m _ field Hfield.
    rewrite renamed_model_get. destruct (dict_get (model_dump m) field) as [v|]; [| reflexivity].
    cbn [fmap option_fmap option_map]. rewrite (table_field _ _ _ _ _ Hentry Hfield), (rename_from_run _ _ _ _ _ Hold Hsource).
    rewrite (proj2 (Nat.eqb_eq _ _)) by assumption. reflexivity.
  - intros pre old new post Hdiffs Hpre Hpost.
    cbn [ClassList.data]. apply Forall2_fmap_r, Forall_Forall2_diag, list.Forall_forall.
    intros m _ field Hfield Hv.
    rewrite renamed_model_get, Hv. cbn [fmap option_fmap option_map].
    rewrite (table_field _ _ _ _ _ Hentry Hfield), (rename_from_run _ _ _ _ _ Hold Hsource).
    rewrite (proj2 (Nat.eqb_eq _ _)) by assumption.
    rewrite Hdiffs, (rename_value_once _ _ _ _ Hpre Hpost). reflexivity.
  - intros Hlen. cbn [ClassList.data]. apply Forall2_fmap_r, Forall_Forall2_diag, list.Forall_forall.
    intros m _ field Hfield.
    rewrite renamed_model_get. destruct (dict_get (model_dump m) field) as [v|]; [| reflexivity].
    cbn [fmap option_fmap option_map]. rewrite (table_field _ _ _ _ _ Hentry Hfield), (rename_from_run _ _ _ _ _ Hold Hsource).
    rewrite (proj2 (Nat.eqb_neq _ _)) by assumption. reflexivity.
Qed.

(** C4, counterexample.  The cached names of the parameters are
    "Substrate Roughness", "A", "B" and the current ones "Substrate
    Roughness", "B", "A": the lists have the same length and differ at
    positions 1 and 2.  The layer's thickness equals the old name "A" of
    position 1, whose new name is "B"; after the propagation, and after the
    whole validation, it is "A" and not "B". *)
Lemma rename_swap_counterexample :
  two_parameter_project.2 = Ok ()
  ∧ names_get (_all_names swapped_names_project) "parameters"
    = Ok ["Substrate Roughness"; "A"; "B"]
  ∧ ClassList.get_names (parameters swapped_names_project) = ["Substrate Roughness"; "B"; "A"]
  ∧ field_values (layers swapped_names_project) "thickness" = [Some (VStr "A")]
  ∧ (update_renamed_models swapped_names_project).2 = Ok ()
  ∧ field_values (layers (update_renamed_models swapped_names_project).1) "thickness"
    = [Some (VStr "A")]
  ∧ (model_validate swapped_names_project).2 = Ok ()
  ∧ field_values (layers (model_validate swapped_names_project).1) "thickness"
    = [Some (VStr "A")].
Proof. vm_compute. repeat split. Qed.

Lemma cache_complete_run (p : Project) :
  forallb (λ entry : string * AllFields,
             match names_get (_all_names p) entry.1 with Ok _ => true | Raise _ => false end)
    model_names_used_in = true →
  cache_complete p.
Proof.
  intros H. apply list.Forall_forall. intros entry Hentry%list_elem_of_In.
  apply (proj1 (List.forallb_forall _ _) H) in Hentry.
  destruct (names_get _ _); [eauto | discriminate].
Qed.

Lemma renames_propagated_witness :
  ∃ p', update_renamed_models renamed_parameter_project = (p', Ok ())
        ∧ field_values (layers renamed_parameter_project) "thickness" = [Some (VStr "T1")]
        ∧ field_values (layers p') "thickness" = [Some (VStr "T1b")].
Proof.
  destruct (renames_propagated renamed_parameter_project) as (p' & Hrun & _).
  - apply cache_complete_run. vm_compute. reflexivity.
  - exists p'. split; [exact Hrun |].
    assert (Hp' : p' = (update_renamed_models renamed_parameter_project).1) by (rewrite Hrun; reflexivity).
    rewrite Hp'. vm_compute. split; reflexivity.
Defined.

(** ** Conversions of the layers and of the contrasts (C7, C9) *)




















Lemma name_diff_same (l : list string) : name_diff l l = [].
Proof.
  unfold name_diff. induction l as [|x l IH]; [reflexivity |].
  cbn [zip zip_with]. rewrite filter_cons. cbn [fst snd].
  destruct (decide (x ≠ x)) as [H|_]; [contradiction | exact IH].
Qed.

Lemma entry_diffs_current (p : Project) (src : string) :
  cache_current p src → entry_diffs p src = Ok [].
Proof.
  intros (cl & Hcl & Hn). unfold entry_diffs. rewrite Hn, Hcl. cbn.
  rewrite name_diff_same. destruct (Nat.eqb _ _); reflexivity.
Qed.

(** The entries of the table whose consumer is the ClassList [a] rename its
    entities. *)
Lemma renamed_model_filter (table : list (string * AllFields)) (p : Project) (a : string)
    (m : Model) :
  renamed_model table p a m
  = fold_left (λ m (entry : string * AllFields),
                 match entry_diffs p entry.1 with
                 | Ok diffs => rename_all (fields entry.2) diffs m
                 | Raise _ => m
                 end)
      (List.filter (λ entry : string * AllFields, String.eqb (attribute entry.2) a) table) m.
Proof.
  unfold renamed_model. revert m. induction table as [|entry table IH]; intros m; [reflexivity |].
  cbn [fold_left List.filter]. rewrite IH. unfold rename_step.
  destruct (String.eqb _ a); reflexivity.
Qed.













(** ** The caches after a validation *)

Lemma get_contrast_model_field_flags (p p' : Project) :
  flags p' = flags p → get_contrast_model_field p' = get_contrast_model_field p.
Proof.
  intros (Hc & Hm & _)%flags_eq. unfold get_contrast_model_field. rewrite Hc, Hm. reflexivity.
Qed.

Lemma get_contrast_model_field_attribute (p q : Project) :
  ∃ cl, getattr q (get_contrast_model_field p) = Ok cl.
Proof.
  unfold get_contrast_model_field. destruct decide; [destruct decide |]; eexists; reflexivity.
Qed.

Lemma set_contrast_model_field_current (p p' : Project) :
  set_contrast_model_field p = (p', Ok ()) →
  _contrast_model_field p' = get_contrast_model_field p'.
Proof.
  intros H. pose proof (set_contrast_model_field_frame _ _ H) as [Hf _].
  rewrite (get_contrast_model_field_flags _ _ Hf).
  apply set_contrast_model_field_Ok in H as [[E ->]|(l & _ & ->)]; [congruence | reflexivity].
Qed.

Lemma set_absorption_private (p p' : Project) :
  set_absorption p = (p', Ok ()) →
  _contrast_model_field p' = _contrast_model_field p.
Proof.
  intros [(_ & _ & l & _ & ->)|[(_ & _ & l & _ & ->)| ->]]%set_absorption_Ok;
    try reflexivity; apply upd_private.
Qed.

Lemma update_renamed_models_private (p p' : Project) :
  update_renamed_models p = (p', Ok ()) →
  _contrast_model_field p' = _contrast_model_field p
  ∧ _all_names p' = all_names p'.
Proof.
  intros H. destruct (update_renamed_models_spec _ _ _ H) as [H1 _].
  destruct (H1 eq_refl) as (_ & q & (_ & _ & Hc & _) & ->). split; [exact Hc | reflexivity].
Qed.

Lemma validated_caches (p p' : Project) :
  model_validate p = (p', Ok ()) → caches_current p'.
Proof.
  intros H%model_validate_Ok%run_validators_Ok.
  destruct H as (p1 & p2 & p3 & p4 & p5 & p6 & p7 & p8 & p9
                 & H1 & H2 & H3 & H4 & H5 & H6 & H7 & H8 & H9 & H10).
  apply check_contrast_model_length_state in H6 as ->.
  apply cross_check_model_values_run in H9 as [-> _].
  apply set_contrast_model_field_current in H5.
  pose proof (set_absorption_private _ _ H7) as P7.
  pose proof (set_absorption_frame _ _ H7) as [F7 _].
  pose proof (update_renamed_models_private _ _ H8) as [P8 N8].
  pose proof (update_renamed_models_frame _ _ H8) as [F8 _].
  rewrite check_protected_parameters_run in H10.
  destruct (check_each _ _); [| discriminate]. injection H10 as <-.
  split; [exact N8 |]. split; [reflexivity |].
  change (_contrast_model_field p8 = get_contrast_model_field p8).
  rewrite P8, P7, H5. symmetry.
  rewrite (get_contrast_model_field_flags _ _ F8). apply get_contrast_model_field_flags, F7.
Qed.

(** ** Validated projects *)

Lemma same_handle_trans (a : string) (p q r : Project) :
  same_handle a p q → same_handle a q r → same_handle a p r.
Proof. intros [F1 H1] [F2 H2]. split; congruence. Qed.

Lemma frame_same_handle (S : list string) (a : string) (p p' : Project) :
  frame S p p' → a ∉ S → same_handle a p p'.
Proof. intros [F H] Ha. split; [exact F |]. rewrite (H a Ha). reflexivity. Qed.

Lemma set_calculation_settles (p p' : Project) :
  set_calculation p = (p', Ok ()) → calculation_settled p'.
Proof.
  intros H. unfold set_calculation in H. munfold. cbn in H.
  destruct (ClassList._class_handle (contrasts p)) as [h|] eqn:Eh; [| discriminate].
  destruct (bool_decide_reflect (calculation p = Calculations.Domains)) as [Hc|Hc];
    cbn [andb] in H.
  - destruct (String.eqb (__name__ h) "Contrast") eqn:En.
    + destruct (map_result _ _) as [l|e]; [| discriminate]. injection H as <-.
      exists cContrastWithRatio. split; [reflexivity |].
      split; [intros [_ [=]] | intros [Hn _]; apply Hn; exact Hc].
    + rewrite bool_decide_eq_false_2 in H by tauto. cbn [andb] in H. injection H as <-.
      exists h. split; [exact Eh |]. split; [| tauto].
      intros [_ ->]. discriminate En.
  - rewrite bool_decide_eq_true_2 in H by exact Hc. cbn [andb] in H.
    destruct (String.eqb (__name__ h) "ContrastWithRatio") eqn:En.
    + destruct (map_result _ _) as [l|e]; [| discriminate]. injection H as <-.
      exists cContrast. split; [reflexivity |]. split; [tauto | intros [_ [=]]].
    + injection H as <-. exists h. split; [exact Eh |]. split; [tauto |].
      intros [_ ->]. discriminate En.
Qed.

Lemma set_calculation_skip (p : Project) :
  calculation_settled p → set_calculation p = (p, Ok ()).
Proof.
  intros (h & Eh & H1 & H2). unfold set_calculation. munfold. cbn. rewrite Eh.
  destruct (bool_decide_reflect (calculation p = Calculations.Domains)) as [Hc|Hc];
    cbn [andb].
  - destruct (String.eqb (__name__ h) "Contrast") eqn:En.
    + apply name_is_Contrast in En. tauto.
    + rewrite bool_decide_eq_false_2 by tauto. reflexivity.
  - rewrite bool_decide_eq_true_2 by exact Hc. cbn [andb].
    destruct (String.eqb (__name__ h) "ContrastWithRatio") eqn:En.
    + apply name_is_ContrastWithRatio in En. tauto.
    + reflexivity.
Qed.

Lemma set_absorption_settles (p p' : Project) :
  set_absorption p = (p', Ok ()) → absorption_settled p'.
Proof.
  intros H. unfold set_absorption in H. munfold. cbn in H.
  destruct (ClassList._class_handle (layers p)) as [h|] eqn:Eh; [| discriminate].
  destruct (absorption p) eqn:Ha; cbn [andb negb] in H.
  - destruct (String.eqb (__name__ h) "Layer") eqn:En.
    + destruct (map_result _ _) as [l|e]; [| discriminate]. injection H as <-.
      exists cAbsorptionLayer. split; [reflexivity |].
      split; [intros [_ [=]] | intros [Hn _]].
      change (absorption p = false) in Hn. congruence.
    + injection H as <-. exists h. split; [exact Eh |]. split; [| rewrite Ha; intros [[=] _]].
      intros [_ ->]. discriminate En.
  - destruct (String.eqb (__name__ h) "AbsorptionLayer") eqn:En.
    + destruct (map_result _ _) as [l|e]; [| discriminate]. injection H as <-.
      exists cLayer. split; [reflexivity |]. split; [| intros [_ [=]]].
      intros [Hn _]. change (absorption p = true) in Hn. congruence.
    + injection H as <-. exists h. split; [exact Eh |]. split; [rewrite Ha; intros [[=] _] |].
      intros [_ ->]. discriminate En.
Qed.

Lemma set_absorption_skip (p : Project) :
  absorption_settled p → set_absorption p = (p, Ok ()).
Proof.
  intros (h & Eh & H1 & H2). unfold set_absorption. munfold. cbn. rewrite Eh.
  destruct (absorption p) eqn:Ha; cbn [andb negb].
  - destruct (String.eqb (__name__ h) "Layer") eqn:En; [| reflexivity].
    apply name_is_Layer in En. tauto.
  - destruct (String.eqb (__name__ h) "AbsorptionLayer") eqn:En; [| reflexivity].
    apply name_is_AbsorptionLayer in En. tauto.
Qed.

Lemma calculation_settled_same (p p' : Project) :
  same_handle "contrasts" p p' → calculation_settled p → calculation_settled p'.
Proof.
  intros [(Hc & _ & _)%flags_eq Hh] (h & Eh & H1 & H2). exists h.
  change (Ok (ClassList._class_handle (contrasts p')) = Ok (ClassList._class_handle (contrasts p)))
    in Hh.
  injection Hh as Hh. rewrite Hh, Hc. auto.
Qed.

Lemma absorption_settled_same (p p' : Project) :
  same_handle "layers" p p' → absorption_settled p → absorption_settled p'.
Proof.
  intros [(_ & _ & Ha)%flags_eq Hh] (h & Eh & H1 & H2). exists h.
  change (Ok (ClassList._class_handle (layers p')) = Ok (ClassList._class_handle (layers p)))
    in Hh.
  injection Hh as Hh. rewrite Hh, Ha. auto.
Qed.

Lemma set_contrast_model_field_handle (a : string) (p p' : Project) :
  set_contrast_model_field p = (p', Ok ()) → same_handle a p p'.
Proof.
  intros H. pose proof (set_contrast_model_field_frame _ _ H) as F.
  destruct (decide (a = "contrasts")) as [->|Ha].
  - split; [apply F |].
    apply set_contrast_model_field_Ok in H as [[_ ->]|(l & _ & ->)]; reflexivity.
  - apply (frame_same_handle _ _ _ _ F). intros [->|[]%not_elem_of_nil]%elem_of_cons.
    contradiction.
Qed.

Lemma getattr_invalid (p q : Project) (a : string) (e : Exception) :
  getattr p a = Raise e → getattr q a = Raise e.
Proof. unfold getattr. attr_cases a; intros H; try discriminate; exact H. Qed.

Lemma update_renamed_models_handle (a : string) (p p' : Project) :
  update_renamed_models p = (p', Ok ()) → same_handle a p p'.
Proof.
  intros H. destruct (update_renamed_models_spec _ _ _ H) as [H1 _].
  destruct (H1 eq_refl) as (_ & q & (Hf & _ & _ & _ & Hq) & ->).
  split; [exact Hf |].
  change (getattr (with_all_names q (all_names q)) a) with (getattr q a).
  destruct (getattr p a) as [cl|e] eqn:E.
  - rewrite (Hq _ _ E). reflexivity.
  - destruct (getattr q a) as [cl|e'] eqn:E'.
    + destruct (getattr_valid q p a cl E') as [cl' Hcl']. congruence.
    + rewrite (getattr_invalid _ q _ _ E) in E'. congruence.
Qed.

(** ** The checks pass on what they describe *)

Lemma check_allowed_values_pass (a : string) (field_list allowed_values : list string)
    (p : Project) (cl : ClassList.t) :
  getattr p a = Ok cl → fields_ok field_list allowed_values (ClassList.data cl) →
  check_allowed_values a field_list allowed_values p = (p, Ok ()).
Proof.
  intros Hcl H. unfold check_allowed_values. munfold. rewrite Hcl. f_equal.
  apply check_each_Forall. eapply List.Forall_impl; [| exact H]. cbn. intros m Hm.
  apply check_each_Forall. eapply List.Forall_impl; [| exact Hm].
  cbn. intros field Hf. eapply check_field_run, Hf.
Qed.

Lemma check_allowed_background_resolution_values_pass (a : string)
    (field_list allowed_constants allowed_data : list string) (p : Project) (cl : ClassList.t) :
  getattr p a = Ok cl →
  typed_fields_ok field_list allowed_constants allowed_data (ClassList.data cl) →
  check_allowed_background_resolution_values a field_list allowed_constants allowed_data p
  = (p, Ok ()).
Proof.
  intros Hcl H. unfold check_allowed_background_resolution_values. munfold. rewrite Hcl. f_equal.
  apply check_each_Forall. eapply List.Forall_impl; [| exact H]. cbn. intros m [[Ht Hm]|[Ht Hm]];
    rewrite Ht; cbn; apply check_each_Forall; (eapply List.Forall_impl; [| exact Hm]);
    cbn; intros field Hf; eapply check_field_run, Hf.
Qed.

Lemma check_contrast_model_allowed_values_pass (a : string) (allowed_values : list string)
    (allowed_field : string) (p : Project) (cl : ClassList.t) :
  getattr p a = Ok cl → models_ok allowed_values (ClassList.data cl) →
  check_contrast_model_allowed_values a allowed_values allowed_field p = (p, Ok ()).
Proof.
  intros Hcl H. unfold check_contrast_model_allowed_values. munfold. rewrite Hcl. f_equal.
  apply check_each_Forall. eapply List.Forall_impl; [| exact H]. cbn.
  intros m (model_values & -> & Hv). cbn. destruct model_values as [|v vs]; [reflexivity |].
  replace (forallb _ (v :: vs)) with true; [reflexivity |]. symmetry.
  apply List.forallb_forall. intros x Hx%list_elem_of_In.
  apply bool_decide_eq_true. apply (proj1 (list.Forall_forall _ _) Hv x Hx).
Qed.

Lemma cross_check_model_values_pass (p : Project) :
  cross_checked p → cross_check_model_values p = (p, Ok ()).
Proof.
  intros (H1 & H2 & H3 & H4 & H5 & H6 & H7 & H8 & H9 & H10 & (src & Hsrc & H11) & H12).
  unfold cross_check_model_values. rewrite bind_run. cbn [get_self].
  rewrite bind_run, (check_allowed_background_resolution_values_pass
                       "backgrounds" _ _ _ p (backgrounds p) eq_refl H1).
  rewrite bind_run, (check_allowed_background_resolution_values_pass
                       "resolutions" _ _ _ p (resolutions p) eq_refl H2).
  rewrite bind_run, (check_allowed_values_pass "layers" _ _ p (layers p) eq_refl H3).
  rewrite bind_run, (check_allowed_values_pass "contrasts" _ _ p (contrasts p) eq_refl H4).
  rewrite bind_run, (check_allowed_values_pass "contrasts" _ _ p (contrasts p) eq_refl H5).
  rewrite bind_run, (check_allowed_values_pass "contrasts" _ _ p (contrasts p) eq_refl H6).
  rewrite bind_run, (check_allowed_values_pass "contrasts" _ _ p (contrasts p) eq_refl H7).
  rewrite bind_run, (check_allowed_values_pass "contrasts" _ _ p (contrasts p) eq_refl H8).
  rewrite bind_run, (check_allowed_values_pass "contrasts" _ _ p (contrasts p) eq_refl H9).
  rewrite bind_run, (check_allowed_values_pass "contrasts" _ _ p (contrasts p) eq_refl H10).
  rewrite bind_run. unfold attr. rewrite bind_run. cbn [get_self]. unfold lift. rewrite Hsrc.
  rewrite bind_run, (check_contrast_model_allowed_values_pass
                       "contrasts" _ _ p (contrasts p) eq_refl H11).
  apply (check_contrast_model_allowed_values_pass
           "domain_contrasts" _ _ p (domain_contrasts p) eq_refl H12).
Qed.

Lemma check_contrast_model_length_pass (p : Project) :
  model_lengths_ok p → check_contrast_model_length p = (p, Ok ()).
Proof.
  intros [H1 H2]. unfold check_contrast_model_length. munfold. cbn.
  destruct (bool_decide_reflect (model p = LayerModels.StandardLayers)) as [Hm|Hm]; cbn.
  - destruct (bool_decide_reflect (calculation p = Calculations.Domains)) as [Hc|Hc]; cbn.
    + f_equal. apply check_each_Forall. eapply List.Forall_impl; [| exact (H1 Hm Hc)]. cbn.
      intros m (l & -> & [->|Hl]); [reflexivity |]. cbn.
      destruct l as [|x l]; [reflexivity |]. rewrite Hl. reflexivity.
    + destruct decide; [contradiction | reflexivity].
  - destruct decide; [| contradiction]. f_equal.
    apply check_each_Forall. eapply List.Forall_impl; [| exact (H2 Hm)]. cbn.
    intros m (l & -> & Hl). cbn. destruct l as [|x1 [|x2 l]]; cbn in Hl |- *; [easy | easy | lia].
Qed.

(** A current cache of names makes [update_renamed_models] change nothing. *)
Lemma all_names_current (p : Project) (src : string) :
  src ∈ class_lists → _all_names p = all_names p → cache_current p src.
Proof.
  intros Hsrc Hn. unfold cache_current. rewrite Hn.
  destruct (getattr_class_lists p src Hsrc) as [cl Hcl]. exists cl. split; [exact Hcl |].
  revert Hcl. unfold class_lists, parameter_class_lists in Hsrc. cbn [app] in Hsrc.
  repeat (apply elem_of_cons in Hsrc as [->|Hsrc]); try (apply not_elem_of_nil in Hsrc as []);
    intros [= <-]; reflexivity.
Qed.

Lemma rename_entries_current (table : list (string * AllFields)) (p : Project) :
  Forall entry_ok table → _all_names p = all_names p →
  for_each table rename_entry p = (p, Ok ()).
Proof.
  intros Htable Hn. induction Htable as [|[src uses] table (Hsrc & Hattr & _) _ IH];
    [reflexivity |].
  cbn [for_each]. rewrite bind_run. cbn [fst snd] in Hsrc, Hattr.
  destruct (getattr_class_lists p _ Hattr) as [cl Hcl].
  rewrite (rename_entry_run _ _ _ _ Hcl), (entry_diffs_current _ _ (all_names_current _ _ Hsrc Hn)).
  replace (map (rename_all (fields uses) []) (ClassList.data cl)) with (ClassList.data cl)
    by (symmetry; apply map_id).
  rewrite set_data_same, (upd_same _ _ _ Hcl). exact IH.
Qed.

Lemma with_all_names_same (p : Project) : with_all_names p (_all_names p) = p.
Proof. destruct p. reflexivity. Qed.

Lemma with_protected_parameters_same (p : Project) :
  with_protected_parameters p (_protected_parameters p) = p.
Proof. destruct p. reflexivity. Qed.

Lemma update_renamed_models_current (p : Project) :
  _all_names p = all_names p → update_renamed_models p = (p, Ok ()).
Proof.
  intros Hn. rewrite update_renamed_models_unfold, bind_run.
  rewrite (rename_entries_current _ _ table_ok Hn).
  rewrite bind_run. cbn [get_self]. rewrite bind_run. unfold lift at 1.
  rewrite get_all_names_run. unfold put_self. rewrite <- Hn, with_all_names_same. reflexivity.
Qed.

Lemma guard_entry_current (p : Project) (class_list : string) :
  class_list ∈ parameter_class_lists → _protected_parameters p = all_protected p →
  guard_entry p class_list = Ok ().
Proof.
  intros Hin Hp. unfold guard_entry. rewrite Hp.
  unfold parameter_class_lists in Hin.
  repeat (apply elem_of_cons in Hin as [->|Hin]); try (apply not_elem_of_nil in Hin as []);
    cbn; (match goal with |- context [forallb ?f ?l] => replace (forallb f l) with true end;
          [reflexivity |]); symmetry; apply List.forallb_forall;
    intros x Hx%list_elem_of_In; apply bool_decide_eq_true; exact Hx.
Qed.

Lemma check_protected_parameters_current (p : Project) :
  _protected_parameters p = all_protected p → check_protected_parameters p = (p, Ok ()).
Proof.
  intros Hp. rewrite check_protected_parameters_run.
  replace (check_each (guard_entry p) parameter_class_lists) with (Ok () : result unit).
  - rewrite <- Hp, with_protected_parameters_same. reflexivity.
  - symmetry. apply check_each_Forall, list.Forall_forall.
    intros a Ha. apply guard_entry_current; assumption.
Qed.

Lemma forced_empty_validated (p p' : Project) :
  model_validate p = (p', Ok ()) → forced_empty p'.
Proof.
  intros H%model_validate_Ok%run_validators_Ok.
  destruct H as (p1 & p2 & p3 & p4 & p5 & p6 & p7 & p8 & p9
                 & H1 & H2 & H3 & H4 & H5 & H6 & H7 & H8 & H9 & H10).
  apply check_contrast_model_length_state in H6 as ->.
  apply cross_check_model_values_run in H9 as [-> _].
  apply (keeps_empty_forced _ _ (check_protected_parameters_keeps _ _ H10)).
  apply (keeps_empty_forced _ _ (update_renamed_models_keeps _ _ H8)).
  apply (keeps_empty_forced _ _ (set_absorption_keeps _ _ H7)).
  apply (keeps_empty_forced _ _ (set_contrast_model_field_keeps _ _ H5)).
  apply (keeps_empty_forced _ _ (set_calculation_keeps _ _ H4)).
  apply (first_passes_forced _ _ _ _ H1 H2 H3).
Qed.

Lemma model_lengths_validated (p p' : Project) :
  model_validate p = (p', Ok ()) → model_lengths_ok p'.
Proof.
  intros H%model_validate_Ok%run_validators_Ok.
  destruct H as (p1 & p2 & p3 & p4 & p5 & p6 & p7 & p8 & p9
                 & H1 & H2 & H3 & H4 & H5 & H6 & H7 & H8 & H9 & H10).
  pose proof (check_contrast_model_length_Ok _ _ H6) as Hok.
  apply check_contrast_model_length_state in H6 as ->.
  apply cross_check_model_values_run in H9 as [-> _].
  pose proof (check_protected_parameters_frame _ _ H10) as F10. same_list F10 "contrasts".
  apply (model_lengths_ok_same p8); [apply F10 | congruence |].
  pose proof (set_absorption_frame _ _ H7) as F7. same_list F7 "contrasts".
  destruct (update_renamed_models_spec _ _ _ H8) as [Hspec _].
  destruct (Hspec eq_refl) as (_ & q & (Hf & _ & _ & _ & Hq) & ->).
  specialize (Hq "contrasts" (contrasts p7) eq_refl). cbn in Hq. injection Hq as Hq.
  apply (model_lengths_ok_same p5); [| | exact Hok].
  - transitivity (flags p7); [exact Hf | apply F7].
  - cbn. rewrite Hq. cbn. rewrite map_map, Hsame0. apply map_ext.
    intros m. apply renamed_model_model_field.
Qed.

Lemma settled_validated (p p' : Project) :
  model_validate p = (p', Ok ()) → calculation_settled p' ∧ absorption_settled p'.
Proof.
  intros H%model_validate_Ok%run_validators_Ok.
  destruct H as (p1 & p2 & p3 & p4 & p5 & p6 & p7 & p8 & p9
                 & H1 & H2 & H3 & H4 & H5 & H6 & H7 & H8 & H9 & H10).
  apply check_contrast_model_length_state in H6 as ->.
  apply cross_check_model_values_run in H9 as [-> _].
  pose proof (check_protected_parameters_frame _ _ H10) as F10.
  split.
  - apply (calculation_settled_same p8);
      [apply (frame_same_handle _ _ _ _ F10), not_elem_of_nil |].
    apply (calculation_settled_same p7); [apply update_renamed_models_handle, H8 |].
    apply (calculation_settled_same p5);
      [apply (frame_same_handle _ _ _ _ (set_absorption_frame _ _ H7)); compute_done |].
    apply (calculation_settled_same p4); [apply set_contrast_model_field_handle, H5 |].
    apply (set_calculation_settles _ _ H4).
  - apply (absorption_settled_same p8);
      [apply (frame_same_handle _ _ _ _ F10), not_elem_of_nil |].
    apply (absorption_settled_same p7); [apply update_renamed_models_handle, H8 |].
    apply (set_absorption_settles _ _ H7).
Qed.

Lemma validation_validates (p p' : Project) :
  model_validate p = (p', Ok ()) → validated p'.
Proof.
  intros H. split; [apply (forced_empty_validated _ _ H) |].
  split; [apply (settled_validated _ _ H) |].
  split; [apply (model_lengths_validated _ _ H) |].
  split; [apply (settled_validated _ _ H) |].
  split; [apply (validated_cross_checked _ _ H) | apply (validated_caches _ _ H)].
Qed.

Lemma set_data_empty (cl : ClassList.t) :
  ClassList.data cl = [] → ClassList.set_data cl [] = cl.
Proof. intros <-. apply set_data_same. Qed.

Lemma validated_fixed (p : Project) : validated p → model_validate p = (p, Ok ()).
Proof.
  intros ((E1 & E2 & E3) & Hc & Hl & Ha & Hx & Hn & Hp & Hm).
  unfold model_validate, run_validators.
  rewrite bind_run, set_domain_ratios_run.
  replace (if decide (calculation p ≠ Calculations.Domains)
           then upd p "domain_ratios" (ClassList.set_data (domain_ratios p) []) else p)
    with p
    by (destruct decide as [H|H]; [| reflexivity];
        rewrite (set_data_empty _ (E1 H)); symmetry; apply upd_same; reflexivity).
  rewrite bind_run, set_domain_contrasts_run.
  replace (if bool_decide (calculation p = Calculations.Domains)
              && bool_decide (model p = LayerModels.StandardLayers)
           then p
           else upd p "domain_contrasts" (ClassList.set_data (domain_contrasts p) []))
    with p
    by (destruct (bool_decide_reflect (calculation p = Calculations.Domains));
        destruct (bool_decide_reflect (model p = LayerModels.StandardLayers));
        cbn [andb]; try reflexivity;
        (rewrite set_data_empty by (apply E2; tauto)); symmetry; apply upd_same; reflexivity).
  rewrite bind_run, set_layers_run.
  replace (if decide (model p ≠ LayerModels.StandardLayers)
           then upd p "layers" (ClassList.set_data (layers p) []) else p)
    with p
    by (destruct decide as [H|H]; [| reflexivity];
        rewrite (set_data_empty _ (E3 H)); symmetry; apply upd_same; reflexivity).
  rewrite bind_run, (set_calculation_skip _ Hc).
  rewrite bind_run.
  replace (set_contrast_model_field p) with (p, Ok ()).
  2: { unfold set_contrast_model_field. rewrite bind_run. cbn [get_self].
       rewrite Hm, String.eqb_refl. reflexivity. }
  rewrite bind_run, (check_contrast_model_length_pass _ Hl).
  rewrite bind_run, (set_absorption_skip _ Ha).
  rewrite bind_run, (update_renamed_models_current _ Hn).
  rewrite bind_run, (cross_check_model_values_pass _ Hx).
  rewrite (check_protected_parameters_current _ Hp). reflexivity.
Qed.

(** X1.  Validation is idempotent: a project that a validation has accepted
    and left as [p'] is accepted again, and the second validation changes
    nothing, neither a ClassList nor a flag nor a cache. *)
Theorem validation_idempotent (p p' : Project) :
  model_validate p = (p', Ok ()) → model_validate p' = (p', Ok ()).
Proof. intros H. apply validated_fixed, (validation_validates _ _ H). Qed.

Lemma validation_idempotent_witness :
  let p' := (assign_calculation Calculations.Domains two_layer_project.1).1 in
  model_validate p' = (p', Ok ()).
Proof.
  cbv zeta.
  apply (validation_idempotent (with_calculation two_layer_project.1 Calculations.Domains)).
  vm_compute. reflexivity.
Defined.

(** X2.  After a successful validation the three private attributes are
    current: the name cache is what [get_all_names] returns now, the record
    of protected parameters is what [get_all_protected_parameters] returns
    now, and the recorded model field is what [get_contrast_model_field]
    returns now, which is always the name of a ClassList of the project. *)
Theorem validation_refreshes_caches (p p' : Project) :
  model_validate p = (p', Ok ()) →
  get_all_names p' = Ok (_all_names p')
  ∧ get_all_protected_parameters p' = Ok (_protected_parameters p')
  ∧ _contrast_model_field p' = get_contrast_model_field p'
  ∧ ∃ cl, getattr p' (_contrast_model_field p') = Ok cl.
Proof.
  intros (Hn & Hp & Hm)%validated_caches.
  rewrite get_all_names_run, get_all_protected_parameters_run, Hn, Hp, Hm.
  repeat split; try reflexivity. apply get_contrast_model_field_attribute.
Qed.

Lemma validation_refreshes_caches_witness :
  let p' := (assign_calculation Calculations.Domains two_layer_project.1).1 in
  get_all_names p' = Ok (_all_names p')
  ∧ get_all_protected_parameters p' = Ok (_protected_parameters p')
  ∧ _contrast_model_field p' = get_contrast_model_field p'
  ∧ ∃ cl, getattr p' (_contrast_model_field p') = Ok cl.
Proof.
  cbv zeta.
  apply (validation_refreshes_caches
           (with_calculation two_layer_project.1 Calculations.Domains)).
  vm_compute. reflexivity.
Defined.

Lemma renamed_names (p : Project) (l : list Model) (a : string) :
  map name_of (map (renamed_model model_names_used_in p a) l) = map name_of l.
Proof.
  rewrite map_map. apply map_ext. intros m. apply renamed_model_name, table_ok.
Qed.

Lemma update_renamed_models_names (a : string) (p p' : Project) (cl : ClassList.t) :
  update_renamed_models p = (p', Ok ()) → getattr p a = Ok cl →
  ∃ cl', getattr p' a = Ok cl' ∧ ClassList.get_names cl' = ClassList.get_names cl
         ∧ ClassList._class_handle cl' = ClassList._class_handle cl.
Proof.
  intros H Hcl. destruct (update_renamed_models_spec _ _ _ H) as [H1 _].
  destruct (H1 eq_refl) as (_ & q & (_ & _ & _ & _ & Hq) & ->).
  eexists. split; [exact (Hq _ _ Hcl) |]. split; [apply renamed_names | reflexivity].
Qed.

Lemma update_each_names (f : Model → result Model) (l l' : list Model) :
  (∀ a b, f a = Ok b → name_of b = name_of a) →
  update_each f l = (l', Ok ()) → map name_of l' = map name_of l.
Proof.
  intros Hf H%update_each_Forall2. induction H as [|a b l l' Hab _ IH]; [reflexivity |].
  cbn. rewrite IH, (Hf _ _ Hab). reflexivity.
Qed.

Lemma map_result_names (f : Model → result Model) (l l' : list Model) :
  (∀ a b, f a = Ok b → name_of b = name_of a) →
  map_result f l = Ok l' → map name_of l' = map name_of l.
Proof.
  intros Hf H%map_result_Forall2. induction H as [|a b l l' Hab _ IH]; [reflexivity |].
  cbn. rewrite IH, (Hf _ _ Hab). reflexivity.
Qed.

Ltac by_variant m H :=
  destruct m as [[]|[]|[]|[]|[]|[]|[]|[]|[]|[]|[]]; vm_compute in H; try discriminate H;
  injection H as <-; reflexivity.

Lemma to_ratio_name (a b : Model) : to_ratio a = Ok b → name_of b = name_of a.
Proof. intros H. by_variant a H. Qed.

Lemma to_contrast_name (a b : Model) : to_contrast a = Ok b → name_of b = name_of a.
Proof. intros H. by_variant a H. Qed.

Lemma to_absorption_name (a b : Model) : to_absorption a = Ok b → name_of b = name_of a.
Proof. intros H. by_variant a H. Qed.

Lemma to_layer_name (a b : Model) : to_layer a = Ok b → name_of b = name_of a.
Proof. intros H. by_variant a H. Qed.

Lemma clear_model_name (a b : Model) : clear_model a = Ok b → name_of b = name_of a.
Proof. intros H. by_variant a H. Qed.

Lemma same_names_trans (a : string) (p q r : Project) :
  same_names a p q → same_names a q r → same_names a p r.
Proof. unfold same_names. congruence. Qed.

Lemma frame_same_names (S : list string) (a : string) (p p' : Project) :
  frame S p p' → a ∉ S → same_names a p p'.
Proof. intros [_ H] Ha. unfold same_names. rewrite (H a Ha). reflexivity. Qed.

Lemma set_calculation_names (a : string) (p p' : Project) :
  a ≠ "domain_ratios" → set_calculation p = (p', Ok ()) → same_names a p p'.
Proof.
  intros Ha H. destruct (decide (a = "contrasts")) as [->|Hc].
  - apply set_calculation_Ok in H as [(_ & _ & l & Hl & ->)|[(_ & _ & l & Hl & ->)| ->]];
      [| | reflexivity]; unfold same_names; cbn; f_equal.
    + apply (map_result_names _ _ _ to_ratio_name Hl).
    + apply (map_result_names _ _ _ to_contrast_name Hl).
  - apply (frame_same_names _ _ _ _ (set_calculation_frame _ _ H)).
    rewrite !elem_of_cons. intros [?|[?|[]%not_elem_of_nil]]; contradiction.
Qed.

Lemma set_contrast_model_field_names (a : string) (p p' : Project) :
  set_contrast_model_field p = (p', Ok ()) → same_names a p p'.
Proof.
  intros H. destruct (decide (a = "contrasts")) as [->|Hc].
  - apply set_contrast_model_field_Ok in H as [[_ ->]|(l & Hl & ->)]; [reflexivity |].
    unfold same_names. cbn. f_equal. apply (update_each_names _ _ _ clear_model_name Hl).
  - apply (frame_same_names _ _ _ _ (set_contrast_model_field_frame _ _ H)).
    rewrite !elem_of_cons. intros [?|[]%not_elem_of_nil]; contradiction.
Qed.

Lemma set_absorption_names (a : string) (p p' : Project) :
  set_absorption p = (p', Ok ()) → same_names a p p'.
Proof.
  intros H. destruct (decide (a = "layers")) as [->|Hc].
  - apply set_absorption_Ok in H as [(_ & _ & l & Hl & ->)|[(_ & _ & l & Hl & ->)| ->]];
      [| | reflexivity]; unfold same_names; cbn; f_equal.
    + apply (map_result_names _ _ _ to_absorption_name Hl).
    + apply (map_result_names _ _ _ to_layer_name Hl).
  - apply (frame_same_names _ _ _ _ (set_absorption_frame _ _ H)).
    rewrite !elem_of_cons. intros [?|[]%not_elem_of_nil]; contradiction.
Qed.

Lemma update_renamed_models_same_names (a : string) (p p' : Project) :
  update_renamed_models p = (p', Ok ()) → same_names a p p'.
Proof.
  intros H. unfold same_names. destruct (getattr p a) as [cl|e] eqn:E.
  - destruct (update_renamed_models_names _ _ _ _ H E) as (cl' & -> & Hn & _).
    cbn. f_equal. exact Hn.
  - rewrite (getattr_invalid _ p' _ _ E). reflexivity.
Qed.

(** The names of the ClassList [a] after the passes that follow the three
    forced-empty ones. *)
Lemma later_passes_names (a : string) (p3 p4 p5 p7 p8 p' : Project) :
  a ≠ "domain_ratios" →
  set_calculation p3 = (p4, Ok ()) →
  set_contrast_model_field p4 = (p5, Ok ()) →
  set_absorption p5 = (p7, Ok ()) →
  update_renamed_models p7 = (p8, Ok ()) →
  check_protected_parameters p8 = (p', Ok ()) →
  same_names a p3 p'.
Proof.
  intros Ha H4 H5 H7 H8 H10.
  apply (same_names_trans _ _ _ _ (set_calculation_names _ _ _ Ha H4)).
  apply (same_names_trans _ _ _ _ (set_contrast_model_field_names a _ _ H5)).
  apply (same_names_trans _ _ _ _ (set_absorption_names a _ _ H7)).
  apply (same_names_trans _ _ _ _ (update_renamed_models_same_names a _ _ H8)).
  apply (frame_same_names _ _ _ _ (check_protected_parameters_frame _ _ H10)), not_elem_of_nil.
Qed.

(** X3.  A successful validation rewrites fields and converts entities, but
    it never changes the mode flags, never touches the parameters, the bulk
    in, the bulk out, the scalefactors, the background parameters, the
    resolution parameters, the custom files or the data, and never adds,
    removes, renames or reorders a background, a resolution or a contrast,
    nor a layer of a standard-layers project. *)
Theorem validation_preserves (p p' : Project) :
  model_validate p = (p', Ok ()) →
  flags p' = flags p
  ∧ (∀ a, a ∈ ["parameters"; "bulk_in"; "bulk_out"; "scalefactors"; "background_parameters";
               "resolution_parameters"; "custom_files"; "data"] →
          getattr p' a = getattr p a)
  ∧ ClassList.get_names (backgrounds p') = ClassList.get_names (backgrounds p)
  ∧ ClassList.get_names (resolutions p') = ClassList.get_names (resolutions p)
  ∧ ClassList.get_names (contrasts p') = ClassList.get_names (contrasts p)
  ∧ (model p = LayerModels.StandardLayers →
     ClassList.get_names (layers p') = ClassList.get_names (layers p)).
Proof.
  intros H. pose proof (model_validate_frame _ _ H) as [Hf Hframe].
  split; [exact Hf |]. split.
  { intros a Ha. apply Hframe. intros Hin.
    repeat (apply elem_of_cons in Ha as [->|Ha]); try (apply not_elem_of_nil in Ha as []);
      revert Hin; compute_done. }
  apply model_validate_Ok, run_validators_Ok in H.
  destruct H as (p1 & p2 & p3 & p4 & p5 & p6 & p7 & p8 & p9
                 & H1 & H2 & H3 & H4 & H5 & H6 & H7 & H8 & H9 & H10).
  apply check_contrast_model_length_state in H6 as ->.
  apply cross_check_model_values_run in H9 as [-> _].
  assert (Hlater : ∀ a, a ≠ "domain_ratios" → same_names a p3 p')
    by (intros a Ha; exact (later_passes_names a _ _ _ _ _ _ Ha H4 H5 H7 H8 H10)).
  pose proof (frame_trans _ _ _ _ _ (set_domain_ratios_frame _ _ _ H1)
                (set_domain_contrasts_frame _ _ _ H2)) as F2.
  pose proof (frame_trans _ _ _ _ _ F2 (set_layers_frame _ _ _ H3)) as F3. cbn [app] in F3.
  assert (Hnames : ∀ a, a ∈ ["backgrounds"; "resolutions"; "contrasts"] → same_names a p p').
  { intros a Ha. apply (same_names_trans _ _ p3).
    - apply (frame_same_names _ _ _ _ F3). intros Hin.
      repeat (apply elem_of_cons in Ha as [->|Ha]); try (apply not_elem_of_nil in Ha as []);
        revert Hin; compute_done.
    - apply Hlater. intros ->. revert Ha. compute_done. }
  split; [| split; [| split]].
  - assert (Hb := Hnames "backgrounds" ltac:(compute_done)).
    unfold same_names in Hb. cbn in Hb. congruence.
  - assert (Hb := Hnames "resolutions" ltac:(compute_done)).
    unfold same_names in Hb. cbn in Hb. congruence.
  - assert (Hb := Hnames "contrasts" ltac:(compute_done)).
    unfold same_names in Hb. cbn in Hb. congruence.
  - intros Hm.
    assert (Hm2 : model p2 = LayerModels.StandardLayers).
    { destruct F2 as [(_ & Em & _)%flags_eq _]. congruence. }
    rewrite set_layers_run in H3. destruct decide as [Hne|_]; [contradiction |].
    injection H3 as <-.
    assert (Hl : same_names "layers" p p').
    { apply (same_names_trans _ _ p2); [| apply Hlater; discriminate].
      apply (frame_same_names _ _ _ _ F2). compute_done. }
    unfold same_names in Hl. cbn in Hl. congruence.
Qed.

Lemma validation_preserves_witness :
  ClassList.get_names
    (contrasts (assign_calculation Calculations.Domains two_layer_project.1).1)
  = ["Contrast 1"].
Proof.
  refine (proj1 (proj2 (proj2 (proj2 (proj2
    (validation_preserves (with_calculation two_layer_project.1 Calculations.Domains)
       (assign_calculation Calculations.Domains two_layer_project.1).1 _)))))).
  vm_compute. reflexivity.
Defined.

(** ** The scope of the wrapper *)

Lemma attempt_Ok {R : Type} (func : M R) (p q : Project) (v : R) :
  attempt func p = (q, Ok v) →
  ∃ p1, func p = (p1, Ok v) ∧ model_validate p1 = (q, Ok ()).
Proof.
  unfold attempt. intros (p1 & v' & Hf & H)%bind_Ok.
  apply bind_Ok in H as (p2 & [] & Hv & [= <- <-]). eauto.
Qed.

(** X4.  The wrapper rolls back only the data of the ClassList it wraps, and
    only for the three kinds of exception it catches.  When the routine or
    the validation raises another exception (an IndexError, a KeyError, an
    AttributeError), the exception passes and the project stays as the
    failed run left it.  When it raises a caught one, the project is the one
    the failed run left with the former entities put back in the wrapped
    ClassList: the other ClassLists, the flags, the caches and the class of
    the wrapped ClassList are not restored. *)
Theorem wrapper_rollback_scope {R : Type} (class_list : string) (func : M R)
    (p q : Project) (cl : ClassList.t) (e : Exception) :
  getattr p class_list = Ok cl →
  attempt func p = (q, Raise e) →
  (caught e = false → _classlist_wrapper class_list func p = (q, Raise e))
  ∧ (caught e = true →
     ∃ clq, getattr q class_list = Ok clq
       ∧ _classlist_wrapper class_list func p
         = (upd q class_list (ClassList.set_data clq (ClassList.data cl)), Raise (reraised e))).
Proof.
  intros Hcl Hrun. unfold _classlist_wrapper. rewrite Hcl. cbv zeta.
  change (func ≫= _) with (attempt func). rewrite Hrun.
  destruct (getattr_valid p q class_list cl Hcl) as [clq Hq].
  split; intros Hc.
  - destruct e; try discriminate Hc; reflexivity.
  - exists clq. split; [exact Hq |].
    destruct e; try discriminate Hc; cbn [reraised];
      rewrite bind_run, (assign_data_run _ _ _ _ Hq); reflexivity.
Qed.

(** A wrapped change of a field of the entity at an index that the
    parameters do not have. *)
Lemma wrapper_rollback_scope_witness :
  wrapped_set_fields "parameters" 3 [("name", VStr "A")] default_project
  = (default_project, Raise (IndexError "list index out of range")).
Proof.
  refine (proj1 (wrapper_rollback_scope "parameters"
                   (on_classlist "parameters" (ClassList.set_fields 3 [("name", VStr "A")]))
                   default_project default_project (parameters default_project)
                   (IndexError "list index out of range") _ _) _);
    vm_compute; reflexivity.
Defined.

Lemma wrapper_Ok {R : Type} (a : string) (func : M R) (p p' : Project) (v : R) :
  _classlist_wrapper a func p = (p', Ok v) → attempt func p = (p', Ok v).
Proof.
  unfold _classlist_wrapper. destruct (getattr p a) as [cl|e] eqn:Hcl; [| discriminate].
  cbv zeta. change (func ≫= _) with (attempt func).
  destruct (attempt func p) as [q [v'|e]] eqn:Hrun; [intros [= <- <-]; reflexivity |].
  destruct (getattr_valid p q a cl Hcl) as [clq Hq].
  destruct e; try discriminate; rewrite bind_run, (assign_data_run _ _ _ _ Hq); discriminate.
Qed.

(** X5.  Every way into the project that succeeds leaves a project that the
    validation accepts as it is: the construction, a wrapped routine of a
    ClassList and an assignment to a mode flag all end with a project on
    which a further validation succeeds and changes nothing. *)
Theorem entry_points_leave_validated (p p' : Project) :
  (__init__ p = (p', Ok ())
   ∨ (∃ (R : Type) (class_list : string) (func : M R) (v : R),
        _classlist_wrapper class_list func p = (p', Ok v))
   ∨ (∃ v, assign_calculation v p = (p', Ok ()))
   ∨ (∃ v, assign_model v p = (p', Ok ()))
   ∨ (∃ v, assign_absorption v p = (p', Ok ()))) →
  model_validate p' = (p', Ok ()).
Proof.
  intros [H|[(R & a & func & v & H)|[[v H]|[[v H]|[v H]]]]].
  - apply init_Ok in H as (q & _ & H). apply validated_fixed, (validation_validates _ _ H).
  - apply wrapper_Ok, attempt_Ok in H as (p1 & _ & H).
    apply validated_fixed, (validation_validates _ _ H).
  - apply validated_fixed, (validation_validates _ _ H).
  - apply validated_fixed, (validation_validates _ _ H).
  - apply validated_fixed, (validation_validates _ _ H).
Qed.

Lemma entry_points_leave_validated_witness :
  model_validate default_project = (default_project, Ok ()).
Proof.
  apply (entry_points_leave_validated default_fields). left. vm_compute. reflexivity.
Defined.

(** ** The protected-parameter check, both ways *)

Lemma guard_entry_Ok (p : Project) (class_list : string) (cl : ClassList.t)
    (previous : list string) :
  getattr p class_list = Ok cl →
  names_get (_protected_parameters p) class_list = Ok previous →
  guard_entry p class_list = Ok () ↔ previous ⊆ protected_names cl.
Proof.
  intros Hcl Hprev. unfold guard_entry. rewrite Hcl, Hprev. cbn.
  destruct (forallb _ previous) eqn:E; cbn.
  - split; [intros _ | reflexivity]. intros x Hx%list_elem_of_In.
    apply (proj1 (List.forallb_forall _ _) E), bool_decide_eq_true in Hx. exact Hx.
  - split; [discriminate |]. intros Hsub. exfalso.
    assert (forallb (λ element, bool_decide (element ∈ protected_names cl)) previous = true);
      [| congruence].
    apply List.forallb_forall. intros x Hx%list_elem_of_In. apply bool_decide_eq_true, Hsub, Hx.
Qed.

(** X6.  With a record of protected names for each of the seven parameter
    ClassLists, [check_protected_parameters] succeeds exactly when every
    recorded name is still the name of a protected parameter of its
    ClassList.  It then records the protected names of now, so that protected
    parameters added since are protected from then on; when it fails it
    leaves the project, and the record, as they were. *)
Theorem protected_guard_iff (p : Project) :
  protected_complete p →
  ((check_protected_parameters p).2 = Ok ()
   ↔ ∀ class_list cl previous,
       class_list ∈ parameter_class_lists →
       getattr p class_list = Ok cl →
       names_get (_protected_parameters p) class_list = Ok previous →
       previous ⊆ protected_names cl)
  ∧ ((check_protected_parameters p).2 = Ok () →
     get_all_protected_parameters p = Ok (_protected_parameters (check_protected_parameters p).1)
     ∧ ∀ a, getattr (check_protected_parameters p).1 a = getattr p a)
  ∧ ((check_protected_parameters p).2 ≠ Ok () → (check_protected_parameters p).1 = p).
Proof.
  intros Hcomplete. rewrite check_protected_parameters_run.
  assert (Hiff : check_each (guard_entry p) parameter_class_lists = Ok ()
                 ↔ ∀ class_list cl previous,
                     class_list ∈ parameter_class_lists →
                     getattr p class_list = Ok cl →
                     names_get (_protected_parameters p) class_list = Ok previous →
                     previous ⊆ protected_names cl).
  { rewrite check_each_Forall, list.Forall_forall. split.
    - intros H a cl previous Ha Hcl Hprev. apply (guard_entry_Ok _ _ _ _ Hcl Hprev), H, Ha.
    - intros H a Ha. destruct (Hcomplete a Ha) as [previous Hprev].
      assert (Hin : a ∈ class_lists) by (apply elem_of_app; left; exact Ha).
      destruct (getattr_class_lists p a Hin) as [cl Hcl].
      apply (guard_entry_Ok _ _ _ _ Hcl Hprev), (H _ _ _ Ha Hcl Hprev). }
  destruct (check_each (guard_entry p) parameter_class_lists) as [[]|e] eqn:E; cbn [fst snd].
  - split; [tauto |]. split; [| congruence]. intros _.
    rewrite get_all_protected_parameters_run. split; reflexivity.
  - split; [| split; [discriminate | reflexivity]].
    split; [discriminate |]. intros H. apply Hiff in H. discriminate H.
Qed.

Lemma protected_complete_run (p : Project) :
  forallb (λ class_list,
             match names_get (_protected_parameters p) class_list with
             | Ok _ => true
             | Raise _ => false
             end) parameter_class_lists = true →
  protected_complete p.
Proof.
  intros H a Ha%list_elem_of_In. apply (proj1 (List.forallb_forall _ _) H) in Ha.
  destruct (names_get _ a); [eauto | discriminate].
Qed.

Lemma protected_guard_iff_witness :
  get_all_protected_parameters default_project
  = Ok (_protected_parameters (check_protected_parameters default_project).1).
Proof.
  refine (proj1 (proj1 (proj2 (protected_guard_iff default_project _)) _)).
  - apply protected_complete_run. vm_compute. reflexivity.
  - vm_compute. reflexivity.
Defined.

(** ** The models of the contrasts after a change of mode *)

Lemma clear_model_field (a b : Model) : clear_model a = Ok b → model_field b = Ok [].
Proof. intros H. by_variant a H. Qed.

Lemma first_passes_model_field (p p1 p2 p3 p4 : Project) :
  set_domain_ratios p = (p1, Ok ()) →
  set_domain_contrasts p1 = (p2, Ok ()) →
  set_layers p2 = (p3, Ok ()) →
  set_calculation p3 = (p4, Ok ()) →
  _contrast_model_field p4 = _contrast_model_field p
  ∧ get_contrast_model_field p4 = get_contrast_model_field p.
Proof.
  intros H1 H2 H3 H4. split.
  - rewrite set_domain_ratios_run in H1. injection H1 as <-.
    rewrite set_domain_contrasts_run in H2. injection H2 as <-.
    rewrite set_layers_run in H3. injection H3 as <-.
    apply set_calculation_Ok in H4 as [(_ & _ & l & _ & ->)|[(_ & _ & l & _ & ->)| ->]];
      repeat match goal with
        | |- context [_contrast_model_field (upd ?q ?a ?c)] =>
            rewrite (proj1 (proj2 (upd_private q a c)))
        | |- context [if ?b then _ else _] => destruct b
        end; reflexivity.
  - apply get_contrast_model_field_flags.
    rewrite (proj1 (set_calculation_frame _ _ H4)), (proj1 (set_layers_frame _ _ _ H3)),
      (proj1 (set_domain_contrasts_frame _ _ _ H2)).
    apply (set_domain_ratios_frame _ _ _ H1).
Qed.

(** X7.  When the mode flags of the project call for another model field
    than the recorded one (the calculation or the layer model has changed
    since the last validation), a successful validation leaves every
    contrast with an empty model. *)
Theorem model_field_change_clears (p p' : Project) :
  model_validate p = (p', Ok ()) →
  get_contrast_model_field p ≠ _contrast_model_field p →
  Forall (λ m, model_field m = Ok []) (ClassList.data (contrasts p')).
Proof.
  intros H Hchange. apply model_validate_Ok, run_validators_Ok in H.
  destruct H as (p1 & p2 & p3 & p4 & p5 & p6 & p7 & p8 & p9
                 & H1 & H2 & H3 & H4 & H5 & H6 & H7 & H8 & H9 & H10).
  destruct (first_passes_model_field _ _ _ _ _ H1 H2 H3 H4) as [Hrec Hnow].
  apply check_contrast_model_length_state in H6 as ->.
  apply cross_check_model_values_run in H9 as [-> _].
  assert (H5' : Forall (λ m, model_field m = Ok []) (ClassList.data (contrasts p5))).
  { apply set_contrast_model_field_Ok in H5 as [[E _]|(l & Hl & ->)]; [congruence |].
    apply update_each_Forall2 in Hl. cbn. clear -Hl.
    induction Hl as [|a b l l' Hab _ IH]; constructor; [exact (clear_model_field _ _ Hab) | exact IH]. }
  pose proof (check_protected_parameters_frame _ _ H10) as F10. same_list F10 "contrasts".
  pose proof (set_absorption_frame _ _ H7) as F7. same_list F7 "contrasts".
  destruct (update_renamed_models_spec _ _ _ H8) as [Hspec _].
  destruct (Hspec eq_refl) as (_ & q & (_ & _ & _ & _ & Hq) & ->).
  specialize (Hq "contrasts" (contrasts p7) eq_refl). cbn in Hq. injection Hq as Hq.
  rewrite Hsame. change (contrasts (with_all_names q (all_names q))) with (contrasts q).
  rewrite Hq. cbn [ClassList.data]. apply List.Forall_map. rewrite Hsame0.
  eapply List.Forall_impl; [| exact H5']. intros m Hm. cbv beta in Hm |- *.
  rewrite renamed_model_model_field. exact Hm.
Qed.

Lemma model_field_change_clears_witness :
  Forall (λ m, model_field m = Ok [])
    (ClassList.data (contrasts (assign_model LayerModels.CustomXY two_layer_project.1).1)).
Proof.
  apply (model_field_change_clears (with_model two_layer_project.1 LayerModels.CustomXY));
    [vm_compute; reflexivity | vm_compute; discriminate].
Defined.

(** ** The data entry "Simulation" at construction *)

Lemma on_classlist_frame {R : Type} (a : string) (routine : ClassList.t → ClassList.t * result R)
    (q q' : Project) (r : result R) :
  on_classlist a routine q = (q', r) → frame [a] q q'.
Proof.
  destruct (getattr q a) as [cl|e] eqn:E.
  - rewrite (on_classlist_run _ _ _ _ E). intros [= <- _]. apply frame_upd.
  - unfold on_classlist, attr. rewrite !bind_run. cbn [get_self]. unfold lift. rewrite E.
    intros [= <- _]. apply frame_refl.
Qed.

Lemma lift_Ok {A : Type} (r : result A) (q q' : Project) (x : A) :
  lift r q = (q', Ok x) → q' = q ∧ r = Ok x.
Proof. unfold lift. destruct r; intros [= <- <-]; auto. Qed.




(** ** The field validator of the construction *)

(** X9.  [check_class] is registered for thirteen of the fourteen ClassList
    fields: the domain ratios are not among them, so the messages of the
    field validation do not depend on what the domain ratios hold. *)
Theorem field_validation_skips_domain_ratios (fields : Project) (cl : ClassList.t) :
  "domain_ratios" ∈ class_lists
  ∧ ("domain_ratios" ∉ checked_fields)
  ∧ field_errors (upd fields "domain_ratios" cl) = field_errors fields.
Proof.
  split; [compute_done |]. split; [compute_done |]. destruct fields. reflexivity.
Qed.

Lemma check_class_foreign (self : Project) (field_name : string) (expected : class)
    (cl : ClassList.t) (m : Model) (r : result unit) :
  getattr self field_name = Ok cl → m ∈ ClassList.data cl → isinstance m expected = false →
  (if negb (forallb (λ element, isinstance element expected) (ClassList.data cl))
   then Raise (ValueError (quoted field_name +:+ " ClassList contains objects other than "
                           +:+ quoted (__name__ expected)))
   else r)
  = Raise (ValueError (quoted field_name +:+ " ClassList contains objects other than "
                       +:+ quoted (__name__ expected))).
Proof.
  intros _ Hm Hi. destruct (forallb _ _) eqn:E; [| reflexivity].
  apply list_elem_of_In in Hm. apply (proj1 (List.forallb_forall _ _) E) in Hm. congruence.
Qed.

Lemma init_field_errors (fields : Project) (message : string) :
  message ∈ field_errors fields →
  ∃ errors, __init__ fields = (fields, Raise (ValidationError "Project" errors))
            ∧ message ∈ errors.
Proof.
  intros H. unfold __init__. destruct (field_errors fields) as [|x l] eqn:E.
  - apply not_elem_of_nil in H as [].
  - eauto.
Qed.

Lemma field_error_of (fields : Project) (field_name msg : string) :
  field_name ∈ checked_fields → check_class fields field_name = Raise (ValueError msg) →
  ("Value error, " +:+ msg) ∈ field_errors fields.
Proof.
  intros Hin Hc. unfold field_errors. apply list_elem_of_In, in_flat_map.
  exists field_name. split; [apply list_elem_of_In, Hin |]. rewrite Hc. left. reflexivity.
Qed.

(** X10.  The construction does not convert: when the absorption is on and
    the supplied layers hold a plain Layer, or the calculation is domains
    and the supplied contrasts hold a plain Contrast, the field validation
    rejects the project with the message of that field, and nothing of the
    project is initialised or changed. *)
Theorem construction_rejects_unconverted (fields : Project) :
  (absorption fields = true → (∃ l, MLayer l ∈ ClassList.data (layers fields)) →
     ∃ errors, __init__ fields = (fields, Raise (ValidationError "Project" errors))
       ∧ ("Value error, " +:+ quoted "layers" +:+ " ClassList contains objects other than "
          +:+ quoted "AbsorptionLayer") ∈ errors)
  ∧ (calculation fields = Calculations.Domains →
     (∃ c, MContrast c ∈ ClassList.data (contrasts fields)) →
     ∃ errors, __init__ fields = (fields, Raise (ValidationError "Project" errors))
       ∧ ("Value error, " +:+ quoted "contrasts" +:+ " ClassList contains objects other than "
          +:+ quoted "ContrastWithRatio") ∈ errors).
Proof.
  split.
  - intros Ha [l Hl]. apply init_field_errors, (field_error_of _ "layers"); [compute_done |].
    unfold check_class. cbn. rewrite Ha. cbn.
    apply (check_class_foreign fields "layers" cAbsorptionLayer (layers fields) (MLayer l) _
             eq_refl Hl eq_refl).
  - intros Hc [c Hm]. apply init_field_errors, (field_error_of _ "contrasts"); [compute_done |].
    unfold check_class. cbn. rewrite Hc. cbn.
    apply (check_class_foreign fields "contrasts" cContrastWithRatio (contrasts fields)
             (MContrast c) _ eq_refl Hm eq_refl).
Qed.

Lemma construction_rejects_unconverted_witness :
  ∃ errors,
    __init__ (with_absorption (upd default_fields "layers"
                                 (ClassList_of [example_layer "L" "Substrate Roughness"])) true)
    = (with_absorption (upd default_fields "layers"
                          (ClassList_of [example_layer "L" "Substrate Roughness"])) true,
       Raise (ValidationError "Project" errors))
    ∧ ("Value error, " +:+ quoted "layers" +:+ " ClassList contains objects other than "
       +:+ quoted "AbsorptionLayer") ∈ errors.
Proof.
  refine (proj1 (construction_rejects_unconverted _) _ _); [reflexivity |].
  eexists. apply list_elem_of_here.
Defined.

(** ** What the propagation of renames leaves alone *)

Lemma untouched_filter (table : list (string * AllFields)) (a f : string) :
  (∀ entry, entry ∈ table → attribute entry.2 = a → f ∉ fields entry.2) →
  List.filter (touches a f) table = [].
Proof.
  induction table as [|entry table IH]; intros H; [reflexivity |].
  cbn [List.filter]. unfold touches at 1.
  destruct (String.eqb_spec (attribute entry.2) a) as [E|E]; cbn [andb].
  - rewrite bool_decide_eq_false_2 by (apply H; [apply list_elem_of_here | exact E]).
    apply IH. intros e He. apply H, list_elem_of_further, He.
  - apply IH. intros e He. apply H, list_elem_of_further, He.
Qed.

Lemma renamed_model_untouched (p : Project) (a f : string) (m : Model) :
  (∀ entry, entry ∈ model_names_used_in → attribute entry.2 = a → f ∉ fields entry.2) →
  dict_get (model_dump (renamed_model model_names_used_in p a m)) f
  = dict_get (model_dump m) f.
Proof.
  intros H. rewrite renamed_model_get. destruct (dict_get (model_dump m) f) as [v|]; [| reflexivity].
  cbn [fmap option_fmap option_map]. rewrite fold_touches, (untouched_filter _ _ _ H). reflexivity.
Qed.

(** X11.  [update_renamed_models] succeeds exactly when the name cache has an
    entry for each source of the uses table (a missing one is a KeyError).
    When it succeeds, every ClassList keeps its class and holds the same
    number of entities, each of the class and of the name it had, and a field
    that the uses table does not register for that ClassList keeps its
    value: only registered reference fields are ever rewritten. *)
Theorem rename_pass_scope (p p' : Project) (r : result unit) :
  update_renamed_models p = (p', r) →
  (r = Ok () ↔ cache_complete p)
  ∧ (r = Ok () →
     ∀ a cl, getattr p a = Ok cl →
       ∃ cl', getattr p' a = Ok cl'
         ∧ ClassList._class_handle cl' = ClassList._class_handle cl
         ∧ Forall2 (λ m m',
              type_of m' = type_of m ∧ name_of m' = name_of m
              ∧ ∀ f, (∀ entry, entry ∈ model_names_used_in →
                        attribute entry.2 = a → f ∉ fields entry.2) →
                     dict_get (model_dump m') f = dict_get (model_dump m) f)
             (ClassList.data cl) (ClassList.data cl')).
Proof.
  intros H. destruct (update_renamed_models_spec _ _ _ H) as [H1 H2].
  split; [split; [intros Hr; apply (H1 Hr) | exact H2] |].
  intros Hr a cl Hcl. destruct (H1 Hr) as (_ & q & (_ & _ & _ & _ & Hq) & ->).
  eexists. split; [exact (Hq _ _ Hcl) |]. split; [reflexivity |].
  cbn [ClassList.data]. apply Forall2_fmap_r, Forall_Forall2_diag, list.Forall_forall.
  intros m _. split; [apply renamed_model_type |].
  split; [apply renamed_model_name, table_ok |].
  intros f Hf. apply renamed_model_untouched, Hf.
Qed.

Lemma rename_pass_scope_witness :
  cache_complete renamed_parameter_project.
Proof.
  refine (proj1 (proj1 (rename_pass_scope renamed_parameter_project
                          (update_renamed_models renamed_parameter_project).1
                          (update_renamed_models renamed_parameter_project).2 _)) _).
  - vm_compute. reflexivity.
  - vm_compute. reflexivity.
Defined.

(** ** The hydration of a layer *)

Lemma with_hydration_name (s : string) (m : Model) : name_of (with_hydration s m) = name_of m.
Proof. destruct m; reflexivity. Qed.

Lemma with_hydration_field (s : string) (m : Model) (field : string) :
  field ∈ ["thickness"; "SLD"; "SLD_real"; "SLD_imaginary"; "roughness"] →
  getattr_default (with_hydration s m) field (VStr "") = getattr_default m field (VStr "").
Proof.
  intros H. repeat (apply elem_of_cons in H as [->|H]); try (apply not_elem_of_nil in H as []);
    destruct m; reflexivity.
Qed.

Lemma with_hydrations_names (hs : list string) (l : list Model) :
  length hs = length l → map name_of (zip_with with_hydration hs l) = map name_of l.
Proof.
  revert l. induction hs as [|s hs IH]; intros [|m l] Hlen; try discriminate; [reflexivity |].
  cbn. rewrite with_hydration_name, IH by (cbn in Hlen; congruence). reflexivity.
Qed.

Lemma with_hydrations_fields_ok (allowed_values : list string) (hs : list string)
    (l : list Model) :
  length hs = length l →
  fields_ok ["thickness"; "SLD"; "SLD_real"; "SLD_imaginary"; "roughness"] allowed_values
    (zip_with with_hydration hs l)
  ↔ fields_ok ["thickness"; "SLD"; "SLD_real"; "SLD_imaginary"; "roughness"] allowed_values l.
Proof.
  unfold fields_ok. revert l. induction hs as [|s hs IH]; intros [|m l] Hlen; try discriminate;
    [reflexivity |].
  cbn [zip_with].
  specialize (IH l ltac:(cbn in Hlen; congruence)).
  assert (Hm : Forall (field_ok allowed_values (with_hydration s m))
                 ["thickness"; "SLD"; "SLD_real"; "SLD_imaginary"; "roughness"]
               ↔ Forall (field_ok allowed_values m)
                   ["thickness"; "SLD"; "SLD_real"; "SLD_imaginary"; "roughness"]).
  { rewrite !list.Forall_forall. split; intros H f Hf; specialize (H f Hf);
      unfold field_ok in *; [rewrite with_hydration_field in H by exact Hf
                            | rewrite with_hydration_field by exact Hf]; exact H. }
  split; intros H; inversion H; subst; constructor;
    first [apply Hm; assumption | apply IH; assumption].
Qed.

Lemma cross_check_verdict (p : Project) :
  (cross_check_model_values p).2 = Ok () ↔ cross_checked p.
Proof.
  split.
  - destruct (cross_check_model_values p) as [p' r] eqn:E. cbn. intros ->.
    apply (cross_check_model_values_run _ _ _ E). reflexivity.
  - intros H. rewrite (cross_check_model_values_pass _ H). reflexivity.
Qed.

Lemma with_hydrations_cross_checked (p : Project) (hs : list string) :
  length hs = length (ClassList.data (layers p)) →
  cross_checked (with_hydrations p hs) ↔ cross_checked p.
Proof.
  intros Hlen. unfold cross_checked.
  assert (Hnames : ClassList.get_names (layers (with_hydrations p hs))
                   = ClassList.get_names (layers p))
    by (apply with_hydrations_names, Hlen).
  assert (Hsrc : ∀ l, (∃ model_source,
                         getattr (with_hydrations p hs) (_contrast_model_field p) = Ok model_source
                         ∧ models_ok (ClassList.get_names model_source) l)
                      ↔ (∃ model_source,
                           getattr p (_contrast_model_field p) = Ok model_source
                           ∧ models_ok (ClassList.get_names model_source) l)).
  { intros l. unfold with_hydrations.
    destruct (String.eqb_spec (_contrast_model_field p) "layers") as [->|Hne].
    - rewrite (getattr_upd_eq p "layers" (layers p) _ eq_refl).
      change (getattr p "layers") with (Ok (layers p) : result ClassList.t).
      split; intros (src & [= <-] & H); eexists; (split; [reflexivity |]).
      + rewrite <- Hnames. exact H.
      + change (models_ok (ClassList.get_names (layers (with_hydrations p hs))) l).
        rewrite Hnames. exact H.
    - rewrite getattr_upd_ne by exact Hne. reflexivity. }
  change (_contrast_model_field (with_hydrations p hs)) with (_contrast_model_field p).
  rewrite Hsrc, Hnames.
  change (ClassList.data (layers (with_hydrations p hs)))
    with (zip_with with_hydration hs (ClassList.data (layers p))).
  rewrite (with_hydrations_fields_ok _ _ _ Hlen).
  reflexivity.
Qed.

(** X12.  The cross-check never looks at the hydration of a layer: whatever
    hydrations the layers of a project are given, the verdict of
    [cross_check_model_values] is the same.  (The field is registered for
    the propagation of renames, but there is no entry "layers.hydration" in
    [values_defined_in] and the field is not among those checked.) *)
Theorem hydration_unchecked (p : Project) (hs : list string) :
  length hs = length (ClassList.data (layers p)) →
  ("hydration" ∉ ["thickness"; "SLD"; "SLD_real"; "SLD_imaginary"; "roughness"])
  ∧ lookup_str values_defined_in "layers.hydration" = Raise (KeyError "layers.hydration")
  ∧ ((cross_check_model_values (with_hydrations p hs)).2 = Ok ()
     ↔ (cross_check_model_values p).2 = Ok ()).
Proof.
  intros Hlen. split; [compute_done |]. split; [reflexivity |].
  rewrite !cross_check_verdict. apply with_hydrations_cross_checked, Hlen.
Qed.

Lemma hydration_unchecked_witness :
  (cross_check_model_values
     (with_hydrations two_layer_project.1 ["no such parameter"; "nor this"])).2 = Ok ().
Proof.
  apply (proj2 (proj2 (hydration_unchecked two_layer_project.1
                         ["no such parameter"; "nor this"] eq_refl))).
  vm_compute. reflexivity.
Defined.

(** ** One rename, from a validated project *)

Lemma name_diff_insert (names : list string) (i : nat) (old new : string) :
  names !! i = Some old →
  name_diff names (<[i := new]> names) = if decide (old = new) then [] else [(old, new)].
Proof.
  unfold name_diff. revert i. induction names as [|x names IH]; intros i Hi; [discriminate |].
  destruct i as [|i]; cbn in Hi.
  - injection Hi as ->. cbn [insert list_insert zip zip_with]. rewrite filter_cons. cbn [fst snd].
    fold (name_diff names names). rewrite name_diff_same.
    destruct (decide (old ≠ new)) as [H|H]; destruct (decide (old = new)); try reflexivity;
      contradiction.
  - change (<[S i := new]> (x :: names)) with (x :: <[i := new]> names).
    cbn [zip zip_with]. rewrite filter_cons. cbn [fst snd].
    destruct (decide (x ≠ x)) as [H|_]; [contradiction |]. apply IH, Hi.
Qed.

Lemma validated_upd_parameters (p : Project) (cl1 : ClassList.t) :
  validated p →
  forced_empty (upd p "parameters" cl1)
  ∧ calculation_settled (upd p "parameters" cl1)
  ∧ _contrast_model_field (upd p "parameters" cl1)
    = get_contrast_model_field (upd p "parameters" cl1)
  ∧ model_lengths_ok (upd p "parameters" cl1)
  ∧ absorption_settled (upd p "parameters" cl1).
Proof.
  intros (H1 & H2 & H3 & H4 & _ & _ & _ & H5). destruct p.
  split; [exact H1 |]. split; [exact H2 |]. split; [exact H5 |]. split; [exact H3 | exact H4].
Qed.

Lemma first_passes_skip (p : Project) :
  forced_empty p → calculation_settled p →
  _contrast_model_field p = get_contrast_model_field p →
  model_lengths_ok p → absorption_settled p →
  run_validators p
  = (update_renamed_models;; cross_check_model_values;; check_protected_parameters) p.
Proof.
  intros (E1 & E2 & E3) Hc Hm Hl Ha. unfold run_validators.
  rewrite bind_run, set_domain_ratios_run.
  replace (if decide (calculation p ≠ Calculations.Domains)
           then upd p "domain_ratios" (ClassList.set_data (domain_ratios p) []) else p)
    with p
    by (destruct decide as [H|H]; [| reflexivity];
        rewrite (set_data_empty _ (E1 H)); symmetry; apply upd_same; reflexivity).
  rewrite bind_run, set_domain_contrasts_run.
  replace (if bool_decide (calculation p = Calculations.Domains)
              && bool_decide (model p = LayerModels.StandardLayers)
           then p
           else upd p "domain_contrasts" (ClassList.set_data (domain_contrasts p) []))
    with p
    by (destruct (bool_decide_reflect (calculation p = Calculations.Domains));
        destruct (bool_decide_reflect (model p = LayerModels.StandardLayers));
        cbn [andb]; try reflexivity;
        (rewrite set_data_empty by (apply E2; tauto)); symmetry; apply upd_same; reflexivity).
  rewrite bind_run, set_layers_run.
  replace (if decide (model p ≠ LayerModels.StandardLayers)
           then upd p "layers" (ClassList.set_data (layers p) []) else p)
    with p
    by (destruct decide as [H|H]; [| reflexivity];
        rewrite (set_data_empty _ (E3 H)); symmetry; apply upd_same; reflexivity).
  rewrite bind_run, (set_calculation_skip _ Hc).
  rewrite bind_run.
  replace (set_contrast_model_field p) with (p, Ok ()).
  2: { unfold set_contrast_model_field. rewrite bind_run. cbn [get_self].
       rewrite Hm, String.eqb_refl. reflexivity. }
  rewrite bind_run, (check_contrast_model_length_pass _ Hl).
  rewrite bind_run, (set_absorption_skip _ Ha). reflexivity.
Qed.

Lemma rename_value_insert (old new : string) (v : Value) :
  rename_value (if decide (old = new) then [] else [(old, new)]) v = replace_name old new v.
Proof.
  unfold replace_name. destruct (decide (old = new)) as [->|H]; cbn.
  - destruct (bool_decide_reflect (v = VStr new)) as [->|_]; reflexivity.
  - reflexivity.
Qed.

Lemma entry_diffs_insert (p : Project) (cl1 : ClassList.t) (i : nat) (old new : string) :
  _all_names p = all_names p →
  ClassList.get_names (parameters p) !! i = Some old →
  ClassList.get_names cl1 = <[i := new]> (ClassList.get_names (parameters p)) →
  entry_diffs (upd p "parameters" cl1) "parameters"
  = Ok (if decide (old = new) then [] else [(old, new)]).
Proof.
  intros Hn Hi H1. unfold entry_diffs.
  rewrite (proj1 (upd_private p "parameters" cl1)), Hn.
  change (names_get (all_names p) "parameters") with (Ok (ClassList.get_names (parameters p))).
  rewrite (getattr_upd_eq p "parameters" (parameters p) cl1 eq_refl). cbn.
  rewrite H1, length_insert, Nat.eqb_refl, (name_diff_insert _ _ _ _ Hi). reflexivity.
Qed.

(** X13.  One rename, end to end.  On a project that the validation accepts
    as it is, let the parameter at index [i], named [old], get the name
    [new], the other parameters keeping their names and their places.  If
    the validation of the result succeeds, then the parameters are the
    renamed ones, the layers keep their class, their number and their order,
    and each field of a layer that the uses table registers for the
    parameters (thickness, SLD, SLD_real, SLD_imaginary, roughness,
    hydration) holds [new] where it held [old] and its former value
    otherwise; every other field of a layer is unchanged. *)
Theorem rename_propagates (p p' : Project) (cl1 : ClassList.t) (i : nat) (old new : string) :
  model_validate p = (p, Ok ()) →
  ClassList.get_names (parameters p) !! i = Some old →
  ClassList.get_names cl1 = <[i := new]> (ClassList.get_names (parameters p)) →
  model_validate (upd p "parameters" cl1) = (p', Ok ()) →
  parameters p' = cl1
  ∧ ClassList._class_handle (layers p') = ClassList._class_handle (layers p)
  ∧ Forall2 (λ m m', ∀ f,
       dict_get (model_dump m') f
       = (if bool_decide (f ∈ ["thickness"; "SLD"; "SLD_real"; "SLD_imaginary"; "roughness";
                               "hydration"])
          then replace_name old new else id) <$> dict_get (model_dump m) f)
      (ClassList.data (layers p)) (ClassList.data (layers p')).
Proof.
  intros Hp Hi H1 H. pose proof (validation_validates _ _ Hp) as Hv.
  destruct (validated_upd_parameters p cl1 Hv) as (V1 & V2 & V3 & V4 & V5).
  destruct Hv as (_ & _ & _ & _ & _ & Hn & _).
  apply model_validate_Ok in H. rewrite (first_passes_skip _ V1 V2 V3 V4 V5) in H.
  apply bind_Ok in H as (p8 & [] & H8 & H). apply bind_Ok in H as (p9 & [] & H9 & H10).
  apply cross_check_model_values_run in H9 as [-> _].
  apply check_protected_parameters_frame in H10 as [_ H10].
  destruct (update_renamed_models_spec _ _ _ H8) as [Hspec _].
  destruct (Hspec eq_refl) as (_ & q & (_ & _ & _ & _ & Hq) & ->). clear Hspec.
  pose proof (update_renamed_models_frame _ _ H8) as [_ F8].
  assert (Hpar : getattr p' "parameters" = Ok cl1).
  { rewrite H10 by apply not_elem_of_nil. rewrite F8 by compute_done.
    apply (getattr_upd_eq p "parameters" (parameters p) cl1 eq_refl). }
  assert (Hlay : getattr p' "layers"
                 = Ok (ClassList.mk
                         (map (renamed_model model_names_used_in (upd p "parameters" cl1) "layers")
                            (ClassList.data (layers p)))
                         (ClassList._class_handle (layers p)))).
  { rewrite H10 by apply not_elem_of_nil.
    change (getattr (with_all_names q (all_names q)) "layers") with (getattr q "layers").
    apply (Hq "layers" (layers p)). destruct p. reflexivity. }
  change (getattr p' "parameters") with (Ok (parameters p') : result ClassList.t) in Hpar.
  change (getattr p' "layers") with (Ok (layers p') : result ClassList.t) in Hlay.
  injection Hpar as ->. injection Hlay as ->.
  split; [reflexivity |]. split; [reflexivity |].
  cbn [ClassList.data]. apply Forall2_fmap_r, Forall_Forall2_diag, list.Forall_forall.
  intros m _ f. rewrite renamed_model_filter.
  change (List.filter _ model_names_used_in)
    with [("parameters",
           mkAllFields "layers"
             ["thickness"; "SLD"; "SLD_real"; "SLD_imaginary"; "roughness"; "hydration"])].
  cbn [fold_left fst snd]. rewrite (entry_diffs_insert _ _ _ _ _ Hn Hi H1).
  rewrite rename_all_get. cbn [fields].
  destruct (bool_decide _); [| reflexivity].
  destruct (dict_get (model_dump m) f) as [v|]; [| reflexivity].
  cbn [fmap option_fmap option_map]. rewrite rename_value_insert. reflexivity.
Qed.

Lemma rename_propagates_witness :
  (wrapped_set_fields "parameters" 1 [("name", VStr "T1b")] referenced_parameter_project.1).2
  = Ok ()
  ∧ field_values
      (layers (wrapped_set_fields "parameters" 1 [("name", VStr "T1b")]
                 referenced_parameter_project.1).1) "thickness"
    = [Some (VStr "T1b")]
  ∧ parameters (model_validate (upd referenced_parameter_project.1 "parameters"
                                  renamed_parameters)).1
    = renamed_parameters.
Proof.
  split; [vm_compute; reflexivity |]. split; [vm_compute; reflexivity |].
  refine (proj1 (rename_propagates referenced_parameter_project.1
                   (model_validate (upd referenced_parameter_project.1 "parameters"
                                      renamed_parameters)).1
                   renamed_parameters 1 "T1" "T1b" _ _ _ _));
    vm_compute; reflexivity.
Defined.

(** ** The classes of the ClassLists at construction *)

Lemma ensure_handle_set (a b : string) (c : class) (p p' : Project) :
  ensure_handle b c p = (p', Ok ()) →
  handle_set a (if String.eqb b a then Some c else None) p p'.
Proof.
  unfold ensure_handle, attr. rewrite !bind_run. cbn [get_self]. unfold lift.
  destruct (getattr p b) as [clb|e] eqn:Eb; [| discriminate].
  destruct (ClassList._class_handle clb) as [h|] eqn:Eh.
  - intros [= <-] cl Hcl. exists cl. split; [exact Hcl |]. split; [reflexivity |].
    destruct (String.eqb_spec b a) as [->|_]; [| destruct (ClassList._class_handle cl); reflexivity].
    assert (cl = clb) by congruence. subst. rewrite Eh. reflexivity.
  - unfold assign_handle. rewrite !bind_run. cbn [get_self]. unfold lift. rewrite Eb.
    rewrite bind_run, (set_classlist_upd _ _ _ _ Eb). cbn. intros [= <-] cl Hcl.
    destruct (String.eqb_spec b a) as [->|Hne].
    + rewrite (getattr_upd_eq _ _ _ _ Eb). eexists. split; [reflexivity |].
      assert (cl = clb) by congruence. subst. rewrite Eh. split; reflexivity.
    + rewrite getattr_upd_ne by congruence. exists cl. split; [exact Hcl |].
      split; [reflexivity |]. destruct (ClassList._class_handle cl); reflexivity.
Qed.

Lemma handle_set_trans (a : string) (c1 c2 : option class) (p q r : Project) :
  handle_set a c1 p q → handle_set a c2 q r →
  handle_set a (match c1 with Some c => Some c | None => c2 end) p r.
Proof.
  intros H1 H2 cl Hcl. destruct (H1 cl Hcl) as (cl1 & Hcl1 & Hd1 & Hh1).
  destruct (H2 cl1 Hcl1) as (cl2 & Hcl2 & Hd2 & Hh2).
  exists cl2. split; [exact Hcl2 |]. split; [congruence |]. rewrite Hh2, Hh1.
  destruct (ClassList._class_handle cl); [reflexivity |]. destruct c1; reflexivity.
Qed.

Lemma ensure_handles_set (a : string) (table : list (string * class)) (p p' : Project) :
  for_each table (λ '(field_name, model), ensure_handle field_name model) p = (p', Ok ()) →
  handle_set a (match lookup_class table a with Ok c => Some c | Raise _ => None end) p p'.
Proof.
  revert p. induction table as [|[field_name model] table IH]; intros p.
  - intros [= <-] cl Hcl. exists cl. split; [exact Hcl |]. split; [reflexivity |].
    destruct (ClassList._class_handle cl); reflexivity.
  - cbn [for_each lookup_class]. intros (q & [] & H1 & H2)%bind_Ok.
    pose proof (handle_set_trans _ _ _ _ _ _ (ensure_handle_set a _ _ _ _ H1) (IH _ H2)) as H.
    destruct (String.eqb field_name a); exact H.
Qed.

(** X14.  The classes that the construction gives.  [model_post_init] keeps
    the class of a ClassList that has one, and gives a ClassList that has
    none the class of [model_in_classlist], except that the layers get
    AbsorptionLayer when the absorption is on and the contrasts get
    ContrastWithRatio when the calculation is domains; the entities of the
    list are the supplied ones.  (The parameters and the data, which the
    routine may also extend, are the subject of other properties.) *)
Theorem construction_classes (p p' : Project) (a : string) (cl : ClassList.t) :
  model_post_init p = (p', Ok ()) →
  a ≠ "parameters" → a ≠ "data" → getattr p a = Ok cl →
  ∃ cl', getattr p' a = Ok cl'
    ∧ ClassList.data cl' = ClassList.data cl
    ∧ ClassList._class_handle cl'
      = match ClassList._class_handle cl with
        | Some h => Some h
        | None => initial_class p a
        end.
Proof.
  intros H Hpar Hdat Hcl. unfold model_post_init in H. rewrite bind_run in H. cbn [get_self] in H.
  apply bind_Ok in H as (q1 & [] & E1 & H). apply (ensure_handle_set a) in E1.
  apply bind_Ok in H as (q2 & [] & E2 & H). apply (ensure_handle_set a) in E2.
  apply bind_Ok in H as (q3 & [] & E3 & H). apply (ensure_handles_set a) in E3.
  pose proof (handle_set_trans _ _ _ _ _ _ (handle_set_trans _ _ _ _ _ _ E1 E2) E3) as Hset.
  clear E1 E2 E3.
  rewrite bind_run in H. cbn [get_self] in H.
  rewrite bind_run in H. unfold lift at 1 in H. rewrite get_all_protected_parameters_run in H.
  rewrite bind_run in H. unfold lift at 1 in H.
  change (names_get (all_protected q3) "parameters") with (Ok (protected_names (parameters q3)))
    in H.
  apply bind_Ok in H as (q4 & [] & Hbranch & H).
  assert (F4 : frame ["parameters"] q3 q4).
  { destruct (negb _).
    - apply (on_classlist_frame _ _ _ _ _ Hbranch).
    - destruct (negb _).
      + apply bind_Ok in Hbranch as (q & found & [-> _]%lift_Ok & Hbranch).
        apply bind_Ok in Hbranch as (q5 & [] & F1%on_classlist_frame & Hbranch).
        apply bind_Ok in Hbranch as (q6 & rep & [-> _]%lift_Ok & F2%on_classlist_frame).
        apply (frame_weaken ["parameters"; "parameters"]);
          [| exact (frame_trans _ _ _ _ _ F1 F2)].
        intros x Hx. rewrite !elem_of_cons in Hx. rewrite elem_of_cons. tauto.
      + injection Hbranch as <-. apply frame_refl. }
  clear Hbranch. rewrite bind_run in H. cbn [get_self] in H.
  apply bind_Ok in H as (q5 & [] & Hd & H).
  assert (F5 : frame ["data"] q4 q5).
  { destruct (negb _); [apply (on_classlist_frame _ _ _ _ _ Hd) |].
    injection Hd as <-. apply frame_refl. }
  clear Hd.
  assert (Hp' : getattr p' a = getattr q5 a).
  { unfold put_self, lift in H. rewrite !bind_run in H. cbn [get_self] in H.
    rewrite get_all_names_run in H.
    change ((let q6 := with_all_names q5 (all_names q5) in
             let q7 := with_contrast_model_field q6 (get_contrast_model_field q6) in
             with_protected_parameters q7 (all_protected q7), Ok ()) = (p', Ok ())) in H.
    injection H as <-. reflexivity. }
  destruct (Hset cl Hcl) as (cl3 & Hcl3 & Hd3 & Hh3).
  exists cl3. split.
  { rewrite Hp', (proj2 F5), (proj2 F4); [exact Hcl3 | |];
      intros [->|[]%not_elem_of_nil]%elem_of_cons; contradiction. }
  split; [exact Hd3 |]. rewrite Hh3.
  destruct (ClassList._class_handle cl); [reflexivity |].
  unfold initial_class. rewrite (String.eqb_sym a "layers"), (String.eqb_sym a "contrasts").
  destruct (String.eqb "layers" a); [reflexivity |].
  destruct (String.eqb "contrasts" a); reflexivity.
Qed.

Lemma construction_classes_witness :
  ∃ cl', getattr (model_post_init (with_absorption default_fields true)).1 "layers" = Ok cl'
    ∧ ClassList.data cl' = []
    ∧ ClassList._class_handle cl' = Some cAbsorptionLayer.
Proof.
  refine (construction_classes (with_absorption default_fields true)
            (model_post_init (with_absorption default_fields true)).1 "layers"
            (ClassList.mk [] None) _ _ _ _);
    [vm_compute; reflexivity | discriminate | discriminate | reflexivity].
Defined.
